(** * FLMR late-interaction retrieval: scoring, assembling and batch encoding

    A shallow embedding of [src/transformers/models/flmr/modeling_flmr.py]:
    the ColBERT-style scorer ([colbert_score_reduce], [colbert_score],
    [colbert_score_packed]), the padding helper [_stack_3D_tensors], the
    in-batch-negative loss, the distributed gather step, the multimodal
    assembler ([query], [doc]) and the batch encoder ([docFromText]).

    Modelling conventions.
    - A torch tensor is its shape together with its contiguous row-major
      storage ([tensor]).  Entries of floating tensors are modelled as exact
      integers ([Z]).  Of the dtype the model keeps the one rounding that
      changes what the scorer returns: the value a tensor holds after the
      constant -9999 is assigned to it ([sentinel]); the rounding of sums
      and products is outside the model.
    - Python exceptions are values of [exn]; a computation that may raise
      returns a [result].
    - The similarity tensor that [colbert_score_reduce] overwrites lives in a
      store of tensor objects addressed by references, so that the caller
      observes the write. *)

From stdpp Require Import gmap list strings.
From Stdlib Require Import ZArith Lia.

Set Default Proof Using "Type".

(** ** Exceptions and the error monad *)

Inductive exn : Set :=
  | AssertionError
  | UnboundLocalError
  | TypeError
  | AttributeError
  | ValueError
  | IndexError
  | RuntimeError
  | ZeroDivisionError.

Inductive result (A : Type) : Type :=
  | Ok (a : A)
  | Raise (e : exn).
Arguments Ok {A} a.
Arguments Raise {A} e.

#[global] Instance result_ret : MRet result := λ A a, Ok a.
#[global] Instance result_bind : MBind result :=
  λ A B f m, match m with Ok a => f a | Raise e => Raise e end.
#[global] Instance result_fmap : FMap result :=
  λ A B f m, match m with Ok a => Ok (f a) | Raise e => Raise e end.

Definition is_raise {A} (r : result A) : Prop :=
  match r with Ok _ => False | Raise _ => True end.

(** [assert c] of Python. *)
Definition py_assert (c : bool) : result unit :=
  if c then Ok tt else Raise AssertionError.

(** Monadic map over a list, left to right, stopping at the first exception. *)
Fixpoint mapR {A B} (f : A → result B) (l : list A) : result (list B) :=
  match l with
  | [] => Ok []
  | x :: l' => y ← f x; ys ← mapR f l'; Ok (y :: ys)
  end.

(** ** Tensors *)

Record tensor (A : Type) : Type := Tensor { shape : list nat; data : list A }.
Arguments Tensor {A} shape data.
Arguments shape {A} t.
Arguments data {A} t.

(** Number of elements of a shape. *)
Definition numel (sh : list nat) : nat := foldr Nat.mul 1 sh.

(** A tensor is well formed when its storage has one entry per index. *)
Definition wf {A} (t : tensor A) : Prop := length (data t) = numel (shape t).

(** [t.dim()] *)
Definition dim {A} (t : tensor A) : nat := length (shape t).

(** [t.size(k)] for a non-negative [k]. *)
Definition size {A} (t : tensor A) (k : nat) : result nat :=
  match shape t !! k with
  | Some n => Ok n
  | None => Raise IndexError
  end.

(** Cut a list into [n] consecutive blocks of [sz] entries. *)
Fixpoint chunk {A} (n sz : nat) (l : list A) : list (list A) :=
  match n with
  | 0 => []
  | S n' => take sz l :: chunk n' sz (drop sz l)
  end.

(** The (a, b) matrix view and the (a, b, c) view of a storage. *)
Definition nested2 {A} (a b : nat) (l : list A) : list (list A) := chunk a b l.
Definition nested3 {A} (a b c : nat) (l : list A) : list (list (list A)) :=
  chunk b c <$> chunk a (b * c) l.

(** The rows of a rank-2 tensor and the matrices of a rank-3 tensor. *)
Definition rows2 {A} (t : tensor A) : list (list A) :=
  match shape t with
  | [a; b] => nested2 a b (data t)
  | _ => []
  end.
Definition rows3 {A} (t : tensor A) : list (list (list A)) :=
  match shape t with
  | [a; b; c] => nested3 a b c (data t)
  | _ => []
  end.

(** [t.view(sh)] for an explicit shape: same storage, new shape. *)
Definition view {A} (t : tensor A) (sh : list nat) : result (tensor A) :=
  if decide (numel (shape t) = numel sh) then Ok (Tensor sh (data t))
  else Raise RuntimeError.

(** [t.bool()] on a boolean tensor and [~t]. *)
Definition tbool (t : tensor bool) : tensor bool := t.
Definition tnot (t : tensor bool) : tensor bool :=
  Tensor (shape t) (negb <$> data t).

(** ** Arithmetic on rows *)

Definition Zsum (l : list Z) : Z := foldr Z.add 0%Z l.
Definition dot (u v : list Z) : Z := Zsum (zip_with Z.mul u v).

(** Maximum of a non-empty list; [max([])] raises. *)
Definition Zmax_from (x : Z) (l : list Z) : Z := foldl Z.max x l.
Definition Zmax_list (l : list Z) : Z :=
  match l with
  | [] => 0%Z
  | x :: l' => Zmax_from x l'
  end.

(** Column [j] of a matrix given by its rows. *)
Definition column (j : nat) (m : list (list Z)) : list Z :=
  (λ r, nth j r 0%Z) <$> m.

(** Transpose of a matrix with [c] columns. *)
Definition transpose (c : nat) (m : list (list Z)) : list (list Z) :=
  (λ j, column j m) <$> seq 0 c.

(** Product of an (l, d) matrix with a (d, q) matrix, both given by rows. *)
Definition matmul2 (q : nat) (x y : list (list Z)) : list (list Z) :=
  (λ r, (λ j, dot r (column j y)) <$> seq 0 q) <$> x.

(** [t.permute(0, 2, 1)] of a rank-3 tensor, made contiguous. *)
Definition permute021 (t : tensor Z) : result (tensor Z) :=
  match shape t with
  | [a; b; c] =>
      Ok (Tensor [a; c; b] (concat (concat (transpose c <$> nested3 a b c (data t)))))
  | _ => Raise RuntimeError
  end.

(** Broadcasting of the batch axis of two operands: equal sizes pair up,
    a size-one operand is repeated; other sizes do not broadcast. *)
Definition broadcast_dim (n m : nat) : result nat :=
  if decide (n = m) then Ok n
  else if decide (m = 1) then Ok n
  else if decide (n = 1) then Ok m
  else Raise RuntimeError.

Definition broadcast_zip {A B} (n m : nat) (xs : list A) (ys : list B)
    : list (A * B) :=
  if decide (n = m) then zip xs ys
  else if decide (m = 1) then
    match ys with
    | y :: _ => (λ x, (x, y)) <$> xs
    | [] => []
    end
  else
    match xs with
    | x :: _ => (λ y, (x, y)) <$> ys
    | [] => []
    end.

(** [x @ y] for two rank-3 tensors: batched matrix product. *)
Definition matmul3 (x y : tensor Z) : result (tensor Z) :=
  match shape x, shape y with
  | [n; l; d], [m; d'; q] =>
      if decide (d = d') then
        b ← broadcast_dim n m;
        let ps := broadcast_zip n m (nested3 n l d (data x)) (nested3 m d' q (data y)) in
        Ok (Tensor [b; l; q] (concat (concat ((λ p, matmul2 q p.1 p.2) <$> ps))))
      else Raise RuntimeError
  | _, _ => Raise RuntimeError
  end.

(** ** The store of tensor objects *)

Abbreviation loc := nat (only parsing).
Abbreviation store := (gmap nat (tensor Z)) (only parsing).

(** Computations that read and write the store and may raise.  The store
    written so far survives an exception, as it does in Python. *)
Definition St (A : Type) : Type := store → store * result A.

#[global] Instance St_ret : MRet St := λ A a h, (h, Ok a).
#[global] Instance St_bind : MBind St :=
  λ A B f m h, match m h with
               | (h', Ok a) => f a h'
               | (h', Raise e) => (h', Raise e)
               end.

Definition lift {A} (r : result A) : St A := λ h, (h, r).

(** A new tensor object. *)
Definition alloc (t : tensor Z) : St loc :=
  λ h, let r := fresh (dom h) in (<[r := t]> h, Ok r).

(** The current contents of a tensor object. *)
Definition load (r : loc) : St (tensor Z) :=
  λ h, match h !! r with
       | Some t => (h, Ok t)
       | None => (h, Raise RuntimeError)
       end.

(** Overwrite the contents of a tensor object. *)
Definition store_at (r : loc) (t : tensor Z) : St unit :=
  λ h, (<[r := t]> h, Ok tt).

(** ** Masked assignment and reductions *)

(** [t[m] = v] for a boolean index [m] over the two leading axes of [t]:
    every entry of [t] below a selected (i, k) is overwritten. *)
Definition index_put (t : tensor Z) (m : tensor bool) (v : Z) : result (tensor Z) :=
  match shape t with
  | a :: b :: rest =>
      if decide (shape m = [a; b]) then
        let inner := numel rest in
        Ok (Tensor (shape t)
              (concat (zip_with (λ (sel : bool) blk, if sel then replicate (length blk) v else blk)
                         (data m) (chunk (a * b) inner (data t)))))
      else Raise IndexError
  | _ => Raise IndexError
  end.

(** Entry-wise maximum of a non-empty list of equally long blocks. *)
Definition max_blocks (blks : list (list Z)) : result (list Z) :=
  match blks with
  | [] => Raise IndexError
  | blk :: blks' => Ok (foldl (zip_with Z.max) blk blks')
  end.

(** [t.max(1).values] *)
Definition max_dim1 (t : tensor Z) : result (tensor Z) :=
  match shape t with
  | a :: b :: rest =>
      let inner := numel rest in
      if decide (b = 0) then Raise IndexError
      else
        ms ← mapR (λ blk, max_blocks (chunk b inner blk)) (chunk a (b * inner) (data t));
        Ok (Tensor (a :: rest) (concat ms))
  | _ => Raise IndexError
  end.

(** Split a shape into its leading axes and its last axis. *)
Fixpoint split_last (sh : list nat) : option (list nat * nat) :=
  match sh with
  | [] => None
  | [n] => Some ([], n)
  | n :: sh' => prod_map (cons n) id <$> split_last sh'
  end.

(** [t.sum(-1)] *)
Definition sum_last (t : tensor Z) : result (tensor Z) :=
  match split_last (shape t) with
  | Some (lead, n) => Ok (Tensor lead (Zsum <$> chunk (numel lead) n (data t)))
  | None => Raise IndexError
  end.

(** ** Floating dtypes *)

(** The floating dtypes of torch, with the number of significant bits of
    each (the hidden bit included). *)
Inductive dtype : Set := float64 | float32 | float16 | bfloat16.

Definition significand_bits (dt : dtype) : Z :=
  match dt with
  | float64 => 53
  | float32 => 24
  | float16 => 11
  | bfloat16 => 8
  end.

(** An integer within the finite range of a dtype as a tensor of that dtype
    stores it: unchanged when it fits the significant bits, else rounded to
    the nearest multiple of the spacing at its magnitude, a tie going to the
    even multiple. *)
Definition round_to_dtype (dt : dtype) (v : Z) : Z :=
  let p := significand_bits dt in
  let a := Z.abs v in
  if (a <? 2 ^ p)%Z then v
  else
    let spacing := (2 ^ (Z.log2 a + 1 - p))%Z in
    let q := (a `div` spacing)%Z in
    let r := (a `mod` spacing)%Z in
    let q' := if (2 * r <? spacing)%Z then q
              else if (spacing <? 2 * r)%Z then (q + 1)%Z
              else if Z.even q then q else (q + 1)%Z in
    (Z.sgn v * (q' * spacing))%Z.

(** What a tensor of the dtype holds where [-9999] has been assigned:
    -9999 in float64 and float32, -10000 in float16 (spacing 8), -9984 in
    bfloat16 (spacing 64). *)
Definition sentinel (dt : dtype) : Z := round_to_dtype dt (-9999).

(** ** The scorer *)

(** [colbert_score_reduce(scores_padded, D_mask)]: the caller's tensor
    object [scores_padded] is overwritten at the padding positions, then
    reduced by a maximum over axis 1 and a sum over the last axis.  [dt] is
    [scores_padded.dtype]: the assignment stores -9999 as that dtype
    represents it. *)
Definition colbert_score_reduce (dt : dtype) (scores_padded : loc) (D_mask : tensor bool)
    : St (tensor Z) :=
  s ← load scores_padded;
  n0 ← lift (size s 0);
  n1 ← lift (size s 1);
  m ← lift (view D_mask [n0; n1]);
  let D_padding := tnot (tbool m) in
  s' ← lift (index_put s D_padding (sentinel dt));
  _ ← store_at scores_padded s';
  s'' ← load scores_padded;
  scores ← lift (max_dim1 s'');
  lift (sum_last scores).

(** [colbert_score(Q, D_padded, D_mask, use_gpu)].  Moving the operands to
    the accelerator does not change their values.  [dt] is
    [D_padded.dtype]: the query is cast to it, so the product has it. *)
Definition colbert_score (dt : dtype) (Q D_padded : tensor Z) (D_mask : tensor bool)
    (use_gpu : bool) : St (tensor Z) :=
  _ ← lift (py_assert (bool_decide (dim Q = 3)));
  _ ← lift (py_assert (bool_decide (dim D_padded = 3)));
  q0 ← lift (size Q 0);
  d0 ← lift (size D_padded 0);
  _ ← lift (py_assert (bool_decide (q0 ∈ [1; d0])));
  qt ← lift (permute021 Q);
  sc ← lift (matmul3 D_padded qt);
  scores ← alloc sc;
  colbert_score_reduce dt scores D_mask.

(** ** Nested views used to state the properties *)

(** A list of matrices that all have [b] rows of [c] entries. *)
Definition uniform3 {A} (b c : nat) (ms : list (list (list A))) : Prop :=
  Forall (λ m, length m = b ∧ Forall (λ r, length r = c) m) ms.

(** The similarity matrix of one document against one query: entry (k, j)
    is the dot product of document row [k] with query row [j]. *)
Definition sim_matrix (Di Qi : list (list Z)) : list (list Z) :=
  (λ r, dot r <$> Qi) <$> Di.

(** Rows of a similarity matrix with the rows of masked-out positions
    overwritten by the value [fill]. *)
Definition mask_rows (fill : Z) (Mi : list bool) (mat : list (list Z)) : list (list Z) :=
  zip_with (λ (m : bool) row, if m then row else replicate (length row) fill) Mi mat.

(** Entry-wise maximum over the rows of a matrix. *)
Definition col_max (rows : list (list Z)) : list Z :=
  match rows with
  | [] => []
  | r :: rs => foldl (zip_with Z.max) r rs
  end.

(** MaxSim of one query against one document: for every query token the
    best similarity among the document positions, a masked-out position
    counting as [fill]; summed over the query tokens. *)
Definition maxsim (fill : Z) (Qi Di : list (list Z)) (Mi : list bool) : Z :=
  Zsum ((λ q, Zmax_list (zip_with (λ d (m : bool), if m then dot d q else fill) Di Mi))
          <$> Qi).

(** The query scored against document [i]: the only one, or the aligned one. *)
Definition query_index (Nq i : nat) : nat := if decide (Nq = 1) then 0 else i.

(** ** Further tensor operations *)

(** The (a, b, c, d) view of a storage. *)
Definition nested4 {A} (a b c d : nat) (l : list A) : list (list (list (list A))) :=
  nested3 b c d <$> chunk a (b * (c * d)) l.

(** [t.unsqueeze(k)] for a non-negative [k]. *)
Definition unsqueeze {A} (k : nat) (t : tensor A) : result (tensor A) :=
  if decide (k ≤ dim t)
  then Ok (Tensor (take k (shape t) ++ 1 :: drop k (shape t)) (data t))
  else Raise IndexError.

(** [x @ y] for two rank-4 tensors, both batch axes broadcasting. *)
Definition matmul4 (x y : tensor Z) : result (tensor Z) :=
  match shape x, shape y with
  | [n1; n2; l; d], [m1; m2; d'; q] =>
      if decide (d = d') then
        b1 ← broadcast_dim n1 m1;
        b2 ← broadcast_dim n2 m2;
        let outer := broadcast_zip n1 m1 (nested4 n1 n2 l d (data x))
                       (nested4 m1 m2 d' q (data y)) in
        Ok (Tensor [b1; b2; l; q]
              (concat (concat (concat
                 ((λ p, (λ p', matmul2 q p'.1 p'.2) <$> broadcast_zip n2 m2 p.1 p.2)
                    <$> outer)))))
      else Raise RuntimeError
  | _, _ => Raise RuntimeError
  end.

(** [t.flatten(0, 1)] *)
Definition flatten01 {A} (t : tensor A) : result (tensor A) :=
  match shape t with
  | a :: b :: rest => Ok (Tensor (a * b :: rest) (data t))
  | _ => Raise IndexError
  end.

(** [t.repeat(n, 1, 1)]: a tensor of rank at most 3 is first given leading
    axes of size one up to rank 3, then tiled [n] times along axis 0. *)
Definition repeat_n11 {A} (n : nat) (t : tensor A) : result (tensor A) :=
  match shape t with
  | [a; b; c] => Ok (Tensor [n * a; b; c] (concat (replicate n (data t))))
  | [b; c] => Ok (Tensor [n; b; c] (concat (replicate n (data t))))
  | [c] => Ok (Tensor [n; 1; c] (concat (replicate n (data t))))
  | [] => Ok (Tensor [n; 1; 1] (concat (replicate n (data t))))
  | _ => Raise RuntimeError
  end.

(** [t.reshape(n, -1)] *)
Definition reshape_rows {A} (n : nat) (t : tensor A) : result (tensor A) :=
  if decide (n = 0) then Raise RuntimeError
  else if decide (numel (shape t) `mod` n = 0)
       then Ok (Tensor [n; numel (shape t) `div` n] (data t))
       else Raise RuntimeError.

(** [torch.zeros(n, m)] *)
Definition zeros2 (n m : nat) : tensor Z := Tensor [n; m] (replicate (n * m) 0%Z).

(** [t[i, j] = v] on a rank-2 tensor, for non-negative indices. *)
Definition set2 (t : tensor Z) (i j : nat) (v : Z) : result (tensor Z) :=
  match shape t with
  | [n; m] =>
      if decide (i < n ∧ j < m) then Ok (Tensor [n; m] (<[i * m + j := v]> (data t)))
      else Raise IndexError
  | _ => Raise IndexError
  end.

(** Position of the first greatest entry of a non-empty list. *)
Fixpoint argmax_from (best : Z) (besti : nat) (i : nat) (l : list Z) : nat :=
  match l with
  | [] => besti
  | x :: l' =>
      if decide (best < x)%Z then argmax_from x i (S i) l'
      else argmax_from best besti (S i) l'
  end.
Definition argmax_list (l : list Z) : nat :=
  match l with
  | [] => 0
  | x :: l' => argmax_from x 0 1 l'
  end.

(** [torch.argmax(t, dim=1)] on a rank-2 tensor. *)
Definition argmax_dim1 (t : tensor Z) : result (tensor nat) :=
  match shape t with
  | [n; m] =>
      if decide (m = 0) then Raise IndexError
      else Ok (Tensor [n] (argmax_list <$> chunk n m (data t)))
  | _ => Raise IndexError
  end.

(** [a // b] on non-negative integers. *)
Definition floordiv (a b : nat) : result nat :=
  if decide (b = 0) then Raise ZeroDivisionError else Ok (a `div` b).

(** A [for] loop over a list whose body updates one variable and may raise. *)
Fixpoint for_each {A S} (l : list A) (body : A → S → result S) (s : S) : result S :=
  match l with
  | [] => Ok s
  | x :: l' => s' ← body x s; for_each l' body s'
  end.

(** [torch.cat(ts)] along axis 0. *)
Definition cat0 {A} (ts : list (tensor A)) : result (tensor A) :=
  match ts with
  | [] => Raise RuntimeError
  | t :: _ =>
      match shape t with
      | [] => Raise RuntimeError
      | _ :: rest =>
          if bool_decide (Forall (λ t', tail (shape t') = rest ∧ shape t' ≠ []) ts)
          then Ok (Tensor (sum_list ((λ t', hd 0 (shape t')) <$> ts) :: rest)
                     (concat (data <$> ts)))
          else Raise RuntimeError
      end
  end.

(** ** Numeric kernels and collaborators

    The floating-point kernels of torch have no exact integer counterpart
    and are taken as given: the L2 normalisation of one vector, the cast to
    half precision of one entry, and the cross-entropy loss. *)
Record Torch : Type := {
  normalize_vec : list Z → list Z;
  half : Z → Z;
  CrossEntropyLoss : tensor Z → tensor nat → result (tensor Z);
}.

(** The process group of [torch.distributed]: its size, the rank of this
    process and the tensors [all_gather] collects from the ranks. *)
Record Dist : Type := {
  get_world_size : nat;
  get_rank : nat;
  all_gather : ∀ A : Type, tensor A → list (tensor A);
}.

(** ** In-batch negative loss *)

(** The labels built by the loop [in_batch_labels[i, step*i] = 1] followed
    by [torch.argmax(in_batch_labels, dim=1)]. *)
Definition in_batch_labels (batch_size batch_size_with_pos_and_neg : nat)
    : result (tensor nat) :=
  num_pos_and_neg ← floordiv batch_size_with_pos_and_neg batch_size;
  let num_pos := 1 in
  let num_neg := num_pos_and_neg - num_pos in
  let in_batch_labels := zeros2 batch_size batch_size_with_pos_and_neg in
  let step := num_pos_and_neg in
  in_batch_labels ← for_each (seq 0 batch_size)
                      (λ i labels, set2 labels i (step * i) 1) in_batch_labels;
  argmax_dim1 in_batch_labels.

(** The score matrix of [compute_ib_loss_new]: every query against every
    document, reduced by [colbert_score_reduce].  The operands are cast
    with [.float()], so the product is a float32 tensor. *)
Definition in_batch_scores (Q D : tensor Z) (D_mask : tensor bool) : St (tensor Z) :=
  flat ← lift (d4 ← unsqueeze 0 D; qp ← permute021 Q; q4 ← unsqueeze 1 qp;
               prod ← matmul4 d4 q4; flatten01 prod);
  scores ← alloc flat;
  q0 ← lift (size Q 0);
  rep ← lift (repeat_n11 q0 D_mask);
  scores ← colbert_score_reduce float32 scores rep;
  lift (reshape_rows q0 scores).

(** [compute_ib_loss_new(self, Q, D, D_mask)] *)
Definition compute_ib_loss_new (torch : Torch) (Q D : tensor Z) (D_mask : tensor bool)
    : St (tensor Z) :=
  in_batch_scores ← in_batch_scores Q D D_mask;
  batch_size ← lift (size Q 0);
  batch_size_with_pos_and_neg ← lift (size D 0);
  in_batch_labels ← lift (in_batch_labels batch_size batch_size_with_pos_and_neg);
  lift (CrossEntropyLoss torch in_batch_scores in_batch_labels).

(** ** Gathering across workers *)

(** One of the three loops of [gather_tensors_from_other_gpus]: the
    gathered copies, with this worker's own tensor put back in its slot. *)
Definition own_slot {A} (current_rank : nat) (own : tensor A)
    (placeholder : list (tensor A)) : list (tensor A) :=
  imap (λ rank_index remote,
          if decide (rank_index ≠ current_rank) then remote else own) placeholder.

(** [gather_tensors_from_other_gpus(self, query_embeddings, item_embeddings, item_mask)] *)
Definition gather_tensors_from_other_gpus (dist : Dist)
    (query_embeddings item_embeddings : tensor Z) (item_mask : tensor bool)
    : result (tensor Z * tensor Z * tensor bool) :=
  let n_nodes := get_world_size dist in
  if decide (n_nodes = 1) then Ok (query_embeddings, item_embeddings, item_mask)
  else
    let global_query_embeddings_placeholder := all_gather dist Z query_embeddings in
    let global_item_embeddings_placeholder := all_gather dist Z item_embeddings in
    let global_item_mask_placeholder := all_gather dist bool item_mask in
    let current_rank := get_rank dist in
    let global_query_embeddings :=
      own_slot current_rank query_embeddings global_query_embeddings_placeholder in
    let global_item_embeddings :=
      own_slot current_rank item_embeddings global_item_embeddings_placeholder in
    let global_item_mask :=
      own_slot current_rank item_mask global_item_mask_placeholder in
    query_embeddings ← cat0 global_query_embeddings;
    item_embeddings ← cat0 global_item_embeddings;
    item_mask ← cat0 global_item_mask;
    Ok (query_embeddings, item_embeddings, item_mask).

(** ** The packed scoring path *)

(** The fields of [ColBERTConfig] read by [colbert_score_packed]. *)
Record ColBERTConfig : Type := {
  total_visible_gpus : nat;
  interaction : string;
}.

(** The compiled extension [segmented_maxsim_cpp] over packed scores and
    document lengths. *)
Definition segmented_maxsim_t : Type := tensor Z → tensor nat → result (tensor Z).

(** The ColBERT library: [StridedTensor(scores, lengths, use_gpu).as_padded_tensor()]. *)
Record ColBERT : Type := {
  as_padded_tensor : tensor Z → tensor nat → bool → result (tensor Z * tensor bool);
}.

(** [try_load_torch_extensions(cls, use_gpu)] acting on the class attribute
    [segmented_maxsim] (absent until the extension is loaded).  [load]
    stands for compiling and loading [segmented_maxsim_cpp], which may
    raise.  [__init__] calls the method with [self.use_gpu], which it has
    just set to True. *)
Definition try_load_torch_extensions (segmented_maxsim : option segmented_maxsim_t)
    (use_gpu : bool) (load : result segmented_maxsim_t)
    : result (option segmented_maxsim_t) :=
  if bool_decide (is_Some segmented_maxsim) || use_gpu then Ok segmented_maxsim
  else
    segmented_maxsim_cpp ← load;
    Ok (Some segmented_maxsim_cpp).

(** [t.squeeze(0)] *)
Definition squeeze0 {A} (t : tensor A) : tensor A :=
  match shape t with
  | 1 :: rest => Tensor rest (data t)
  | _ => t
  end.

(** [t.T] of a rank-2 tensor. *)
Definition transpose2 (t : tensor Z) : result (tensor Z) :=
  match shape t with
  | [a; b] => Ok (Tensor [b; a] (concat (transpose b (nested2 a b (data t)))))
  | _ => Raise RuntimeError
  end.

(** [x @ y] for two rank-2 tensors. *)
Definition matmul2d (x y : tensor Z) : result (tensor Z) :=
  match shape x, shape y with
  | [n; d], [d'; q] =>
      if decide (d = d')
      then Ok (Tensor [n; q] (concat (matmul2 q (nested2 n d (data x)) (nested2 d' q (data y)))))
      else Raise RuntimeError
  | _, _ => Raise RuntimeError
  end.

(** Positional arguments of a Python call. *)
Inductive pyarg : Type :=
  | ArgTensor (r : nat) (dt : dtype)
  | ArgMask (m : tensor bool)
  | ArgConfig (c : ColBERTConfig).

(** A call of [colbert_score_reduce] with a list of positional arguments: the function is declared with the
    two parameters [scores_padded] and [D_mask]; any other number of
    positional arguments is a TypeError raised before the body runs. *)
Definition call_colbert_score_reduce (args : list pyarg) : St (tensor Z) :=
  match args with
  | [ArgTensor scores_padded dt; ArgMask D_mask] => colbert_score_reduce dt scores_padded D_mask
  | _ => lift (Raise TypeError)
  end.

(** [colbert_score_packed(Q, D_packed, D_lengths, config)].
    [segmented_maxsim] is the class attribute
    [FLMRModelForRetrieval.segmented_maxsim]; [dt] is [D_packed.dtype],
    which the scores and their padded view have. *)
Definition colbert_score_packed (colbert : ColBERT)
    (segmented_maxsim : option segmented_maxsim_t) (dt : dtype)
    (Q D_packed : tensor Z) (D_lengths : tensor nat) (config : ColBERTConfig)
    : St (tensor Z) :=
  let use_gpu := bool_decide (0 < total_visible_gpus config) in
  let Q := squeeze0 Q in
  _ ← lift (py_assert (bool_decide (dim Q = 2)));
  _ ← lift (py_assert (bool_decide (dim D_packed = 2)));
  scores ← lift (qt ← transpose2 Q; matmul2d D_packed qt);
  if use_gpu || bool_decide (interaction config = "flipr") then
    padded ← lift (as_padded_tensor colbert scores D_lengths use_gpu);
    scores_padded ← alloc padded.1;
    call_colbert_score_reduce [ArgTensor scores_padded dt; ArgMask padded.2; ArgConfig config]
  else
    match segmented_maxsim with
    | Some f => lift (f scores D_lengths)
    | None => lift (Raise AttributeError)
    end.

(** A padded view of packed scores, standing in for the ColBERT library in
    the examples: document [i] owns the next [lengths[i]] rows of the packed
    (tokens, q_len) matrix; shorter documents are filled up with zero rows
    that the mask marks as padding. *)
Fixpoint split_by_lengths {A} (lens : list nat) (rows : list A) : list (list A) :=
  match lens with
  | [] => []
  | n :: lens' => take n rows :: split_by_lengths lens' (drop n rows)
  end.

Definition pad_packed (scores : tensor Z) (lengths : tensor nat) (use_gpu : bool)
    : result (tensor Z * tensor bool) :=
  match shape scores with
  | [t; q] =>
      let maxlen := max_list (data lengths) in
      let docs := split_by_lengths (data lengths) (nested2 t q (data scores)) in
      Ok (Tensor [length docs; maxlen; q]
            (concat (concat ((λ rows, rows ++ replicate (maxlen - length rows) (replicate q 0%Z))
                               <$> docs))),
          Tensor [length docs; maxlen]
            (concat ((λ rows, replicate (length rows) true
                              ++ replicate (maxlen - length rows) false) <$> docs)))
  | _ => Raise RuntimeError
  end.

(** ** Tensor operations of the assembler *)

(** [t.tolist()] of a matrix of token ids.  Token ids are (batch, sequence)
    matrices; for any other rank the comprehension of [mask] meets a
    non-iterable or unhashable item. *)
Definition tolist2 {A} (t : tensor A) : result (list (list A)) :=
  match shape t with
  | [a; b] => Ok (nested2 a b (data t))
  | _ => Raise TypeError
  end.

(** [torch.tensor(rows)] for a list of equally long rows. *)
Definition tensor_of_rows {A} (rows : list (list A)) : tensor A :=
  match rows with
  | [] => Tensor [0] []
  | r :: _ => Tensor [length rows; length r] (concat rows)
  end.

(** [t.float()] of a boolean tensor and [t.bool()] of a numeric one. *)
Definition to_float (t : tensor bool) : tensor Z := Tensor (shape t) (Z.b2z <$> data t).
Definition to_bool (t : tensor Z) : tensor bool :=
  Tensor (shape t) ((λ x, bool_decide (x ≠ 0%Z)) <$> data t).

(** [x * y] for two rank-3 tensors, every axis broadcasting. *)
Definition mul3 (x y : tensor Z) : result (tensor Z) :=
  match shape x, shape y with
  | [a1; b1; c1], [a2; b2; c2] =>
      a ← broadcast_dim a1 a2;
      b ← broadcast_dim b1 b2;
      c ← broadcast_dim c1 c2;
      Ok (Tensor [a; b; c]
            (concat (concat
               ((λ p, (λ r, (λ e, (e.1 * e.2)%Z) <$> broadcast_zip c1 c2 r.1 r.2)
                        <$> broadcast_zip b1 b2 p.1 p.2)
                  <$> broadcast_zip a1 a2 (nested3 a1 b1 c1 (data x))
                        (nested3 a2 b2 c2 (data y))))))
  | _, _ => Raise RuntimeError
  end.

(** [t[:, 0]]: position 0 of axis 1. *)
Definition select1_0 {A} (t : tensor A) : result (tensor A) :=
  match shape t with
  | a :: b :: rest =>
      if decide (b = 0) then Raise IndexError
      else Ok (Tensor (a :: rest)
                 (concat (take (numel rest) <$> chunk a (b * numel rest) (data t))))
  | _ => Raise IndexError
  end.

(** [t[:, 0, :]] *)
Definition select1_0_rank3 {A} (t : tensor A) : result (tensor A) :=
  if decide (3 ≤ dim t) then select1_0 t else Raise IndexError.

(** [t.view(-1, sh...)]: the leading size is what is left of the elements. *)
Definition view_m1 {A} (t : tensor A) (sh : list nat) : result (tensor A) :=
  if decide (numel sh = 0) then Raise RuntimeError
  else if decide (numel (shape t) `mod` numel sh = 0)
       then Ok (Tensor (numel (shape t) `div` numel sh :: sh) (data t))
       else Raise RuntimeError.

(** [torch.ones(sh)] *)
Definition ones (sh : list nat) : tensor Z := Tensor sh (replicate (numel sh) 1%Z).

(** [torch.cat([x, y], dim=1)] for two rank-3 tensors. *)
Definition cat1 {A} (x y : tensor A) : result (tensor A) :=
  match shape x, shape y with
  | [a; b1; c], [a'; b2; c'] =>
      if decide (a = a' ∧ c = c')
      then Ok (Tensor [a; b1 + b2; c]
                 (concat (zip_with app (chunk a (b1 * c) (data x))
                            (chunk a' (b2 * c') (data y)))))
      else Raise RuntimeError
  | _, _ => Raise RuntimeError
  end.

(** [torch.nn.functional.normalize(t, p=2, dim=2)] on a rank-3 tensor:
    every vector along the last axis is normalised on its own. *)
Definition normalize (torch : Torch) (t : tensor Z) : result (tensor Z) :=
  match shape t with
  | [a; b; c] =>
      Ok (Tensor [a; b; c] (concat (normalize_vec torch <$> chunk (a * b) c (data t))))
  | _ => Raise IndexError
  end.

(** [t.half()] *)
Definition half_t (torch : Torch) (t : tensor Z) : tensor Z :=
  Tensor (shape t) (half torch <$> data t).

(** [t.squeeze(-1)] *)
Definition squeeze_last {A} (t : tensor A) : tensor A :=
  match split_last (shape t) with
  | Some (lead, 1) => Tensor lead (data t)
  | _ => t
  end.

(** Rows of [rows] at the positions where [sel] is true. *)
Fixpoint select_rows {A} (rows : list A) (sel : list bool) : list A :=
  match rows, sel with
  | r :: rows', b :: sel' => if b then r :: select_rows rows' sel' else select_rows rows' sel'
  | _, _ => []
  end.

(** [d[m]] for a matrix [d] with [l] rows of [c] entries and a boolean
    vector [m]: the rows of [d] where [m] is true. *)
Definition bool_index_rows {A} (l c : nat) (d : list A) (m : list bool)
    : result (tensor A) :=
  if decide (length m = l)
  then let rows := select_rows (chunk l c d) m in
       Ok (Tensor [length rows; c] (concat rows))
  else Raise IndexError.

(** [[d[mask[idx]] for idx, d in enumerate(D)]] *)
Definition ragged {A} (D : tensor A) (mask : tensor bool) : result (list (tensor A)) :=
  match shape D with
  | a :: l :: rest =>
      match shape mask with
      | [a'; l'] =>
          mapR (λ p, match chunk a' l' (data mask) !! p.1 with
                     | Some m => bool_index_rows l (numel rest) p.2 m
                     | None => Raise IndexError
                     end)
            (imap pair (chunk a (l * numel rest) (data D)))
      | _ => Raise IndexError
      end
  | _ => Raise IndexError
  end.

(** [t[idx]] for an index vector [idx] along axis 0. *)
Definition index_select0 {A} (t : tensor A) (idx : tensor nat) : result (tensor A) :=
  match shape t, shape idx with
  | a :: rest, [n] =>
      rows ← mapR (λ i, match chunk a (numel rest) (data t) !! i with
                        | Some r => Ok r
                        | None => Raise IndexError
                        end) (data idx);
      Ok (Tensor (n :: rest) (concat rows))
  | _, _ => Raise IndexError
  end.

(** [t.sum(-1)] of a boolean tensor: the number of true entries. *)
Definition count_last (t : tensor bool) : result (tensor nat) :=
  match split_last (shape t) with
  | Some (lead, n) =>
      Ok (Tensor lead ((λ r, length (filter (λ b, b = true) r)) <$> chunk (numel lead) n (data t)))
  | None => Raise IndexError
  end.

(** [t.flatten()] *)
Definition flatten {A} (t : tensor A) : tensor A := Tensor [numel (shape t)] (data t).

(** [t[m]] for a boolean vector [m] over axis 0 of a matrix [t]. *)
Definition bool_index0 {A} (t : tensor A) (m : tensor bool) : result (tensor A) :=
  match shape t, shape m with
  | [a; c], [a'] => if decide (a = a') then bool_index_rows a c (data t) (data m)
                    else Raise IndexError
  | _, _ => Raise IndexError
  end.

(** A local variable that is read before any assignment reached it. *)
Definition read_local {A} (v : option A) : result A :=
  match v with
  | Some a => Ok a
  | None => Raise UnboundLocalError
  end.

(** ** The multimodal assembler *)

Module FLMRConfig.
Record t : Type := {
  dim : nat;
  mask_punctuation : bool;
  mapping_network_prefix_length : nat;
  query_concat_output_from_vision_encoder : bool;
  query_concat_output_from_text_encoder : bool;
  context_concat_output_from_vision_encoder : bool;
  context_concat_output_from_text_encoder : bool;
}.
End FLMRConfig.

(** The attributes of a [FLMRModelForRetrieval] instance.  The encoders,
    projections and tokenizers are pretrained collaborators: each is a
    function that may raise.  A text encoder maps (input_ids,
    attention_mask) to its last hidden states, a vision encoder maps pixel
    values to its last hidden states.  [punctuation_ids] are the token ids
    of the punctuation symbols, from which [__init__] builds the skiplist. *)
Record FLMRModelForRetrieval : Type := {
  config : FLMRConfig.t;
  context_text_encoder : tensor Z → tensor Z → result (tensor Z);
  context_text_encoder_linear : tensor Z → result (tensor Z);
  context_vision_encoder : tensor Z → result (tensor Z);
  context_vision_projection : tensor Z → result (tensor Z);
  query_text_encoder : tensor Z → tensor Z → result (tensor Z);
  query_text_encoder_linear : tensor Z → result (tensor Z);
  query_vision_encoder : tensor Z → result (tensor Z);
  query_vision_projection : tensor Z → result (tensor Z);
  context_tokenizer : list string → result (tensor Z * tensor Z);
  punctuation_ids : gset Z;
  use_gpu : bool;
}.

(** [self.skiplist]: the attribute exists only when [__init__] ran with
    [config.mask_punctuation]. *)
Definition skiplist (self : FLMRModelForRetrieval) : result (gset Z) :=
  if FLMRConfig.mask_punctuation (config self) then Ok (punctuation_ids self)
  else Raise AttributeError.

(** [mask(self, input_ids, skiplist)] on the nested list of token ids. *)
Definition mask (input_ids : list (list Z)) (skiplist : gset Z) : list (list bool) :=
  (λ d : list Z, (λ x, bool_decide (x ∉ skiplist) && bool_decide (x ≠ 0%Z)) <$> d)
    <$> input_ids.

(** The value of the argument [keep_dims]. *)
Inductive keep_dims_t : Type :=
  | KeepTrue
  | KeepFalse
  | KeepStr (s : string).

#[global] Instance keep_dims_eq_dec : EqDecision keep_dims_t.
Proof. solve_decision. Defined.

(** The value bound to [D] at the end of [doc]: a tensor, or the Python
    list of per-document tensors built when [keep_dims] is False. *)
Inductive Dvalue : Type :=
  | DTensor (t : tensor Z)
  | DList (l : list (tensor Z)).

Module FLMRQuestionEncoderOutput.
Record t : Type := {
  pooler_output : tensor Z;
  late_interaction_output : tensor Z;
}.
End FLMRQuestionEncoderOutput.

Module FLMRContextEncoderOutput.
Record t : Type := {
  pooler_output : tensor Z;
  late_interaction_output : Dvalue;
  context_mask : option (tensor bool);
}.
End FLMRContextEncoderOutput.

(** The two assertions under [if 'image' in input_modality]. *)
Definition image_asserts {A} (pixel_values image_features : option A) : result unit :=
  if bool_decide (is_Some pixel_values ∨ is_Some image_features) then
    _ ← py_assert (bool_decide (is_Some pixel_values ∨ is_Some image_features));
    py_assert (bool_decide (pixel_values = None ∨ image_features = None))
  else Ok tt.

(** The block under [if 'text' in input_modality]: the masked text
    embeddings and the mask, left unbound when the text modality is absent. *)
Definition text_block
    (text_encoder : tensor Z → tensor Z → result (tensor Z))
    (text_encoder_linear : tensor Z → result (tensor Z))
    (skiplist : result (gset Z))
    (input_ids attention_mask : option (tensor Z))
    : result (option (tensor Z) * option (tensor Z)) :=
  match input_ids, attention_mask with
  | Some input_ids, Some attention_mask =>
      text_embeddings ← text_encoder input_ids attention_mask;
      text_embeddings ← text_encoder_linear text_embeddings;
      skiplist ← skiplist;
      ids ← tolist2 input_ids;
      mask ← unsqueeze 2 (tensor_of_rows (mask ids skiplist));
      let mask := to_float mask in
      text_embeddings ← mul3 text_embeddings mask;
      Ok (Some text_embeddings, Some mask)
  | _, _ => Ok (None, None)
  end.

(** The block under the second [if 'image' in input_modality]: the vision
    pseudo-tokens and the batch size, left unbound when there is no image. *)
Definition image_block
    (vision_encoder vision_projection : tensor Z → result (tensor Z))
    (cfg : FLMRConfig.t)
    (pixel_values image_features : option (tensor Z))
    : result (option (tensor Z) * option nat) :=
  if bool_decide (is_Some pixel_values ∨ is_Some image_features) then
    vision_embeddings ←
      match pixel_values with
      | Some pixel_values =>
          outputs ← vision_encoder pixel_values;
          v ← select1_0 outputs;
          Ok (Some v)
      | None => Ok None
      end;
    let vision_embeddings :=
      match image_features with
      | Some image_features => Some image_features
      | None => vision_embeddings
      end in
    vision_embeddings ← read_local vision_embeddings;
    batch_size ← size vision_embeddings 0;
    vision_embeddings ← vision_projection vision_embeddings;
    vision_embeddings ← view_m1 vision_embeddings
                          [FLMRConfig.mapping_network_prefix_length cfg; FLMRConfig.dim cfg];
    Ok (Some vision_embeddings, Some batch_size)
  else Ok (None, None).

(** [query(self, input_ids, attention_mask, pixel_values, image_features,
    concat_output_from_vision_encoder, concat_output_from_text_encoder)] *)
Definition query (torch : Torch) (self : FLMRModelForRetrieval)
    (input_ids attention_mask pixel_values image_features : option (tensor Z))
    (concat_output_from_vision_encoder concat_output_from_text_encoder : option bool)
    : result FLMRQuestionEncoderOutput.t :=
  let concat_output_from_vision_encoder :=
    default (FLMRConfig.query_concat_output_from_vision_encoder (config self))
      concat_output_from_vision_encoder in
  let concat_output_from_text_encoder :=
    default (FLMRConfig.query_concat_output_from_text_encoder (config self))
      concat_output_from_text_encoder in
  _ ← image_asserts pixel_values image_features;
  text ← text_block (query_text_encoder self) (query_text_encoder_linear self) (Ok ∅)
           input_ids attention_mask;
  let text_embeddings := text.1 in
  image ← image_block (query_vision_encoder self) (query_vision_projection self)
            (config self) pixel_values image_features;
  let vision_embeddings := image.1 in
  Q ← (if concat_output_from_vision_encoder && concat_output_from_text_encoder then
         v ← read_local vision_embeddings;
         t ← read_local text_embeddings;
         Q ← cat1 v t;
         Ok (Some Q)
       else if concat_output_from_vision_encoder then
         v ← read_local vision_embeddings; Ok (Some v)
       else if concat_output_from_text_encoder then
         t ← read_local text_embeddings; Ok (Some t)
       else Ok None);
  Q ← read_local Q;
  pooler_output ← select1_0_rank3 Q;
  late_interaction_output ← normalize torch Q;
  Ok {| FLMRQuestionEncoderOutput.pooler_output := pooler_output;
        FLMRQuestionEncoderOutput.late_interaction_output := late_interaction_output |}.

(** [doc(self, input_ids, attention_mask, pixel_values, image_features,
    concat_output_from_vision_encoder, concat_output_from_text_encoder,
    keep_dims, return_mask)] *)
Definition doc (torch : Torch) (self : FLMRModelForRetrieval)
    (input_ids attention_mask pixel_values image_features : option (tensor Z))
    (concat_output_from_vision_encoder concat_output_from_text_encoder : option bool)
    (keep_dims : keep_dims_t) (return_mask : bool)
    : result FLMRContextEncoderOutput.t :=
  _ ← py_assert (bool_decide (keep_dims ∈ [KeepTrue; KeepFalse; KeepStr "return_mask"]));
  let concat_output_from_vision_encoder :=
    default (FLMRConfig.context_concat_output_from_vision_encoder (config self))
      concat_output_from_vision_encoder in
  let concat_output_from_text_encoder :=
    default (FLMRConfig.context_concat_output_from_text_encoder (config self))
      concat_output_from_text_encoder in
  _ ← image_asserts pixel_values image_features;
  text ← text_block (context_text_encoder self) (context_text_encoder_linear self)
           (skiplist self) input_ids attention_mask;
  let text_embeddings := text.1 in
  let mask := text.2 in
  image ← image_block (context_vision_encoder self) (context_vision_projection self)
            (config self) pixel_values image_features;
  let vision_embeddings := image.1 in
  image_mask ← match image.1, image.2 with
               | Some vision_embeddings, Some batch_size =>
                   n1 ← size vision_embeddings 1;
                   Ok (Some (ones [batch_size; n1; 1]))
               | _, _ => Ok None
               end;
  Dm ← (if concat_output_from_vision_encoder && concat_output_from_text_encoder then
          v ← read_local vision_embeddings;
          t ← read_local text_embeddings;
          D ← cat1 v t;
          m ← read_local mask;
          im ← read_local image_mask;
          mask ← cat1 m im;
          Ok (Some D, Some mask)
        else if concat_output_from_vision_encoder then
          v ← read_local vision_embeddings;
          im ← read_local image_mask;
          Ok (Some v, Some im)
        else if concat_output_from_text_encoder then
          t ← read_local text_embeddings;
          m ← read_local mask;
          Ok (Some t, Some m)
        else Ok (None, mask));
  let mask := Dm.2 in
  D ← read_local Dm.1;
  D ← normalize torch D;
  let D := if use_gpu self then half_t torch D else D in
  Dm ← match keep_dims with
       | KeepFalse =>
           m ← read_local mask;
           let mask := squeeze_last (to_bool m) in
           D ← ragged D mask;
           Ok (DList D, Some mask)
       | _ => Ok (DTensor D, to_bool <$> mask)
       end;
  let D := Dm.1 in
  let mask := Dm.2 in
  pooler_output ← match D with
                  | DTensor t => select1_0_rank3 t
                  | DList _ => Raise TypeError
                  end;
  context_mask ← (if return_mask then m ← read_local mask; Ok (Some (tbool m))
                  else Ok None);
  Ok {| FLMRContextEncoderOutput.pooler_output := pooler_output;
        FLMRContextEncoderOutput.late_interaction_output := D;
        FLMRContextEncoderOutput.context_mask := context_mask |}.

(** [score(self, Q, D_padded, D_mask)]; [dt] is [D_padded.dtype]. *)
Definition score (self : FLMRModelForRetrieval) (dt : dtype) (Q D_padded : tensor Z)
    (D_mask : tensor bool) : St (tensor Z) :=
  colbert_score dt Q D_padded D_mask (use_gpu self).

(** The dtype of the embeddings that [doc] returns, [dt] being the dtype of
    the normalised embeddings: with [use_gpu] they are cast by [D.half()]. *)
Definition doc_dtype (self : FLMRModelForRetrieval) (dt : dtype) : dtype :=
  if use_gpu self then float16 else dt.

(** ** A small concrete instance, used in the examples

    Embedding dimension 2 and two vision pseudo-tokens.  The text encoder
    embeds token [x] as the vector (x, x); the mapping network turns an
    image feature vector into pseudo-tokens that repeat its first entry;
    normalisation and the half-precision cast are the identity. *)
Definition toy_torch : Torch := {|
  normalize_vec := id;
  half := id;
  CrossEntropyLoss := λ s l, Ok (Tensor (shape l) (Z.of_nat <$> data l));
|}.

Definition toy_config : FLMRConfig.t := {|
  FLMRConfig.dim := 2;
  FLMRConfig.mask_punctuation := true;
  FLMRConfig.mapping_network_prefix_length := 2;
  FLMRConfig.query_concat_output_from_vision_encoder := true;
  FLMRConfig.query_concat_output_from_text_encoder := true;
  FLMRConfig.context_concat_output_from_vision_encoder := false;
  FLMRConfig.context_concat_output_from_text_encoder := true;
|}.

Definition toy_text_encoder (input_ids attention_mask : tensor Z) : result (tensor Z) :=
  Ok (Tensor (shape input_ids ++ [2]) (concat ((λ x, [x; x]) <$> data input_ids))).

Definition toy_projection (v : tensor Z) : result (tensor Z) :=
  match shape v with
  | [b; f] => Ok (Tensor [b; 4] (concat ((λ r, replicate 4 (hd 0%Z r)) <$> chunk b f (data v))))
  | _ => Raise RuntimeError
  end.

(** One token per character of the text (its code), padded with 0 to the
    longest text of the batch. *)
Definition toy_tokenizer (docs : list string) : result (tensor Z * tensor Z) :=
  let toks := (λ s : string, (λ c, Z.of_nat (Ascii.nat_of_ascii c)) <$> String.list_ascii_of_string s) <$> docs in
  let l := max_list (length <$> toks) in
  Ok (Tensor [length docs; l]
        (concat ((λ t : list Z, t ++ replicate (l - length t) 0%Z) <$> toks)),
      Tensor [length docs; l]
        (concat ((λ t : list Z, replicate (length t) 1%Z ++ replicate (l - length t) 0%Z)
                   <$> toks))).

Definition toy_model : FLMRModelForRetrieval := {|
  config := toy_config;
  context_text_encoder := toy_text_encoder;
  context_text_encoder_linear := Ok ∘ id;
  context_vision_encoder := Ok ∘ id;
  context_vision_projection := toy_projection;
  query_text_encoder := toy_text_encoder;
  query_text_encoder_linear := Ok ∘ id;
  query_vision_encoder := Ok ∘ id;
  query_vision_projection := toy_projection;
  context_tokenizer := toy_tokenizer;
  punctuation_ids := {[46%Z]};
  use_gpu := true;
|}.

(** ** Padding and stacking *)

(** Python values that reach the dynamically typed parts of the batch
    encoder. *)
#[warnings="-register-all"] Inductive pyobj : Type :=
  | PyTensor (t : tensor Z)
  | PyTuple (items : list pyobj)
  | PyList (items : list pyobj)
  | PyArray (v : list Z)
  | PyStr (s : string)
  | PyNone.

(** [x.size(k)]: only tensors have the method. *)
Definition size_attr (x : pyobj) (k : nat) : result nat :=
  match x with
  | PyTensor t => size t k
  | _ => Raise AttributeError
  end.

(** [max(l)] of a Python list of sizes. *)
Definition py_max (l : list nat) : result nat :=
  match l with
  | [] => Raise ValueError
  | _ => Ok (max_list l)
  end.

(** [torch.zeros(sh)] *)
Definition zeros (sh : list nat) : tensor Z := Tensor sh (replicate (numel sh) 0%Z).

(** A shape without its leading axes of size one. *)
Fixpoint strip_ones (sh : list nat) : list nat :=
  match sh with
  | 1 :: sh' => strip_ones sh'
  | _ => sh
  end.

(** The entries of a tensor of shape [src] repeated to the shape [dst] of
    the same rank: an axis of size one stands for every index of the
    target axis. *)
Fixpoint expand_data {A} (src dst : list nat) (l : list A) : list A :=
  match src, dst with
  | s :: src', d :: dst' =>
      let blocks := concat (expand_data src' dst' <$> chunk s (numel src') l) in
      if decide (s = d) then blocks else concat (replicate d blocks)
  | _, _ => l
  end.

(** The value of an assignment broadcast to the shape [dst] of its target:
    a value of that shape is taken as it is; otherwise its leading axes of
    size one are dropped, its shape is aligned with [dst] at the last axis,
    and every axis must have the size of the target or size one. *)
Definition broadcast_to {A} (dst : list nat) (t : tensor A) : result (tensor A) :=
  if decide (shape t = dst) then Ok t
  else
    let src := strip_ones (shape t) in
    if decide (length dst < length src) then Raise RuntimeError
    else
      let src := replicate (length dst - length src) 1 ++ src in
      if decide (Forall2 (λ s d, s = d ∨ s = 1) src dst)
      then Ok (Tensor dst (expand_data src dst (data t)))
      else Raise RuntimeError.

(** [output[offset:endpos, :l] = x] for a rank-3 [output] and non-negative
    bounds: the slice ends where the axis ends, and [x] is broadcast to the
    shape of the slice. *)
Definition slice_assign (output : tensor Z) (offset endpos l : nat) (x : pyobj)
    : result (tensor Z) :=
  match x, shape output with
  | PyTensor x, [bsize; maxlen; hdim] =>
      let n := endpos `min` bsize - offset in
      let l := l `min` maxlen in
      x ← broadcast_to [n; l; hdim] x;
      let out := nested3 bsize maxlen hdim (data output) in
      let xs := nested3 n l hdim (data x) in
      Ok (Tensor [bsize; maxlen; hdim]
            (concat (concat
               (take offset out
                ++ zip_with (λ xm om, xm ++ drop l om) xs (take n (drop offset out))
                ++ drop (offset + n) out))))
  | _, _ => Raise RuntimeError
  end.

(** [_stack_3D_tensors(groups)] *)
Definition _stack_3D_tensors (groups : list pyobj) : result (tensor Z) :=
  sizes ← mapR (λ x, size_attr x 0) groups;
  let bsize := sum_list sizes in
  lens ← mapR (λ x, size_attr x 1) groups;
  maxlen ← py_max lens;
  g0 ← match groups with
       | [] => Raise IndexError
       | x :: _ => Ok x
       end;
  hdim ← size_attr g0 2;
  let output := zeros [bsize; maxlen; hdim] in
  st ← for_each groups
         (λ x (st : tensor Z * nat),
            n ← size_attr x 0;
            let endpos := st.2 + n in
            l ← size_attr x 1;
            output ← slice_assign st.1 st.2 endpos l x;
            Ok (output, endpos))
         (output, 0);
  Ok st.1.

(** ** The batch encoder *)

(** The image features handed around by [docFromText]: a stacked tensor
    when the documents carry precomputed features, else the Python list it
    collected. *)
Inductive image_features_t : Type :=
  | FeatTensor (t : tensor Z)
  | FeatList (l : list (option (list Z))).

(** The parallel arrays that accompany the tokens of multimodal documents. *)
Definition extras_t : Type := (image_features_t * list (option string))%type.

(** One batch: (input_ids, attention_mask) or
    (input_ids, attention_mask, image_features, image_paths). *)
Definition batch_t : Type := (tensor Z * tensor Z * option extras_t)%type.

(** The helpers imported from [colbert.modeling.tokenization.utils], called
    with three arguments for text documents and with five for multimodal
    documents. *)
Record TokenizationUtils : Type := {
  _sort_by_length :
    tensor Z → tensor Z → nat → option extras_t →
    result (tensor Z * tensor Z * option extras_t * tensor nat);
  _split_into_batches :
    tensor Z → tensor Z → nat → option extras_t → result (list batch_t);
}.

(** The attributes that [FLMRModelForIndexing] adds to the retrieval model:
    [image_processor] stands for opening the image files and preprocessing
    them into pixel values. *)
Record FLMRModelForIndexing : Type := {
  retrieval : FLMRModelForRetrieval;
  image_processor : list (option string) → result (tensor Z);
}.

(** The override [FLMRModelForIndexing.doc(self, ..., to_cpu)]: the result
    of the parent's [doc] is a model output, which is not a tuple and has no
    method [cpu]. *)
Definition FLMRModelForIndexing_doc (torch : Torch) (self : FLMRModelForIndexing)
    (input_ids attention_mask pixel_values image_features : option (tensor Z))
    (keep_dims : keep_dims_t) (return_mask : bool) (to_cpu : bool)
    : result FLMRContextEncoderOutput.t :=
  D ← doc torch (retrieval self) input_ids attention_mask pixel_values image_features
        None None keep_dims return_mask;
  if to_cpu then Raise AttributeError else Ok D.

(** The documents given to [docFromText]: a list of texts, or a list of
    tuples (text, image_feature, image_path). *)
Inductive docs_t : Type :=
  | TextDocs (texts : list string)
  | TupleDocs (docs : list (string * option (list Z) * option string)).

(** [torch.FloatTensor(np.stack(image_features))] *)
Definition stack_features (image_features : list (option (list Z))) : result (tensor Z) :=
  match image_features with
  | Some f :: _ =>
      if forallb (λ o, match o with
                       | Some v => bool_decide (length v = length f)
                       | None => false
                       end) image_features
      then Ok (Tensor [length image_features; length f]
                 (concat ((λ o, default [] o) <$> image_features)))
      else Raise ValueError
  | _ => Raise ValueError
  end.

(** What [docFromText] returns in its four exits. *)
Inductive docFromText_result : Type :=
  | RetDense (D : tensor Z) (returned_text : list (list (tensor Z)))
  | RetFlat (D : tensor Z) (doclens : tensor nat) (returned_text : list (list (tensor Z)))
  | RetRagged (D : list pyobj) (returned_text : list (list (tensor Z)))
  | RetOutput (o : FLMRContextEncoderOutput.t).

(** A batch as the Python tuple it is. *)
Definition pyobj_of_extras (e : extras_t) : list pyobj :=
  [match e.1 with
   | FeatTensor t => PyTensor t
   | FeatList l => PyList ((λ o, match o with Some v => PyArray v | None => PyNone end) <$> l)
   end;
   PyList ((λ o, match o with Some p => PyStr p | None => PyNone end) <$> e.2)].
Definition pyobj_of_batch (b : batch_t) : pyobj :=
  PyTuple (PyTensor b.1.1 :: PyTensor b.1.2 :: from_option pyobj_of_extras [] b.2).

(** Iterating over a tensor yields its slices along axis 0. *)
Definition iter_tensor {A} (t : tensor A) : result (list (tensor A)) :=
  match shape t with
  | a :: rest => Ok (Tensor rest <$> chunk a (numel rest) (data t))
  | [] => Raise TypeError
  end.

(** [[l[idx] for idx in indices]] *)
Definition py_gather {A} (l : list A) (indices : list nat) : result (list A) :=
  mapR (λ idx, match l !! idx with
               | Some x => Ok x
               | None => Raise IndexError
               end) indices.

(** The body of the loop [for batch in batches] of [docFromText]. *)
Definition encode_batch (torch : Torch) (self : FLMRModelForIndexing)
    (multimodal_docs is_input_image_features : bool)
    (keep_dims_ : keep_dims_t) (return_mask to_cpu : bool) (batch : batch_t)
    : result FLMRContextEncoderOutput.t :=
  if multimodal_docs then
    match batch with
    | (input_ids, attention_mask, Some (image_features, image_paths)) =>
        if is_input_image_features then
          image_features ← match image_features with
                           | FeatTensor t => Ok t
                           | FeatList _ => Raise AttributeError
                           end;
          FLMRModelForIndexing_doc torch self (Some input_ids) (Some attention_mask)
            None (Some image_features) keep_dims_ return_mask to_cpu
        else
          pixel_values ← image_processor self image_paths;
          FLMRModelForIndexing_doc torch self (Some input_ids) (Some attention_mask)
            (Some pixel_values) None keep_dims_ return_mask to_cpu
    | (_, _, None) => Raise ValueError
    end
  else
    match batch with
    | (input_ids, attention_mask, None) =>
        FLMRModelForIndexing_doc torch self (Some input_ids) (Some attention_mask)
          None None keep_dims_ return_mask to_cpu
    | (_, _, Some _) => Raise ValueError
    end.

(** The first part of [docFromText]: the texts, the parallel arrays of
    multimodal documents and the flag [is_input_image_features]. *)
Definition unpack_docs (docs : docs_t) : result (list string * option extras_t * bool) :=
  _ ← match docs with
      | TextDocs [] | TupleDocs [] => Raise IndexError
      | _ => Ok tt
      end;
  match docs with
  | TupleDocs docs =>
      let texts := (λ doc, doc.1.1) <$> docs in
      let image_features := (λ doc, doc.1.2) <$> docs in
      let image_paths := (λ doc, doc.2) <$> docs in
      match image_features with
      | Some _ :: _ =>
          image_features ← stack_features image_features;
          Ok (texts, Some (FeatTensor image_features, image_paths), true)
      | _ => Ok (texts, Some (FeatList image_features, image_paths), false)
      end
  | TextDocs texts => Ok (texts, None, false)
  end.

(** [docFromText(self, docs, bsize, keep_dims, to_cpu, showprogress,
    return_tokens)].  The tokenizer is taken to return the pair
    (input_ids, attention_mask) in both of its uses. *)
Definition docFromText (torch : Torch) (utils : TokenizationUtils)
    (self : FLMRModelForIndexing) (docs : docs_t) (bsize : option nat)
    (keep_dims : keep_dims_t) (to_cpu showprogress return_tokens : bool)
    : result docFromText_result :=
  _ ← py_assert (bool_decide (keep_dims ∈ [KeepTrue; KeepFalse; KeepStr "flatten"]));
  pre ← unpack_docs docs;
  let docs := pre.1.1 in
  let extras := pre.1.2 in
  let is_input_image_features := pre.2 in
  let multimodal_docs := bool_decide (is_Some extras) in
  match bsize with
  | Some (S _ as bsize) =>
      context_encoding ← context_tokenizer (retrieval self) docs;
      let ids := context_encoding.1 in
      let mask := context_encoding.2 in
      sorted ← _sort_by_length utils ids mask bsize extras;
      let ids := sorted.1.1.1 in
      let mask := sorted.1.1.2 in
      let extras := if multimodal_docs then sorted.1.2 else None in
      let reverse_indices := sorted.2 in
      batches ← _split_into_batches utils ids mask bsize extras;
      returned_text ←
        (if return_tokens then
           text_batches ← mapR (λ batch : batch_t,
                                  match batch.2 with
                                  | Some _ => Ok (batch.1.1, batch.1.2)
                                  | None => Raise ValueError
                                  end) batches;
           rows ← mapR (λ batch : tensor Z * tensor Z, iter_tensor batch.1) text_batches;
           returned_text ← py_gather (concat rows) (data reverse_indices);
           Ok [returned_text]
         else Ok []);
      let keep_dims_ :=
        if decide (keep_dims = KeepStr "flatten") then KeepStr "return_mask" else keep_dims in
      let return_mask := bool_decide (keep_dims = KeepStr "flatten") in
      encoded_batches ← mapR (encode_batch torch self multimodal_docs is_input_image_features
                                keep_dims_ return_mask to_cpu) batches;
      match keep_dims with
      | KeepTrue =>
          D ← _stack_3D_tensors (pyobj_of_batch <$> batches);
          D ← index_select0 D reverse_indices;
          Ok (RetDense D returned_text)
      | KeepStr _ =>
          D ← mapR (λ batch, match FLMRContextEncoderOutput.late_interaction_output batch with
                             | DTensor t => Ok t
                             | DList _ => Raise TypeError
                             end) encoded_batches;
          mask ← mapR (λ batch, match FLMRContextEncoderOutput.context_mask batch with
                                | Some m => Ok m
                                | None => Raise TypeError
                                end) encoded_batches;
          D ← cat0 D;
          D ← index_select0 D reverse_indices;
          mask ← cat0 mask;
          mask ← index_select0 mask reverse_indices;
          doclens ← count_last (squeeze_last mask);
          D ← view_m1 D [FLMRConfig.dim (config (retrieval self))];
          D ← bool_index0 D (flatten (tbool mask));
          Ok (RetFlat D doclens returned_text)
      | KeepFalse =>
          let D := concat ((λ batch, match pyobj_of_batch batch with
                                     | PyTuple items => items
                                     | _ => []
                                     end) <$> batches) in
          D ← py_gather D (data reverse_indices);
          Ok (RetRagged D returned_text)
      end
  | _ =>
      context_encoding ← context_tokenizer (retrieval self) docs;
      D ← FLMRModelForIndexing_doc torch self (Some context_encoding.1)
            (Some context_encoding.2) None None keep_dims true to_cpu;
      Ok (RetOutput D)
  end.


(** The mask row [doc] builds for a document with the token ids [row]: the
    kept tokens when the text is concatenated, followed by the vision
    pseudo-tokens when the vision output is concatenated. *)
Definition text_mask_row (skiplist : gset Z) (row : list Z) : list bool :=
  (λ x, bool_decide (x ∉ skiplist) && bool_decide (x ≠ 0%Z)) <$> row.





(** ** Reference helpers for the examples

    Stand-ins for the ColBERT helpers: a stable sort of the documents by
    their number of attended tokens together with the indices that restore
    the original order, and the split into consecutive batches. *)
Fixpoint insert_by_key (x : Z * nat) (l : list (Z * nat)) : list (Z * nat) :=
  match l with
  | [] => [x]
  | y :: l' => if decide (x.1 < y.1)%Z then x :: l else y :: insert_by_key x l'
  end.

Definition sort_indices (keys : list Z) : list nat :=
  snd <$> foldl (λ acc x, insert_by_key x acc) [] (zip keys (seq 0 (length keys))).

Definition position_of (i : nat) (l : list nat) : nat :=
  from_option fst 0 (list_find (λ j, j = i) l).

Definition reorder_extras (indices : list nat) (extras : option extras_t)
    : result (option extras_t) :=
  match extras with
  | None => Ok None
  | Some (features, paths) =>
      features ← match features with
                 | FeatTensor t =>
                     FeatTensor <$> index_select0 t (Tensor [length indices] indices)
                 | FeatList l => FeatList <$> py_gather l indices
                 end;
      paths ← py_gather paths indices;
      Ok (Some (features, paths))
  end.

Definition ref_sort_by_length (ids mask : tensor Z) (bsize : nat) (extras : option extras_t)
    : result (tensor Z * tensor Z * option extras_t * tensor nat) :=
  n ← size ids 0;
  if decide (n ≤ bsize) then Ok (ids, mask, extras, Tensor [n] (seq 0 n))
  else
    keys ← sum_last mask;
    let indices := sort_indices (data keys) in
    let reverse_indices := (λ i, position_of i indices) <$> seq 0 n in
    ids ← index_select0 ids (Tensor [n] indices);
    mask ← index_select0 mask (Tensor [n] indices);
    extras ← reorder_extras indices extras;
    Ok (ids, mask, extras, Tensor [n] reverse_indices).

Fixpoint groups_of {A} (fuel sz : nat) (l : list A) : list (list A) :=
  match fuel, l with
  | S fuel', _ :: _ => take sz l :: groups_of fuel' sz (drop sz l)
  | _, _ => []
  end.

Definition ref_split_into_batches (ids mask : tensor Z) (bsize : nat)
    (extras : option extras_t) : result (list batch_t) :=
  match shape ids, shape mask with
  | [n; l], [n'; l'] =>
      let ids_groups := groups_of n bsize (nested2 n l (data ids)) in
      let mask_groups := groups_of n bsize (nested2 n' l' (data mask)) in
      let extras_groups :=
        match extras with
        | None => replicate (length ids_groups) None
        | Some (features, paths) =>
            zip_with (λ f p, Some (f, p))
              match features with
              | FeatTensor t =>
                  match shape t with
                  | [_; c] => (λ g, FeatTensor (Tensor [length g; c] (concat g)))
                                <$> groups_of n bsize (rows2 t)
                  | _ => []
                  end
              | FeatList fl => FeatList <$> groups_of n bsize fl
              end
              (groups_of n bsize paths)
        end in
      Ok (zip_with (λ im e, (im, e))
            (zip_with (λ i m, (Tensor [length i; l] (concat i), Tensor [length m; l'] (concat m)))
               ids_groups mask_groups)
            extras_groups)
  | _, _ => Raise RuntimeError
  end.

Definition ref_utils : TokenizationUtils := {|
  _sort_by_length := ref_sort_by_length;
  _split_into_batches := ref_split_into_batches;
|}.

Definition toy_indexer : FLMRModelForIndexing := {|
  retrieval := toy_model;
  image_processor := λ paths, Ok (Tensor [length paths; 1; 1] (replicate (length paths) 1%Z));
|}.

(** ** Contracts of the sorting and splitting helpers

    What [docFromText] relies on: indexing the sorted token ids with the
    reverse indices gives the token ids back in their original order, and
    the batches concatenate to the sorted token ids. *)
Definition restores (ids ids_sorted : tensor Z) (reverse_indices : tensor nat) : Prop :=
  wf ids_sorted ∧ wf reverse_indices ∧ index_select0 ids_sorted reverse_indices = Ok ids.

Definition splits (ids_sorted : tensor Z) (batches : list batch_t) : Prop :=
  cat0 ((λ batch : batch_t, batch.1.1) <$> batches) = Ok ids_sorted ∧
  Forall (λ batch : batch_t, wf batch.1.1) batches.

(** ** Padded groups *)

(** A matrix with rows of [hdim] entries filled up with zero rows to
    [maxlen] rows. *)
Definition pad_rows (maxlen hdim : nat) (m : list (list Z)) : list (list Z) :=
  m ++ replicate (maxlen - length m) (replicate hdim 0%Z).

(** The body of the loop [for x in groups] of [_stack_3D_tensors], acting
    on the pair (output, offset). *)
Definition stack_body (x : pyobj) (st : tensor Z * nat) : result (tensor Z * nat) :=
  n ← size_attr x 0;
  let endpos := st.2 + n in
  l ← size_attr x 1;
  output ← slice_assign st.1 st.2 endpos l x;
  Ok (output, endpos).

(** ** The training forward pass *)

(** [t.repeat_interleave(k, dim=0)]: every slice along axis 0 is repeated
    [k] times in place. *)
Definition repeat_interleave0 {A} (k : nat) (t : tensor A) : result (tensor A) :=
  match shape t with
  | a :: rest =>
      Ok (Tensor (a * k :: rest)
            (concat ((λ blk, concat (replicate k blk)) <$> chunk a (numel rest) (data t))))
  | [] => Raise IndexError
  end.

(** What [forward] returns: the scores, or the pair of the scores and the
    in-batch negative loss. *)
Inductive forward_result : Type :=
  | ForwardScores (scores : tensor Z)
  | ForwardScoresLoss (scores ib_loss : tensor Z).

(** [forward(self, query_input_ids, ..., context_concat_output_from_text_encoder)]
    of [FLMRModelForRetrieval], for a non-negative [num_negative_examples].
    [dt] is the dtype of the embeddings that the encoders compute, so the
    document embeddings returned by [doc] have the dtype [doc_dtype self dt]. *)
Definition forward (torch : Torch) (dist : Dist) (self : FLMRModelForRetrieval) (dt : dtype)
    (query_input_ids query_attention_mask query_pixel_values query_image_features
     context_input_ids context_attention_mask context_pixel_values context_image_features
       : option (tensor Z))
    (use_in_batch_negatives in_batch_negatives_from_all_gpus : bool)
    (num_negative_examples : nat)
    (query_concat_output_from_vision_encoder query_concat_output_from_text_encoder
     context_concat_output_from_vision_encoder context_concat_output_from_text_encoder
       : option bool)
    : St forward_result :=
  let query_concat_output_from_vision_encoder :=
    default (FLMRConfig.query_concat_output_from_vision_encoder (config self))
      query_concat_output_from_vision_encoder in
  let query_concat_output_from_text_encoder :=
    default (FLMRConfig.query_concat_output_from_text_encoder (config self))
      query_concat_output_from_text_encoder in
  let context_concat_output_from_vision_encoder :=
    default (FLMRConfig.context_concat_output_from_vision_encoder (config self))
      context_concat_output_from_vision_encoder in
  let context_concat_output_from_text_encoder :=
    default (FLMRConfig.context_concat_output_from_text_encoder (config self))
      context_concat_output_from_text_encoder in
  query_outputs ← lift (query torch self query_input_ids query_attention_mask
                          query_pixel_values query_image_features
                          (Some query_concat_output_from_vision_encoder)
                          (Some query_concat_output_from_text_encoder));
  let Q := FLMRQuestionEncoderOutput.late_interaction_output query_outputs in
  context_outputs ← lift (doc torch self context_input_ids context_attention_mask
                            context_pixel_values context_image_features
                            (Some context_concat_output_from_vision_encoder)
                            (Some context_concat_output_from_text_encoder)
                            (KeepStr "return_mask") true);
  D ← lift (match FLMRContextEncoderOutput.late_interaction_output context_outputs with
            | DTensor t => Ok t
            | DList _ => Raise AttributeError
            end);
  D_mask ← lift (match FLMRContextEncoderOutput.context_mask context_outputs with
                 | Some m => Ok m
                 | None => Raise AttributeError
                 end);
  gathered ← lift (if in_batch_negatives_from_all_gpus
                   then gather_tensors_from_other_gpus dist Q D D_mask
                   else Ok (Q, D, D_mask));
  let Q := gathered.1.1 in
  let D := gathered.1.2 in
  let D_mask := gathered.2 in
  Q_duplicated ← lift (repeat_interleave0 (num_negative_examples + 1) Q);
  scores ← score self (doc_dtype self dt) Q_duplicated D D_mask;
  if use_in_batch_negatives then
    ib_loss ← compute_ib_loss_new torch Q D D_mask;
    mret (ForwardScoresLoss scores ib_loss)
  else mret (ForwardScores scores).

(** ** Encoding queries from text *)

(** The override [FLMRModelForIndexing.query(self, ..., to_cpu)]: the
    result of the parent's [query] is a model output, which has no method
    [cpu]. *)
Definition FLMRModelForIndexing_query (torch : Torch) (self : FLMRModelForIndexing)
    (input_ids attention_mask pixel_values image_features : option (tensor Z))
    (concat_output_from_vision_encoder concat_output_from_text_encoder : option bool)
    (to_cpu : bool) : result FLMRQuestionEncoderOutput.t :=
  Q ← query torch (retrieval self) input_ids attention_mask pixel_values image_features
        concat_output_from_vision_encoder concat_output_from_text_encoder;
  if to_cpu then Raise AttributeError else Ok Q.

(** The query tokenizer in its two uses: [query_tokenizer(queries,
    context=context)] returns the pair (input_ids, attention_mask);
    [query_tokenizer(queries, context=context, bsize=bsize)] returns a list
    of such pairs. *)
Record QueryTokenizer : Type := {
  tensorize : list string → option (list string) → result (tensor Z * tensor Z);
  tensorize_batches :
    list string → option (list string) → nat → result (list (tensor Z * tensor Z));
}.

(** What [queryFromText] returns: the concatenated late-interaction
    embeddings with a batch size, the model output without. *)
Inductive queryFromText_result : Type :=
  | QueryTensor (Q : tensor Z)
  | QueryOutput (o : FLMRQuestionEncoderOutput.t).

(** [queryFromText(self, queries, bsize, to_cpu, context)] *)
Definition queryFromText (torch : Torch) (query_tokenizer : QueryTokenizer)
    (self : FLMRModelForIndexing) (queries : list string) (bsize : option nat)
    (to_cpu : bool) (context : option (list string)) : result queryFromText_result :=
  match bsize with
  | Some (S _ as bsize) =>
      batches ← tensorize_batches query_tokenizer queries context bsize;
      batches ← mapR (λ batch : tensor Z * tensor Z,
                        FLMRModelForIndexing_query torch self (Some batch.1) (Some batch.2)
                          None None None None to_cpu) batches;
      let batches := FLMRQuestionEncoderOutput.late_interaction_output <$> batches in
      Q ← cat0 batches;
      Ok (QueryTensor Q)
  | _ =>
      encoding ← tensorize query_tokenizer queries context;
      Q ← FLMRModelForIndexing_query torch self (Some encoding.1) (Some encoding.2)
            None None None None false;
      Ok (QueryOutput Q)
  end.

(** ** Linear layers and the mapping network *)

(** [torch.nn.Linear]: [weight] holds [out_features] rows of [in_features]
    entries. *)
Module Linear.
Record t : Type := {
  in_features : nat;
  out_features : nat;
  weight : list (list Z);
  bias : option (list Z);
}.

(** One output vector [W v + b]. *)
Definition apply_vec (self : t) (v : list Z) : list Z :=
  match bias self with
  | Some b => zip_with Z.add ((λ w, dot w v) <$> weight self) b
  | None => (λ w, dot w v) <$> weight self
  end.

(** [self(x)]: the layer applied along the last axis. *)
Definition forward (self : t) (x : tensor Z) : result (tensor Z) :=
  match split_last (shape x) with
  | Some (lead, n) =>
      if decide (n = in_features self)
      then Ok (Tensor (lead ++ [out_features self])
                 (concat (apply_vec self <$> chunk (numel lead) n (data x))))
      else Raise RuntimeError
  | None => Raise RuntimeError
  end.
End Linear.

(** The layers an [nn.Sequential] holds: linear layers and entry-wise
    activations. *)
Inductive layer : Type :=
  | LinearLayer (l : Linear.t)
  | ActivationLayer (act : Z → Z).

Definition layer_forward (m : layer) (x : tensor Z) : result (tensor Z) :=
  match m with
  | LinearLayer l => Linear.forward l x
  | ActivationLayer act => Ok (Tensor (shape x) (act <$> data x))
  end.

(** [l[i]] of a Python list, for a non-negative index. *)
Definition py_index {A} (l : list A) (i : nat) : result A :=
  match l !! i with
  | Some x => Ok x
  | None => Raise IndexError
  end.

Module MLP.
(** [MLP.__init__(self, sizes, bias, act)]: the list of layers handed to
    [nn.Sequential].  [new_Linear] stands for the constructor [nn.Linear]
    with its random initialisation, [act] for the activation. *)
Definition __init__ (new_Linear : nat → nat → bool → Linear.t)
    (sizes : list nat) (bias : bool) (act : Z → Z) : result (list layer) :=
  for_each (seq 0 (length sizes - 1))
    (λ i layers,
       s ← py_index sizes i;
       s' ← py_index sizes (i + 1);
       let layers := layers ++ [LinearLayer (new_Linear s s' bias)] in
       Ok (if bool_decide (Z.of_nat i < Z.of_nat (length sizes) - 2)%Z
           then layers ++ [ActivationLayer act] else layers))
    [].

(** [MLP.forward(self, x)]: the layers applied in order. *)
Definition forward (model : list layer) (x : tensor Z) : result (tensor Z) :=
  for_each model layer_forward x.
End MLP.

(** [self.context_vision_projection] as [FLMRModelForRetrieval.__init__]
    builds it. *)
Definition new_vision_projection (new_Linear : nat → nat → bool → Linear.t) (tanh : Z → Z)
    (vision_encoder_dim : nat) (cfg : FLMRConfig.t) : result (list layer) :=
  let mapping_network_prefix_length := FLMRConfig.mapping_network_prefix_length cfg in
  let vision_encoder_embedding_size := vision_encoder_dim in
  let text_encoder_embedding_size := FLMRConfig.dim cfg in
  MLP.__init__ new_Linear
    [vision_encoder_embedding_size;
     (text_encoder_embedding_size * mapping_network_prefix_length) `div` 2;
     text_encoder_embedding_size * mapping_network_prefix_length]
    true tanh.

(** What [nn.Linear(in_features, out_features, bias)] constructs, whatever
    the initial values of its parameters. *)
Definition linear_constructor (new_Linear : nat → nat → bool → Linear.t) : Prop :=
  ∀ n m b,
    Linear.in_features (new_Linear n m b) = n ∧
    Linear.out_features (new_Linear n m b) = m ∧
    length (Linear.weight (new_Linear n m b)) = m ∧
    match Linear.bias (new_Linear n m b) with
    | Some v => b = true ∧ length v = m
    | None => b = false
    end.

(** The layers of [MLP.__init__] in closed form: one linear layer per pair
    of consecutive sizes, with an activation between two linear layers. *)
Fixpoint mlp_layers (new_Linear : nat → nat → bool → Linear.t) (bias : bool) (act : Z → Z)
    (sizes : list nat) : list layer :=
  match sizes with
  | s :: (s' :: rest) as tl =>
      LinearLayer (new_Linear s s' bias)
      :: match rest with
         | [] => []
         | _ :: _ => [ActivationLayer act]
         end
      ++ mlp_layers new_Linear bias act tl
  | _ => []
  end.

(** ** The BERT-based encoders and the reader *)

(** The fields of [FLMRConfig], and of the [PretrainedConfig] it extends,
    that the encoder classes read. *)
Module EncoderConfig.
Record t : Type := {
  hidden_size : Z;
  projection_dim : Z;
  pad_token_id : Z;
  output_attentions : bool;
  output_hidden_states : bool;
  use_return_dict : bool;
}.
End EncoderConfig.

(** The keyword arguments of a call of [BertModel]. *)
Module BertModel.
Record args : Type := {
  input_ids : option (tensor Z);
  attention_mask : option (tensor Z);
  token_type_ids : option (tensor Z);
  inputs_embeds : option (tensor Z);
  output_attentions : bool;
  output_hidden_states : bool;
  return_dict : bool;
}.
End BertModel.

(** What a model call returns: a plain tuple, or a [ModelOutput] with the
    fields of [BaseModelOutputWithPooling]. *)
Inductive model_outputs : Type :=
  | OutTuple (items : list pyobj)
  | OutDict (last_hidden_state pooler_output : tensor Z)
      (hidden_states attentions : option pyobj).

(** [outputs.to_tuple()]: the fields that are not None, in order. *)
Definition to_tuple (outputs : model_outputs) : list pyobj :=
  match outputs with
  | OutTuple items => items
  | OutDict l p hs at_ => PyTensor l :: PyTensor p :: omap id [hs; at_]
  end.

(** [outputs[k]] and [outputs[k:]] *)
Definition getitem (outputs : model_outputs) (k : nat) : result pyobj :=
  py_index (to_tuple outputs) k.
Definition getslice (outputs : model_outputs) (k : nat) : list pyobj :=
  drop k (to_tuple outputs).

(** [outputs.pooler_output], [outputs.hidden_states], [outputs.attentions]:
    a tuple has no such attributes. *)
Definition attr_pooler_output (outputs : model_outputs) : result (tensor Z) :=
  match outputs with
  | OutDict _ p _ _ => Ok p
  | OutTuple _ => Raise AttributeError
  end.
Definition attr_hidden_states (outputs : model_outputs) : result (option pyobj) :=
  match outputs with
  | OutDict _ _ hs _ => Ok hs
  | OutTuple _ => Raise AttributeError
  end.
Definition attr_attentions (outputs : model_outputs) : result (option pyobj) :=
  match outputs with
  | OutDict _ _ _ at_ => Ok at_
  | OutTuple _ => Raise AttributeError
  end.

(** A Python value used where a tensor is needed. *)
Definition as_tensor (x : pyobj) : result (tensor Z) :=
  match x with
  | PyTensor t => Ok t
  | _ => Raise TypeError
  end.

Module FLMREncoder.
Record t : Type := {
  bert_model : BertModel.args → result model_outputs;
  hidden_size : Z;
  projection_dim : Z;
  encode_proj : option Linear.t;
}.

(** [FLMREncoder.__init__(self, config)]; [new_BertModel] stands for the
    constructor [BertModel(config, add_pooling_layer=True)], [hidden_size]
    for [self.bert_model.config.hidden_size]. *)
Definition __init__
    (new_BertModel : EncoderConfig.t → result (BertModel.args → result model_outputs))
    (new_Linear : nat → nat → bool → Linear.t) (config : EncoderConfig.t) : result t :=
  bert_model ← new_BertModel config;
  if bool_decide (EncoderConfig.hidden_size config ≤ 0)%Z then Raise ValueError
  else
    let projection_dim := EncoderConfig.projection_dim config in
    Ok {| bert_model := bert_model;
          hidden_size := EncoderConfig.hidden_size config;
          projection_dim := projection_dim;
          encode_proj :=
            if bool_decide (0 < projection_dim)%Z
            then Some (new_Linear (Z.to_nat (EncoderConfig.hidden_size config))
                         (Z.to_nat projection_dim) true)
            else None |}.

(** [FLMREncoder.forward(self, input_ids, attention_mask, token_type_ids,
    inputs_embeds, output_attentions, output_hidden_states, return_dict)] *)
Definition forward (self : t)
    (input_ids attention_mask token_type_ids inputs_embeds : option (tensor Z))
    (output_attentions output_hidden_states return_dict : bool) : result model_outputs :=
  outputs ← bert_model self
               {| BertModel.input_ids := input_ids;
                  BertModel.attention_mask := attention_mask;
                  BertModel.token_type_ids := token_type_ids;
                  BertModel.inputs_embeds := inputs_embeds;
                  BertModel.output_attentions := output_attentions;
                  BertModel.output_hidden_states := output_hidden_states;
                  BertModel.return_dict := return_dict |};
  sequence_output ← getitem outputs 0;
  pooled_output ← (t ← as_tensor sequence_output; select1_0_rank3 t);
  pooled_output ←
    (if bool_decide (0 < projection_dim self)%Z then
       match encode_proj self with
       | Some encode_proj => Linear.forward encode_proj pooled_output
       | None => Raise AttributeError
       end
     else Ok pooled_output);
  if negb return_dict then
    Ok (OutTuple (sequence_output :: PyTensor pooled_output :: getslice outputs 2))
  else
    hidden_states ← attr_hidden_states outputs;
    attentions ← attr_attentions outputs;
    last_hidden_state ← as_tensor sequence_output;
    Ok (OutDict last_hidden_state pooled_output hidden_states attentions).

(** The property [embeddings_size]. *)
Definition embeddings_size (self : t) : result Z :=
  if bool_decide (0 < projection_dim self)%Z then
    match encode_proj self with
    | Some encode_proj => Ok (Z.of_nat (Linear.out_features encode_proj))
    | None => Raise AttributeError
    end
  else Ok (hidden_size self).
End FLMREncoder.

(** [t.split(1, dim=-1)]: the slices of size one along the last axis. *)
Definition split1_last (t : tensor Z) : result (list (tensor Z)) :=
  match split_last (shape t) with
  | Some (lead, 0) => Ok [t]
  | Some (lead, c) =>
      Ok ((λ j, Tensor (lead ++ [1])
                  ((λ row, nth j row 0%Z) <$> chunk (numel lead) c (data t)))
            <$> seq 0 c)
  | None => Raise IndexError
  end.

(** What the reader returns: a plain tuple, or a [FLMRReaderOutput]. *)
Inductive reader_outputs : Type :=
  | ReaderTuple (items : list pyobj)
  | ReaderDict (start_logits end_logits relevance_logits : tensor Z)
      (hidden_states attentions : option pyobj).

Module FLMRSpanPredictor.
Record t : Type := {
  encoder : FLMREncoder.t;
  qa_outputs : Linear.t;
  qa_classifier : Linear.t;
}.

(** [FLMRSpanPredictor.__init__(self, config)] *)
Definition __init__
    (new_BertModel : EncoderConfig.t → result (BertModel.args → result model_outputs))
    (new_Linear : nat → nat → bool → Linear.t) (config : EncoderConfig.t) : result t :=
  encoder ← FLMREncoder.__init__ new_BertModel new_Linear config;
  embeddings_size ← FLMREncoder.embeddings_size encoder;
  Ok {| encoder := encoder;
        qa_outputs := new_Linear (Z.to_nat embeddings_size) 2 true;
        qa_classifier := new_Linear (Z.to_nat embeddings_size) 1 true |}.

(** [FLMRSpanPredictor.forward(self, input_ids, attention_mask,
    inputs_embeds, output_attentions, output_hidden_states, return_dict)] *)
Definition forward (self : t) (input_ids attention_mask inputs_embeds : option (tensor Z))
    (output_attentions output_hidden_states return_dict : bool) : result reader_outputs :=
  sizes ← match input_ids with
          | Some input_ids => Ok (shape input_ids)
          | None =>
              match inputs_embeds with
              | Some inputs_embeds => Ok (take 2 (shape inputs_embeds))
              | None => Raise AttributeError
              end
          end;
  sizes ← match sizes with
          | [n_passages; sequence_length] => Ok (n_passages, sequence_length)
          | _ => Raise ValueError
          end;
  let n_passages := sizes.1 in
  let sequence_length := sizes.2 in
  outputs ← FLMREncoder.forward (encoder self) input_ids attention_mask None inputs_embeds
               output_attentions output_hidden_states return_dict;
  sequence_output ← getitem outputs 0;
  sequence_output ← as_tensor sequence_output;
  logits ← Linear.forward (qa_outputs self) sequence_output;
  parts ← split1_last logits;
  parts ← match parts with
          | [start_logits; end_logits] => Ok (start_logits, end_logits)
          | _ => Raise ValueError
          end;
  let start_logits := squeeze_last parts.1 in
  let end_logits := squeeze_last parts.2 in
  cls ← select1_0_rank3 sequence_output;
  relevance_logits ← Linear.forward (qa_classifier self) cls;
  start_logits ← view start_logits [n_passages; sequence_length];
  end_logits ← view end_logits [n_passages; sequence_length];
  relevance_logits ← view relevance_logits [n_passages];
  if negb return_dict then
    Ok (ReaderTuple (PyTensor start_logits :: PyTensor end_logits
                     :: PyTensor relevance_logits :: getslice outputs 2))
  else
    hidden_states ← attr_hidden_states outputs;
    attentions ← attr_attentions outputs;
    Ok (ReaderDict start_logits end_logits relevance_logits hidden_states attentions).
End FLMRSpanPredictor.

(** The head shared by the [forward] methods of the context encoder, the
    question encoder and the reader: exactly one of [input_ids] and
    [inputs_embeds] must be given; the result is [input_shape].
    [warn] stands for [self.warn_if_padding_and_no_attention_mask], which
    the context encoder does not call. *)
Definition input_shape_of (warn : option (tensor Z → option (tensor Z) → result unit))
    (input_ids attention_mask inputs_embeds : option (tensor Z)) : result (list nat) :=
  match input_ids, inputs_embeds with
  | Some _, Some _ => Raise ValueError
  | Some input_ids, None =>
      _ ← match warn with
          | Some warn => warn input_ids attention_mask
          | None => Ok tt
          end;
      Ok (shape input_ids)
  | None, Some inputs_embeds => Ok (removelast (shape inputs_embeds))
  | None, None => Raise ValueError
  end.

(** [input_ids != pad_token_id] as a mask of zeros and ones. *)
Definition ne_pad (pad_token_id : Z) (input_ids : tensor Z) : tensor Z :=
  Tensor (shape input_ids) ((λ x, Z.b2z (bool_decide (x ≠ pad_token_id))) <$> data input_ids).

(** What an encoder returns: the tuple [outputs[1:]], or a model output
    with the fields [pooler_output], [hidden_states] and [attentions]. *)
Inductive encoder_outputs : Type :=
  | EncoderTuple (items : list pyobj)
  | EncoderDict (pooler_output : tensor Z) (hidden_states attentions : option pyobj).

Module FLMRContextEncoder.
Record t : Type := {
  config : EncoderConfig.t;
  ctx_encoder : FLMREncoder.t;
}.

(** [FLMRContextEncoder.forward(self, input_ids, attention_mask,
    token_type_ids, inputs_embeds, output_attentions, output_hidden_states,
    return_dict)] *)
Definition forward (self : t)
    (input_ids attention_mask token_type_ids inputs_embeds : option (tensor Z))
    (output_attentions output_hidden_states return_dict : option bool)
    : result encoder_outputs :=
  let output_attentions :=
    default (EncoderConfig.output_attentions (config self)) output_attentions in
  let output_hidden_states :=
    default (EncoderConfig.output_hidden_states (config self)) output_hidden_states in
  let return_dict := default (EncoderConfig.use_return_dict (config self)) return_dict in
  input_shape ← input_shape_of None input_ids attention_mask inputs_embeds;
  let attention_mask :=
    match attention_mask with
    | Some attention_mask => attention_mask
    | None =>
        match input_ids with
        | None => ones input_shape
        | Some input_ids => ne_pad (EncoderConfig.pad_token_id (config self)) input_ids
        end
    end in
  let token_type_ids := default (zeros input_shape) token_type_ids in
  outputs ← FLMREncoder.forward (ctx_encoder self) input_ids (Some attention_mask)
               (Some token_type_ids) inputs_embeds output_attentions output_hidden_states
               return_dict;
  if negb return_dict then Ok (EncoderTuple (getslice outputs 1))
  else
    pooler_output ← attr_pooler_output outputs;
    hidden_states ← attr_hidden_states outputs;
    attentions ← attr_attentions outputs;
    Ok (EncoderDict pooler_output hidden_states attentions).
End FLMRContextEncoder.

Module FLMRQuestionEncoder.
(** [__init__] binds [self.config], [self.bert] and [self.linear]. *)
Record t : Type := {
  config : EncoderConfig.t;
  bert : FLMREncoder.t;
  linear : Linear.t;
  warn_if_padding_and_no_attention_mask : tensor Z → option (tensor Z) → result unit;
}.

(** [self.question_encoder]: no such attribute is ever bound. *)
Definition question_encoder (self : t) : result FLMREncoder.t := Raise AttributeError.

(** [FLMRQuestionEncoder.forward(self, input_ids, attention_mask,
    token_type_ids, inputs_embeds, output_attentions, output_hidden_states,
    return_dict)] *)
Definition forward (self : t)
    (input_ids attention_mask token_type_ids inputs_embeds : option (tensor Z))
    (output_attentions output_hidden_states return_dict : option bool)
    : result encoder_outputs :=
  let output_attentions :=
    default (EncoderConfig.output_attentions (config self)) output_attentions in
  let output_hidden_states :=
    default (EncoderConfig.output_hidden_states (config self)) output_hidden_states in
  let return_dict := default (EncoderConfig.use_return_dict (config self)) return_dict in
  input_shape ← input_shape_of (Some (warn_if_padding_and_no_attention_mask self))
                   input_ids attention_mask inputs_embeds;
  let attention_mask :=
    match attention_mask with
    | Some attention_mask => attention_mask
    | None =>
        match input_ids with
        | None => ones input_shape
        | Some input_ids => ne_pad (EncoderConfig.pad_token_id (config self)) input_ids
        end
    end in
  let token_type_ids := default (zeros input_shape) token_type_ids in
  question_encoder ← question_encoder self;
  outputs ← FLMREncoder.forward question_encoder input_ids (Some attention_mask)
               (Some token_type_ids) inputs_embeds output_attentions output_hidden_states
               return_dict;
  if negb return_dict then Ok (EncoderTuple (getslice outputs 1))
  else
    pooler_output ← attr_pooler_output outputs;
    hidden_states ← attr_hidden_states outputs;
    attentions ← attr_attentions outputs;
    Ok (EncoderDict pooler_output hidden_states attentions).
End FLMRQuestionEncoder.

Module FLMRReader.
Record t : Type := {
  config : EncoderConfig.t;
  span_predictor : FLMRSpanPredictor.t;
  warn_if_padding_and_no_attention_mask : tensor Z → option (tensor Z) → result unit;
}.

(** [FLMRReader.forward(self, input_ids, attention_mask, inputs_embeds,
    output_attentions, output_hidden_states, return_dict)] *)
Definition forward (self : t) (input_ids attention_mask inputs_embeds : option (tensor Z))
    (output_attentions output_hidden_states return_dict : option bool)
    : result reader_outputs :=
  let output_attentions :=
    default (EncoderConfig.output_attentions (config self)) output_attentions in
  let output_hidden_states :=
    default (EncoderConfig.output_hidden_states (config self)) output_hidden_states in
  let return_dict := default (EncoderConfig.use_return_dict (config self)) return_dict in
  input_shape ← input_shape_of (Some (warn_if_padding_and_no_attention_mask self))
                   input_ids attention_mask inputs_embeds;
  let attention_mask := default (ones input_shape) attention_mask in
  FLMRSpanPredictor.forward (span_predictor self) input_ids (Some attention_mask)
    inputs_embeds output_attentions output_hidden_states return_dict.
End FLMRReader.

(** ** Construction of the retrieval model *)

(** A tokenizer: [encode(symbol, add_special_tokens=False)] and the call
    on a list of texts. *)
Record Tokenizer : Type := {
  encode : string → result (list Z);
  tokenize : list string → result (tensor Z * tensor Z);
}.

(** The fields of [FLMRConfig] read by [FLMRModelForRetrieval.__init__]
    besides those of [FLMRConfig.t] and [EncoderConfig.t]. *)
Module VisionConfig.
Record t : Type := {
  vision_encoder_dim : nat;
  use_vision_encoder : bool;
  vision_model_version : string;
  separate_query_and_context_text_encoder : bool;
  separate_query_and_context_vision_encoder : bool;
}.
End VisionConfig.

(** The constructors of the pretrained parts.  [CLIPVisionModel] stands
    for loading the vision model of a given version; the loaded model maps
    pixel values to its last hidden states.  [segmented_maxsim_cpp] stands
    for compiling and loading the extension of that name. *)
Record Constructors : Type := {
  new_BertModel : EncoderConfig.t → result (BertModel.args → result model_outputs);
  new_Linear : nat → nat → bool → Linear.t;
  Tanh : Z → Z;
  CLIPVisionModel : string → result (tensor Z → result (tensor Z));
  segmented_maxsim_cpp : result segmented_maxsim_t;
}.

(** [string.punctuation], one string per symbol: the characters with the
    codes 33 to 47, 58 to 64, 91 to 96 and 123 to 126. *)
Definition punctuation : list string :=
  (λ n, String (Ascii.ascii_of_nat n) EmptyString)
    <$> (seq 33 15 ++ seq 58 7 ++ seq 91 6 ++ seq 123 4).

(** [encoder(input_ids, attention_mask=attention_mask)[0]] for a
    [FLMREncoder]. *)
Definition encoder_hidden_states (encoder : FLMREncoder.t)
    (input_ids attention_mask : tensor Z) : result (tensor Z) :=
  outputs ← FLMREncoder.forward encoder (Some input_ids) (Some attention_mask) None None
               false false false;
  x ← getitem outputs 0;
  as_tensor x.

(** [copy.deepcopy(x)]: a copy has the value of the original. *)
Definition deepcopy {A} (x : A) : A := x.

(** [FLMRModelForRetrieval.__init__(self, config, query_tokenizer,
    context_tokenizer)].  The class attribute [segmented_maxsim] is passed
    in and returned.  The token ids among the keys of [self.skiplist] are
    kept in [punctuation_ids]; the symbols themselves, which are keys too,
    never equal a token id. *)
Definition FLMRModelForRetrieval__init__ (new : Constructors)
    (segmented_maxsim : option segmented_maxsim_t)
    (config : FLMRConfig.t) (encoder_config : EncoderConfig.t)
    (vision_config : VisionConfig.t) (context_tokenizer : option Tokenizer)
    : result (FLMRModelForRetrieval * option segmented_maxsim_t) :=
  context_text_encoder ← FLMREncoder.__init__ (new_BertModel new) (new_Linear new)
                            encoder_config;
  let context_text_encoder_linear :=
    new_Linear new (Z.to_nat (EncoderConfig.hidden_size encoder_config))
      (FLMRConfig.dim config) false in
  context_vision_projection ←
    new_vision_projection (new_Linear new) (Tanh new)
      (VisionConfig.vision_encoder_dim vision_config) config;
  context_vision_encoder ←
    (if VisionConfig.use_vision_encoder vision_config then
       m ← CLIPVisionModel new (VisionConfig.vision_model_version vision_config);
       Ok (Some m)
     else Ok None);
  let query_text_encoder :=
    if VisionConfig.separate_query_and_context_text_encoder vision_config
    then deepcopy context_text_encoder else context_text_encoder in
  let query_text_encoder_linear :=
    if VisionConfig.separate_query_and_context_text_encoder vision_config
    then deepcopy context_text_encoder_linear else context_text_encoder_linear in
  context_vision_encoder ← match context_vision_encoder with
                           | Some m => Ok m
                           | None => Raise AttributeError
                           end;
  let query_vision_encoder :=
    if VisionConfig.separate_query_and_context_vision_encoder vision_config
    then deepcopy context_vision_encoder else context_vision_encoder in
  let query_vision_projection :=
    if VisionConfig.separate_query_and_context_vision_encoder vision_config
    then deepcopy context_vision_projection else context_vision_projection in
  let use_gpu := true in
  segmented_maxsim ←
    try_load_torch_extensions segmented_maxsim use_gpu (segmented_maxsim_cpp new);
  skiplist ←
    (if FLMRConfig.mask_punctuation config then
       mapR (λ symbol,
               tokenizer ← match context_tokenizer with
                           | Some t => Ok t
                           | None => Raise AttributeError
                           end;
               ids ← encode tokenizer symbol;
               py_index ids 0)
         punctuation
     else Ok []);
  Ok ({| config := config;
         context_text_encoder := encoder_hidden_states context_text_encoder;
         context_text_encoder_linear := Linear.forward context_text_encoder_linear;
         context_vision_encoder := context_vision_encoder;
         context_vision_projection := MLP.forward context_vision_projection;
         query_text_encoder := encoder_hidden_states query_text_encoder;
         query_text_encoder_linear := Linear.forward query_text_encoder_linear;
         query_vision_encoder := query_vision_encoder;
         query_vision_projection := MLP.forward query_vision_projection;
         context_tokenizer :=
           match context_tokenizer with
           | Some t => tokenize t
           | None => λ _, Raise TypeError
           end;
         punctuation_ids := list_to_set skiplist;
         use_gpu := use_gpu |},
      segmented_maxsim).

(** ** Default configuration

    The defaults of [FLMRConfig.__init__] in [configuration_flmr.py]. *)
Definition default_FLMRConfig : FLMRConfig.t := {|
  FLMRConfig.dim := 128;
  FLMRConfig.mask_punctuation := true;
  FLMRConfig.mapping_network_prefix_length := 32;
  FLMRConfig.query_concat_output_from_vision_encoder := true;
  FLMRConfig.query_concat_output_from_text_encoder := true;
  FLMRConfig.context_concat_output_from_vision_encoder := false;
  FLMRConfig.context_concat_output_from_text_encoder := true;
|}.

(** The flags [output_attentions], [output_hidden_states] and
    [use_return_dict] come from [PretrainedConfig]. *)
Definition default_EncoderConfig (output_attentions output_hidden_states use_return_dict : bool)
    : EncoderConfig.t := {|
  EncoderConfig.hidden_size := 768;
  EncoderConfig.projection_dim := 0;
  EncoderConfig.pad_token_id := 0;
  EncoderConfig.output_attentions := output_attentions;
  EncoderConfig.output_hidden_states := output_hidden_states;
  EncoderConfig.use_return_dict := use_return_dict;
|}.

Definition default_VisionConfig : VisionConfig.t := {|
  VisionConfig.vision_encoder_dim := 768;
  VisionConfig.use_vision_encoder := true;
  VisionConfig.vision_model_version := "openai/clip-vit-base-patch32";
  VisionConfig.separate_query_and_context_text_encoder := false;
  VisionConfig.separate_query_and_context_vision_encoder := false;
|}.

(** ** Further concrete instances, used in the examples *)

(** Linear layers whose weights are all one and whose bias is zero. *)
Definition toy_new_Linear (n m : nat) (b : bool) : Linear.t := {|
  Linear.in_features := n;
  Linear.out_features := m;
  Linear.weight := replicate m (replicate n 1%Z);
  Linear.bias := if b then Some (replicate m 0%Z) else None;
|}.

(** A stand-in for BERT with hidden size 2: token [x] has the hidden state
    (x, x); without token ids the call fails. *)
Definition toy_bert (a : BertModel.args) : result model_outputs :=
  match BertModel.input_ids a with
  | Some ids =>
      let h := Tensor (shape ids ++ [2]) (concat ((λ x, [x; x]) <$> data ids)) in
      if BertModel.return_dict a then Ok (OutDict h (Tensor [0] []) None None)
      else Ok (OutTuple [PyTensor h; PyTensor (Tensor [0] [])])
  | None => Raise ValueError
  end.

Definition toy_encoder_config (projection_dim : Z) : EncoderConfig.t := {|
  EncoderConfig.hidden_size := 2;
  EncoderConfig.projection_dim := projection_dim;
  EncoderConfig.pad_token_id := 0;
  EncoderConfig.output_attentions := false;
  EncoderConfig.output_hidden_states := false;
  EncoderConfig.use_return_dict := true;
|}.

Definition toy_FLMREncoder : FLMREncoder.t := {|
  FLMREncoder.bert_model := toy_bert;
  FLMREncoder.hidden_size := 2;
  FLMREncoder.projection_dim := 0;
  FLMREncoder.encode_proj := None;
|}.

(** A reader whose start logit is the first hidden entry, whose end logit
    is the second plus 10, and whose relevance is their sum plus 5. *)
Definition toy_span_predictor : FLMRSpanPredictor.t := {|
  FLMRSpanPredictor.encoder := toy_FLMREncoder;
  FLMRSpanPredictor.qa_outputs :=
    {| Linear.in_features := 2; Linear.out_features := 2;
       Linear.weight := [[1; 0]; [0; 1]]%Z; Linear.bias := Some [0; 10]%Z |};
  FLMRSpanPredictor.qa_classifier :=
    {| Linear.in_features := 2; Linear.out_features := 1;
       Linear.weight := [[1; 1]]%Z; Linear.bias := Some [5%Z] |};
|}.

Definition toy_reader : FLMRReader.t := {|
  FLMRReader.config := toy_encoder_config 0;
  FLMRReader.span_predictor := toy_span_predictor;
  FLMRReader.warn_if_padding_and_no_attention_mask := λ _ _, Ok tt;
|}.

Definition toy_context_encoder : FLMRContextEncoder.t := {|
  FLMRContextEncoder.config := toy_encoder_config 0;
  FLMRContextEncoder.ctx_encoder := toy_FLMREncoder;
|}.

Definition toy_question_encoder : FLMRQuestionEncoder.t := {|
  FLMRQuestionEncoder.config := toy_encoder_config 0;
  FLMRQuestionEncoder.bert := toy_FLMREncoder;
  FLMRQuestionEncoder.linear := toy_new_Linear 2 2 false;
  FLMRQuestionEncoder.warn_if_padding_and_no_attention_mask := λ _ _, Ok tt;
|}.

(** The reader built with a projection of size 3 over hidden size 2. *)
Definition toy_projected_span_predictor : FLMRSpanPredictor.t := {|
  FLMRSpanPredictor.encoder :=
    {| FLMREncoder.bert_model := toy_bert;
       FLMREncoder.hidden_size := 2;
       FLMREncoder.projection_dim := 3;
       FLMREncoder.encode_proj := Some (toy_new_Linear 2 3 true) |};
  FLMRSpanPredictor.qa_outputs := toy_new_Linear 3 2 true;
  FLMRSpanPredictor.qa_classifier := toy_new_Linear 3 1 true;
|}.

(** A tokenizer that encodes a text by the codes of its characters. *)
Definition toy_Tokenizer : Tokenizer := {|
  encode := λ s, Ok ((λ c, Z.of_nat (Ascii.nat_of_ascii c)) <$> String.list_ascii_of_string s);
  tokenize := toy_tokenizer;
|}.

Definition toy_query_tokenizer : QueryTokenizer := {|
  tensorize := λ queries _, toy_tokenizer queries;
  tensorize_batches := λ queries _ _, (λ batch, [batch]) <$> toy_tokenizer queries;
|}.

Definition toy_constructors : Constructors := {|
  new_BertModel := λ _, Ok toy_bert;
  new_Linear := toy_new_Linear;
  Tanh := id;
  CLIPVisionModel := λ _, Ok (λ pixel_values, Ok pixel_values);
  segmented_maxsim_cpp := Ok (λ scores _, Ok scores);
|}.

Definition toy_vision_config : VisionConfig.t := {|
  VisionConfig.vision_encoder_dim := 1;
  VisionConfig.use_vision_encoder := true;
  VisionConfig.vision_model_version := "toy";
  VisionConfig.separate_query_and_context_text_encoder := false;
  VisionConfig.separate_query_and_context_vision_encoder := false;
|}.

(** The model that [__init__] builds from the toy parts. *)
Definition toy_initialised_model : FLMRModelForRetrieval :=
  match FLMRModelForRetrieval__init__ toy_constructors None toy_config
          (toy_encoder_config 0) toy_vision_config (Some toy_Tokenizer) with
  | Ok (self, _) => self
  | Raise _ => toy_model
  end.

(** The toy model without a skiplist. *)
Definition toy_model_unmasked : FLMRModelForRetrieval := {|
  config := {|
    FLMRConfig.dim := 2;
    FLMRConfig.mask_punctuation := false;
    FLMRConfig.mapping_network_prefix_length := 2;
    FLMRConfig.query_concat_output_from_vision_encoder := true;
    FLMRConfig.query_concat_output_from_text_encoder := true;
    FLMRConfig.context_concat_output_from_vision_encoder := false;
    FLMRConfig.context_concat_output_from_text_encoder := true;
  |};
  context_text_encoder := toy_text_encoder;
  context_text_encoder_linear := Ok ∘ id;
  context_vision_encoder := Ok ∘ id;
  context_vision_projection := toy_projection;
  query_text_encoder := toy_text_encoder;
  query_text_encoder_linear := Ok ∘ id;
  query_vision_encoder := Ok ∘ id;
  query_vision_projection := toy_projection;
  context_tokenizer := toy_tokenizer;
  punctuation_ids := ∅;
  use_gpu := true;
|}.

(** * Properties *)

(** ** Blocks of a storage *)

Section chunks.
Context {A : Type}.
Implicit Types (l : list A) (ls : list (list A)).

Lemma length_chunk n sz l : length (chunk n sz l) = n.
Proof. revert l. induction n as [|n IH]; intros l; simpl; [done|]. by rewrite IH. Qed.

Lemma chunk_block_lengths n sz l :
  length l = n * sz → Forall (λ b, length b = sz) (chunk n sz l).
Proof.
  revert l. induction n as [|n IH]; intros l Hl; simpl; [constructor|].
  constructor.
  - rewrite length_take. lia.
  - apply IH. rewrite length_drop. lia.
Qed.

Lemma concat_chunk n sz l : length l = n * sz → concat (chunk n sz l) = l.
Proof.
  revert l. induction n as [|n IH]; intros l Hl; simpl.
  - destruct l; [done|]. simpl in Hl. lia.
  - rewrite IH; [apply take_drop|]. rewrite length_drop. lia.
Qed.

Lemma length_concat_uniform sz ls :
  Forall (λ b, length b = sz) ls → length (concat ls) = length ls * sz.
Proof.
  induction 1 as [|b ls Hb _ IH]; simpl; [done|].
  rewrite length_app, IH, Hb. lia.
Qed.

Lemma chunk_concat sz ls :
  Forall (λ b, length b = sz) ls → chunk (length ls) sz (concat ls) = ls.
Proof.
  induction 1 as [|b ls Hb _ IH]; simpl; [done|].
  rewrite take_app_length', drop_app_length' by done. by rewrite IH.
Qed.

Lemma chunk_concat' n sz ls :
  n = length ls → Forall (λ b, length b = sz) ls → chunk n sz (concat ls) = ls.
Proof. intros ->. apply chunk_concat. Qed.
End chunks.

Lemma uniform3_concat_lengths {A} b c (ms : list (list (list A))) :
  uniform3 b c ms → Forall (λ blk, length blk = b * c) ((λ m, concat m) <$> ms).
Proof.
  induction 1 as [|m ms [Hm Hr] _ IH]; simpl; constructor; [|done].
  rewrite (length_concat_uniform c) by done. by rewrite Hm.
Qed.

Lemma nested3_concat {A} a b c (ms : list (list (list A))) :
  length ms = a → uniform3 b c ms →
  nested3 a b c (concat (concat ms)) = ms.
Proof.
  intros Ha Hu. unfold nested3.
  assert (concat (concat ms) = concat ((λ m, concat m) <$> ms)) as ->.
  { clear. induction ms as [|m ms IH]; simpl; [done|].
    by rewrite concat_app, IH. }
  rewrite (chunk_concat' a (b * c)); [| by rewrite length_fmap
                                      | by apply uniform3_concat_lengths].
  rewrite <-list_fmap_compose.
  rewrite <-(list_fmap_id ms) at 2. apply Forall_fmap_ext_1.
  eapply Forall_impl; [exact Hu|]. intros m [Hm Hr]; simpl.
  by apply chunk_concat'.
Qed.

Lemma nested3_uniform {A} a b c (l : list A) :
  length l = a * (b * c) → uniform3 b c (nested3 a b c l).
Proof.
  intros Hl. unfold nested3, uniform3. apply Forall_fmap.
  eapply Forall_impl; [apply (chunk_block_lengths a (b * c)); lia|].
  intros blk Hblk; simpl in *. split; [apply length_chunk|].
  by apply chunk_block_lengths.
Qed.

Lemma length_nested3 {A} a b c (l : list A) : length (nested3 a b c l) = a.
Proof. unfold nested3. by rewrite length_fmap, length_chunk. Qed.

(** ** Matrices given by rows *)

Lemma map_nth_seq {A B} (g : A → B) (l : list A) (d : A) :
  (λ j, g (nth j l d)) <$> seq 0 (length l) = g <$> l.
Proof.
  induction l as [|x l IH] using rev_ind; [done|].
  rewrite length_app; simpl. rewrite Nat.add_1_r, seq_S, !fmap_app; simpl.
  rewrite app_nth2, Nat.sub_diag by lia; simpl.
  f_equal. rewrite <-IH. apply list_fmap_ext.
  intros i j Hj. apply lookup_seq in Hj as [-> Hj]; simpl.
  by rewrite app_nth1.
Qed.

Lemma nth_seq_id {A} (l : list A) (d : A) n :
  length l = n → (λ j, nth j l d) <$> seq 0 n = l.
Proof. intros <-. etrans; [apply (map_nth_seq id)|apply list_fmap_id]. Qed.

Lemma column_transpose d j (Qi : list (list Z)) :
  j < length Qi → Forall (λ r, length r = d) Qi →
  column j (transpose d Qi) = nth j Qi [].
Proof.
  intros Hj Hd. unfold column at 1, transpose. rewrite <-list_fmap_compose.
  assert (length (nth j Qi []) = d) as Hlen.
  { destruct (nth_lookup_or_length Qi j []) as [Hl|]; [|lia].
    by eapply (Forall_lookup_1 _ _ _ _ Hd) in Hl. }
  etrans; [|apply (nth_seq_id (nth j Qi []) 0%Z d Hlen)].
  apply list_fmap_ext. intros _ c _; simpl. unfold column.
  assert ((0%Z) = (λ r : list Z, nth c r 0%Z) []) as Hz by (by destruct c).
  rewrite Hz at 1. exact (map_nth (λ r : list Z, nth c r 0%Z) Qi [] j).
Qed.

Lemma matmul2_transpose d ql (Di Qi : list (list Z)) :
  length Qi = ql → Forall (λ r, length r = d) Qi →
  matmul2 ql Di (transpose d Qi) = sim_matrix Di Qi.
Proof.
  intros Hq Hd. unfold matmul2, sim_matrix.
  apply list_fmap_ext. intros _ r _.
  rewrite <-(map_nth_seq (dot r) Qi []), Hq.
  apply list_fmap_ext. intros i j Hj. apply lookup_seq in Hj as [-> Hj]; simpl.
  rewrite column_transpose by (done || lia). done.
Qed.

Lemma transpose_uniform b c (ms : list (list (list Z))) :
  uniform3 b c ms → uniform3 c b (transpose c <$> ms).
Proof.
  intros Hu. apply Forall_fmap. eapply Forall_impl; [exact Hu|].
  intros m [Hm _]; simpl. unfold transpose. split.
  - by rewrite length_fmap, length_seq.
  - apply Forall_fmap, Forall_forall. intros j _; simpl.
    unfold column. by rewrite length_fmap.
Qed.

Lemma sim_matrix_uniform l d ql (Ds Qs : list (list (list Z))) (f : nat → nat) n :
  uniform3 l d Ds → length Ds = n →
  (∀ i, i < n → length (nth (f i) Qs []) = ql) →
  uniform3 l ql ((λ i, sim_matrix (nth i Ds []) (nth (f i) Qs [])) <$> seq 0 n).
Proof.
  intros Hu Hn Hq. apply Forall_fmap, Forall_forall.
  intros i Hi%elem_of_seq; simpl. unfold sim_matrix. split.
  - rewrite length_fmap.
    destruct (nth_lookup_or_length Ds i []) as [Hl|]; [|lia].
    by eapply (Forall_lookup_1 _ _ _ _ Hu) in Hl as [? _].
  - apply Forall_fmap, Forall_forall. intros r _; simpl.
    rewrite length_fmap. apply Hq. lia.
Qed.

(** ** Masking and reducing one document *)

Lemma zip_with_concat {A B C} (f : A → B → C) (xs : list (list A)) (ys : list (list B)) :
  Forall2 (λ x y, length x = length y) xs ys →
  zip_with f (concat xs) (concat ys) = concat (zip_with (zip_with f) xs ys).
Proof.
  induction 1 as [|x y xs ys Hxy _ IH]; simpl; [done|].
  by rewrite zip_with_app, IH.
Qed.

Lemma mapR_fmap {A B C} (g : A → B) (f : B → result C) (l : list A) :
  mapR f (g <$> l) = mapR (f ∘ g) l.
Proof. induction l as [|x l IH]; csimpl; [done|]. by rewrite IH. Qed.

Lemma mapR_ok {A B} (f : A → result B) (g : A → B) (l : list A) :
  Forall (λ x, f x = Ok (g x)) l → mapR f l = Ok (g <$> l).
Proof. induction 1 as [|x l Hx _ IH]; simpl; [done|]. by rewrite Hx, IH. Qed.

Lemma length_foldl_zip_max n (r : list Z) (rs : list (list Z)) :
  length r = n → Forall (λ r', length r' = n) rs →
  length (foldl (zip_with Z.max) r rs) = n.
Proof.
  intros Hr Hrs. revert r Hr. induction Hrs as [|r' rs Hr' _ IH]; intros r Hr; simpl; [done|].
  apply IH. rewrite length_zip_with. lia.
Qed.

Lemma length_col_max l n (m : list (list Z)) :
  0 < l → length m = l → Forall (λ r, length r = n) m → length (col_max m) = n.
Proof.
  intros Hl Hm Hr. destruct m as [|r rs]; simpl in *; [lia|].
  inversion Hr; subst. by apply length_foldl_zip_max.
Qed.

Lemma mask_rows_uniform fill l n (Mi : list bool) (m : list (list Z)) :
  length Mi = l → length m = l → Forall (λ r, length r = n) m →
  length (mask_rows fill Mi m) = l ∧ Forall (λ r, length r = n) (mask_rows fill Mi m).
Proof.
  intros HM Hm Hr. unfold mask_rows. split.
  - rewrite length_zip_with. lia.
  - clear HM Hm. revert Mi. induction Hr as [|r rs Hr _ IH]; intros [|b Mi]; simpl;
      try constructor; [|by apply IH].
    destruct b; [done|]. by rewrite length_replicate.
Qed.

Lemma zip_mask_uniform fill n l ql (Ms : list (list bool)) (mats : list (list (list Z))) :
  length Ms = n → length mats = n →
  Forall (λ Mi, length Mi = l) Ms → uniform3 l ql mats →
  length (zip_with (mask_rows fill) Ms mats) = n ∧
  uniform3 l ql (zip_with (mask_rows fill) Ms mats).
Proof.
  intros HMs Hmats HM Hu. split; [rewrite length_zip_with; lia|].
  clear HMs Hmats. revert mats Hu.
  induction HM as [|Mi Ms HMi _ IH]; intros mats Hu; [constructor|].
  destruct Hu as [|m mats [Hm Hr] Hu]; simpl; constructor; [|by apply IH].
  by apply mask_rows_uniform.
Qed.

(** What [colbert_score_reduce] writes into the caller's tensor and what it
    returns, in terms of the per-document similarity matrices [mats]. *)
Lemma colbert_score_reduce_nested (dt : dtype) (h : gmap nat (tensor Z)) r n l ql
    (mats : list (list (list Z))) (M : tensor bool) :
  h !! r = Some (Tensor [n; l; ql] (concat (concat mats))) →
  length mats = n → uniform3 l ql mats →
  numel (shape M) = n * l → wf M → 0 < l →
  colbert_score_reduce dt r M h =
    (<[r := Tensor [n; l; ql]
              (concat (concat (zip_with (mask_rows (sentinel dt))
                                 (chunk n l (data M)) mats)))]> h,
     Ok (Tensor [n]
           ((λ m, Zsum (col_max m))
              <$> zip_with (mask_rows (sentinel dt)) (chunk n l (data M)) mats))).
Proof.
  intros Hr Hn Hu HM HwM Hl. unfold wf in HwM. rewrite HM in HwM.
  pose proof (chunk_block_lengths n l (data M) HwM) as HMs.
  pose proof (length_chunk n l (data M)) as HnM.
  destruct (zip_mask_uniform (sentinel dt) n l ql _ _ HnM Hn HMs Hu) as [Hzn Hzu].
  set (masked := zip_with (mask_rows (sentinel dt)) (chunk n l (data M)) mats) in *.
  assert (index_put (Tensor [n; l; ql] (concat (concat mats)))
            (tnot (tbool (Tensor [n; l] (data M)))) (sentinel dt)
          = Ok (Tensor [n; l; ql] (concat (concat masked)))) as Hput.
  { unfold index_put; simpl. rewrite decide_True by done. do 2 f_equal.
    rewrite Nat.mul_1_r.
    rewrite (chunk_concat' (n * l) ql (concat mats)).
    - rewrite zip_with_fmap_l.
      rewrite <-(concat_chunk n l (data M) HwM) at 1.
      rewrite zip_with_concat.
      + unfold masked, mask_rows. do 2 f_equal.
        apply zip_with_ext; [|done..]. intros Mi m.
        apply zip_with_ext; [|done..]. by intros [] ?.
      + clear -HMs Hu HnM Hn. revert mats Hn Hu. generalize dependent n.
        intros n HMs. generalize (chunk n l (data M)) HMs. clear.
        intros Ms HMs HnM mats Hn Hu. subst n. revert mats Hn Hu.
        induction HMs as [|Mi Ms HMi _ IH]; intros [|m mats] Hn Hu;
          simplify_eq/=; constructor.
        * inversion Hu as [|?? [Hm _]]; subst. lia.
        * apply IH; [done|]. by inversion Hu.
    - rewrite (length_concat_uniform l), Hn; [done|].
      eapply Forall_impl; [exact Hu|]. by intros ? [? _].
    - apply Forall_concat. eapply Forall_impl; [exact Hu|]. by intros ? [_ ?]. }
  assert (max_dim1 (Tensor [n; l; ql] (concat (concat masked)))
          = Ok (Tensor [n; ql] (concat (col_max <$> masked)))) as Hmax.
  { unfold max_dim1; simpl. rewrite decide_False by lia. rewrite Nat.mul_1_r.
    pose proof (nested3_concat n l ql masked Hzn Hzu) as Hnest. unfold nested3 in Hnest.
    assert (mapR (λ blk, max_blocks (chunk l ql blk)) (chunk n (l * ql) (concat (concat masked)))
            = Ok (col_max <$> masked)) as ->; [|done].
    change (λ blk, max_blocks (chunk l ql blk)) with (max_blocks ∘ chunk (A:=Z) l ql).
    rewrite <-mapR_fmap, Hnest. apply mapR_ok.
    eapply Forall_impl; [exact Hzu|]. intros m [Hm _]; simpl.
    destruct m; simpl in *; [lia|done]. }
  assert (sum_last (Tensor [n; ql] (concat (col_max <$> masked)))
          = Ok (Tensor [n] ((λ m, Zsum (col_max m)) <$> masked))) as Hsum.
  { unfold sum_last; simpl. do 2 f_equal. rewrite Nat.mul_1_r.
    rewrite (chunk_concat' n ql).
    - by rewrite <-list_fmap_compose.
    - by rewrite length_fmap.
    - apply Forall_fmap. eapply Forall_impl; [exact Hzu|].
      intros m [Hm Hrs]; simpl. by apply (length_col_max l). }
  unfold colbert_score_reduce, mbind, St_bind, load, lift, store_at, size, view; simpl.
  rewrite Hr; simpl. rewrite decide_True by (simpl; lia).
  rewrite Hput, lookup_insert_eq, Hmax, Hsum. done.
Qed.

(** ** The late-interaction score *)

Lemma Zmax_from_ge x l : (x ≤ Zmax_from x l)%Z ∧ Forall (λ y, (y ≤ Zmax_from x l)%Z) l.
Proof.
  unfold Zmax_from. revert x. induction l as [|y l IH]; intros x; simpl.
  - split; [lia|constructor].
  - destruct (IH (Z.max x y)) as [H1 H2]. split; [lia|].
    constructor; [lia|done].
Qed.

Lemma Zmax_from_in x l : Zmax_from x l ∈ x :: l.
Proof.
  unfold Zmax_from. revert x. induction l as [|y l IH]; intros x; simpl.
  - left.
  - specialize (IH (Z.max x y)). apply elem_of_cons in IH as [->|IH].
    + destruct (Z.max_spec x y) as [[_ ->]|[_ ->]]; [right; left|left].
    + by do 2 right.
Qed.

(** [Zmax_list] is the greatest element of a non-empty list. *)
Lemma Zmax_list_greatest l :
  l ≠ [] → Zmax_list l ∈ l ∧ Forall (λ y, (y ≤ Zmax_list l)%Z) l.
Proof.
  destruct l as [|x l]; [done|]. intros _; simpl. split; [apply Zmax_from_in|].
  destruct (Zmax_from_ge x l). by constructor.
Qed.

Lemma foldl_zip_max_pointwise {X Y} (g : X → Y → Z) (f0 : Y → Z) (xs : list X) (Qi : list Y) :
  foldl (zip_with Z.max) (f0 <$> Qi) ((λ x, g x <$> Qi) <$> xs)
  = (λ q, foldl Z.max (f0 q) ((λ x, g x q) <$> xs)) <$> Qi.
Proof.
  revert f0. induction xs as [|x xs IH]; intros f0; csimpl; [done|].
  rewrite zip_with_fmap_l, zip_with_fmap_r, zip_with_diag.
  apply (IH (λ q, Z.max (f0 q) (g x q))).
Qed.

Lemma col_max_masked (fill : Z) (Qi Di : list (list Z)) (Mi : list bool) :
  col_max (mask_rows fill Mi (sim_matrix Di Qi))
  = match zip Di Mi with
    | [] => []
    | _ => (λ q, Zmax_list (zip_with (λ d (m : bool), if m then dot d q else fill) Di Mi))
             <$> Qi
    end.
Proof.
  set (g := λ (p : list Z * bool) (q : list Z), if p.2 then dot p.1 q else fill).
  assert (mask_rows fill Mi (sim_matrix Di Qi) = (λ p, g p <$> Qi) <$> zip Di Mi) as ->.
  { unfold mask_rows, sim_matrix. clear.
    revert Mi. induction Di as [|d Di IH]; intros [|m Mi]; csimpl; try done.
    f_equal; [|apply IH]. destruct m; [done|].
    rewrite length_fmap. symmetry. by apply const_fmap. }
  assert (∀ q, zip_with (λ d (m : bool), if m then dot d q else fill) Di Mi
               = (λ p, g p q) <$> zip Di Mi) as Hz.
  { intros q. rewrite zip_with_zip. apply list_fmap_ext. by intros _ [d m] _. }
  destruct (zip Di Mi) as [|p ps] eqn:Hzip; [done|].
  csimpl. rewrite foldl_zip_max_pointwise.
  apply list_fmap_ext. intros _ q _. by rewrite Hz.
Qed.

Lemma maxsim_reduce (fill : Z) (Qi Di : list (list Z)) (Mi : list bool) :
  0 < length Di → length Mi = length Di →
  Zsum (col_max (mask_rows fill Mi (sim_matrix Di Qi))) = maxsim fill Qi Di Mi.
Proof.
  intros Hl HM. rewrite col_max_masked.
  destruct Di as [|d Di]; [simpl in Hl; lia|].
  destruct Mi as [|m Mi]; [done|]. done.
Qed.

(** A document whose mask is false everywhere scores the sentinel once per
    query token. *)
Lemma maxsim_fully_masked (fill : Z) (Qi Di : list (list Z)) (Mi : list bool) :
  0 < length Di → length Mi = length Di → Forall (λ m, m = false) Mi →
  maxsim fill Qi Di Mi = (Z.of_nat (length Qi) * fill)%Z.
Proof.
  intros Hl HM Hf. unfold maxsim.
  assert (∀ q, Zmax_list (zip_with (λ d (m : bool), if m then dot d q else fill) Di Mi)
               = fill) as Hq.
  { intros q.
    assert (zip_with (λ d (m : bool), if m then dot d q else fill) Di Mi
            = replicate (length Di) fill) as ->.
    { clear Hl. revert Di HM. induction Hf as [|m Mi -> _ IH]; intros [|d Di] HM;
        simplify_eq/=; [done|]. f_equal. by apply IH. }
    destruct (length Di) as [|n]; [lia|]; simpl. clear.
    unfold Zmax_from. induction n as [|n IH]; simpl; [done|]. by rewrite Z.max_id. }
  erewrite (list_fmap_ext _ (λ _, fill) Qi) by (intros; apply Hq).
  clear. induction Qi as [|q Qi IH]; [done|].
  csimpl. rewrite IH. lia.
Qed.

(** ** The write performed by [colbert_score_reduce] *)

Lemma lookup_concat_uniform {A} sz (ls : list (list A)) p j :
  Forall (λ b, length b = sz) ls → j < sz →
  concat ls !! (p * sz + j) = ls !! p ≫= (λ blk, blk !! j).
Proof.
  intros Hu Hj. revert p. induction Hu as [|b ls Hb _ IH]; intros p; simpl; [done|].
  destruct p as [|p]; simpl.
  - rewrite lookup_app_l by lia. done.
  - rewrite lookup_app_r by lia. rewrite <-IH. f_equal. lia.
Qed.


(** ** The score returned by [colbert_score] *)

Lemma zip_with_seq {A B C} (f : A → B → C) (xs : list A) (g : nat → B) n (d : A) :
  length xs = n →
  zip_with f xs (g <$> seq 0 n) = (λ i, f (nth i xs d) (g i)) <$> seq 0 n.
Proof.
  intros Hn. rewrite <-(nth_seq_id xs d n Hn) at 1.
  by rewrite zip_with_fmap_l, zip_with_fmap_r, zip_with_diag.
Qed.

Lemma broadcast_zip_index {A B} (dA : A) (dB : B) n m (xs : list A) (ys : list B) :
  length xs = n → length ys = m → m = 1 ∨ m = n →
  broadcast_zip n m xs ys
  = (λ i, (nth i xs dA, nth (query_index m i) ys dB)) <$> seq 0 n.
Proof.
  intros Hx Hy Hm. unfold broadcast_zip, query_index.
  destruct (decide (n = m)) as [->|Hne].
  - rewrite <-(nth_seq_id ys dB m Hy) at 1.
    rewrite (zip_with_seq _ _ _ _ dA) by done.
    apply list_fmap_ext. intros ? i ?%lookup_seq; simpl.
    destruct (decide (m = 1)) as [->|]; [|done].
    assert (i = 0) as -> by lia. done.
  - destruct Hm as [->|]; [|congruence].
    rewrite !decide_True by done.
    destruct ys as [|y [|??]]; simplify_eq/=.
    symmetry. apply (map_nth_seq (λ x, (x, y)) xs dA).
Qed.

Lemma query_index_lt Nq N i : Nq = 1 ∨ Nq = N → i < N → query_index Nq i < Nq.
Proof. intros HNq Hi. unfold query_index. case_decide; lia. Qed.

Lemma nth_uniform3 {A} b c (ms : list (list (list A))) i :
  uniform3 b c ms → i < length ms →
  length (nth i ms []) = b ∧ Forall (λ r, length r = c) (nth i ms []).
Proof.
  intros Hu Hi. destruct (nth_lookup_or_length ms i []) as [Hl|]; [|lia].
  by eapply (Forall_lookup_1 _ _ _ _ Hu) in Hl.
Qed.

(** The similarity tensor [D_padded @ Q.permute(0, 2, 1)], document by
    document. *)
Lemma matmul3_permute (Q D : tensor Z) Nq N ql dl d :
  shape Q = [Nq; ql; d] → wf Q → shape D = [N; dl; d] → wf D → Nq = 1 ∨ Nq = N →
  (qt ← permute021 Q; matmul3 D qt)
  = Ok (Tensor [N; dl; ql]
          (concat (concat ((λ i, sim_matrix (nth i (rows3 D) [])
                                   (nth (query_index Nq i) (rows3 Q) []))
                             <$> seq 0 N)))).
Proof.
  intros HQ HwQ HD HwD HNq. unfold wf in *. rewrite HQ in HwQ. rewrite HD in HwD.
  simpl in HwQ, HwD. rewrite Nat.mul_1_r in HwQ, HwD.
  unfold permute021, rows3. rewrite HQ, HD; csimpl.
  unfold matmul3; simpl. rewrite HD, decide_True by done.
  assert (broadcast_dim N Nq = Ok N) as ->.
  { unfold broadcast_dim. destruct HNq as [->| ->]; repeat case_decide; done. }
  csimpl. do 4 f_equal.
  pose proof (nested3_uniform Nq ql d (data Q) HwQ) as HuQ.
  pose proof (length_nested3 Nq ql d (data Q)) as HnQ.
  set (Qs := nested3 Nq ql d (data Q)) in *.
  rewrite (nested3_concat Nq d ql);
    [|by rewrite length_fmap|by apply transpose_uniform].
  rewrite (broadcast_zip_index [] [] N Nq);
    [|apply length_nested3|by rewrite length_fmap|done].
  rewrite <-list_fmap_compose. apply list_fmap_ext.
  intros ? i ?%lookup_seq; simpl.
  pose proof (query_index_lt Nq N i HNq) as Hlt.
  destruct (nth_uniform3 ql d Qs (query_index Nq i) HuQ) as [Hl1 Hl2]; [lia|].
  assert (nth (query_index Nq i) (transpose d <$> Qs) []
          = transpose d (nth (query_index Nq i) Qs [])) as ->.
  { destruct (Qs !! query_index Nq i) as [m|] eqn:E.
    - rewrite (nth_lookup_Some Qs _ [] m E).
      apply nth_lookup_Some. by rewrite list_lookup_fmap, E.
    - apply lookup_ge_None in E. lia. }
  by apply matmul2_transpose.
Qed.

Lemma nth_chunk_length {A} n sz (l : list A) i :
  length l = n * sz → i < n → length (nth i (chunk n sz l) []) = sz.
Proof.
  intros Hl Hi. pose proof (chunk_block_lengths n sz l Hl) as Hu.
  destruct (nth_lookup_or_length (chunk n sz l) i []) as [Hk|Hk].
  - by eapply (Forall_lookup_1 _ _ _ _ Hu) in Hk.
  - rewrite length_chunk in Hk. lia.
Qed.

(** The scores of [colbert_score] for a document tensor of any dtype, the
    arithmetic being exact: a position whose mask entry is false counts as
    the sentinel of the dtype. *)
Lemma colbert_score_scores (dt : dtype) (Q D : tensor Z) (M : tensor bool)
    (Nq N ql dl d : nat) (use_gpu : bool) (h : gmap nat (tensor Z)) :
  shape Q = [Nq; ql; d] → wf Q →
  shape D = [N; dl; d] → wf D →
  shape M = [N; dl] → wf M →
  Nq = 1 ∨ Nq = N → 0 < dl →
  ∃ scores : list Z,
    (colbert_score dt Q D M use_gpu h).2 = Ok (Tensor [N] scores) ∧
    length scores = N ∧
    (∀ i, i < N →
       scores !! i = Some (maxsim (sentinel dt) (nth (query_index Nq i) (rows3 Q) [])
                                  (nth i (rows3 D) []) (nth i (rows2 M) []))) ∧
    (∀ i, i < N → Forall (λ m, m = false) (nth i (rows2 M) []) →
       scores !! i = Some (Z.of_nat ql * sentinel dt)%Z).
Proof.
  intros HQ HwQ HD HwD HM HwM HNq Hdl.
  pose proof (matmul3_permute Q D Nq N ql dl d HQ HwQ HD HwD HNq) as Hmm.
  set (mats := (λ i, sim_matrix (nth i (rows3 D) []) (nth (query_index Nq i) (rows3 Q) []))
                 <$> seq 0 N) in *.
  assert (uniform3 dl d (rows3 D) ∧ length (rows3 D) = N) as [HuD HnD].
  { unfold rows3. rewrite HD. split; [|apply length_nested3].
    apply nested3_uniform. unfold wf in HwD. rewrite HD in HwD. simpl in HwD. lia. }
  assert (uniform3 ql d (rows3 Q) ∧ length (rows3 Q) = Nq) as [HuQ HnQ].
  { unfold rows3. rewrite HQ. split; [|apply length_nested3].
    apply nested3_uniform. unfold wf in HwQ. rewrite HQ in HwQ. simpl in HwQ. lia. }
  assert (uniform3 dl ql mats) as Hum.
  { apply (sim_matrix_uniform dl d); [done..|]. intros i Hi.
    apply (nth_uniform3 ql d); [done|]. rewrite HnQ. by apply query_index_lt with N. }
  assert (length mats = N) as Hnm by (unfold mats; by rewrite length_fmap, length_seq).
  assert (length (data M) = N * dl) as HlM.
  { unfold wf in HwM. rewrite HM in HwM. simpl in HwM. lia. }
  set (Ms := chunk N dl (data M)).
  exists ((λ m, Zsum (col_max m)) <$> zip_with (mask_rows (sentinel dt)) Ms mats).
  assert (∀ i, i < N →
            ((λ m, Zsum (col_max m)) <$> zip_with (mask_rows (sentinel dt)) Ms mats) !! i
            = Some (maxsim (sentinel dt) (nth (query_index Nq i) (rows3 Q) [])
                      (nth i (rows3 D) []) (nth i (rows2 M) []))) as Hscore.
  { intros i Hi. unfold mats. rewrite (zip_with_seq _ _ _ _ []) by apply length_chunk.
    rewrite <-list_fmap_compose, list_lookup_fmap, lookup_seq_lt by done. simpl.
    f_equal. unfold rows2. rewrite HM. unfold nested2. fold Ms.
    destruct (nth_uniform3 dl d (rows3 D) i HuD) as [HlD _]; [lia|].
    apply maxsim_reduce; [lia|]. rewrite HlD. by apply nth_chunk_length. }
  split; [|split; [|split]].
  - unfold colbert_score, mbind, St_bind, lift, py_assert, dim, size.
    rewrite HQ, HD; simpl.
    rewrite bool_decide_true; [simpl|].
    2:{ destruct HNq as [->| ->]; set_solver. }
    unfold permute021 in Hmm |- *. rewrite HQ in Hmm |- *. csimpl in Hmm.
    rewrite Hmm. unfold alloc; simpl.
    rewrite (colbert_score_reduce_nested dt _ _ N dl ql mats M);
      [done|apply lookup_insert_eq|done|done|rewrite HM; simpl; lia|done|done].
  - rewrite length_fmap, length_zip_with. unfold Ms. rewrite length_chunk. lia.
  - done.
  - intros i Hi Hf. rewrite Hscore by done. f_equal.
    destruct (nth_uniform3 dl d (rows3 D) i HuD) as [HlD _]; [lia|].
    destruct (nth_uniform3 ql d (rows3 Q) (query_index Nq i) HuQ) as [HlQ _].
    { rewrite HnQ. by apply query_index_lt with N. }
    rewrite maxsim_fully_masked, HlQ; [done|lia| |done].
    rewrite HlD. unfold rows2. rewrite HM. by apply nth_chunk_length.
Qed.

(** The sentinel of each dtype. *)
Lemma sentinel_values :
  sentinel float64 = (-9999)%Z ∧ sentinel float32 = (-9999)%Z ∧
  sentinel float16 = (-10000)%Z ∧ sentinel bfloat16 = (-9984)%Z.
Proof. repeat split. Qed.

(** C1 (amended).  For a query tensor of shape (N_q, q_len, dim) with
    N_q = 1 or N_q = N, a padded document tensor of shape (N, d_len, dim)
    of dtype float32 or float64 with at least one token position, and a
    boolean mask of shape (N, d_len), [colbert_score] returns one score per
    document: the sum over the query tokens of the maximum over the
    document positions of the dot product, a position whose mask entry is
    false counting as -9999.  A document whose mask is false everywhere
    scores q_len * -9999. *)
Theorem colbert_score_is_maxsim (dt : dtype) (Q D : tensor Z) (M : tensor bool)
    (Nq N ql dl d : nat) (use_gpu : bool) (h : gmap nat (tensor Z)) :
  dt = float32 ∨ dt = float64 →
  shape Q = [Nq; ql; d] → wf Q →
  shape D = [N; dl; d] → wf D →
  shape M = [N; dl] → wf M →
  Nq = 1 ∨ Nq = N → 0 < dl →
  ∃ scores : list Z,
    (colbert_score dt Q D M use_gpu h).2 = Ok (Tensor [N] scores) ∧
    length scores = N ∧
    (∀ i, i < N →
       scores !! i = Some (maxsim (-9999) (nth (query_index Nq i) (rows3 Q) [])
                                  (nth i (rows3 D) []) (nth i (rows2 M) []))) ∧
    (∀ i, i < N → Forall (λ m, m = false) (nth i (rows2 M) []) →
       scores !! i = Some (Z.of_nat ql * -9999)%Z).
Proof.
  intros [-> | ->] HQ HwQ HD HwD HM HwM HNq Hdl.
  - exact (colbert_score_scores float32 Q D M Nq N ql dl d use_gpu h
             HQ HwQ HD HwD HM HwM HNq Hdl).
  - exact (colbert_score_scores float64 Q D M Nq N ql dl d use_gpu h
             HQ HwQ HD HwD HM HwM HNq Hdl).
Qed.

Lemma colbert_score_is_maxsim_witness :
  ∃ scores : list Z,
    (colbert_score float32 (Tensor [1; 4; 8] (replicate 32 1%Z))
       (Tensor [2; 5; 8] (replicate 80 1%Z))
       (Tensor [2; 5] (replicate 5 true ++ replicate 5 false)) false ∅).2
    = Ok (Tensor [2] scores) ∧
    length scores = 2 ∧
    (∀ i, i < 2 →
       scores !! i
       = Some (maxsim (-9999)
                 (nth (query_index 1 i) (rows3 (Tensor [1; 4; 8] (replicate 32 1%Z))) [])
                 (nth i (rows3 (Tensor [2; 5; 8] (replicate 80 1%Z))) [])
                 (nth i (rows2 (Tensor [2; 5] (replicate 5 true ++ replicate 5 false))) []))) ∧
    (∀ i, i < 2 →
       Forall (λ m, m = false)
         (nth i (rows2 (Tensor [2; 5] (replicate 5 true ++ replicate 5 false))) []) →
       scores !! i = Some (Z.of_nat 4 * -9999)%Z).
Proof.
  apply (colbert_score_is_maxsim float32 _ _ _ 1 2 4 5 8 false ∅);
    [left; reflexivity|reflexivity|reflexivity|reflexivity|reflexivity|reflexivity
    |reflexivity|left; reflexivity|lia].
Defined.

(** The scenario of one fully masked document in float32: the unmasked
    document scores 4 * 8 and the masked one 4 * -9999. *)
Example colbert_score_masked_scenario :
  (colbert_score float32 (Tensor [1; 4; 8] (replicate 32 1%Z))
     (Tensor [2; 5; 8] (replicate 80 1%Z))
     (Tensor [2; 5] (replicate 5 true ++ replicate 5 false)) false ∅).2
  = Ok (Tensor [2] [32; -39996]%Z).
Proof. vm_compute. reflexivity. Qed.

(** The same scenario in float16, the dtype of the document embeddings that
    [doc] returns on GPU: the sentinel is stored as -10000, and the fully
    masked document scores 4 * -10000, not 4 * -9999. *)
Example colbert_score_float16_sentinel :
  (colbert_score float16 (Tensor [1; 4; 8] (replicate 32 1%Z))
     (Tensor [2; 5; 8] (replicate 80 1%Z))
     (Tensor [2; 5] (replicate 5 true ++ replicate 5 false)) false ∅).2
  = Ok (Tensor [2] [32; -40000]%Z) ∧
  (-40000 ≠ 4 * -9999)%Z.
Proof. split; [vm_compute; reflexivity|lia]. Qed.

(** With no document position the maximum over axis 1 raises. *)
Example colbert_score_no_position :
  (colbert_score float32 (Tensor [1; 1; 1] [1%Z]) (Tensor [1; 0; 1] []) (Tensor [1; 0] [])
     false ∅).2
  = Raise IndexError.
Proof. vm_compute. reflexivity. Qed.



(** The caller's float32 tensor after the call, on a concrete store. *)
Example colbert_score_reduce_overwrites :
  (colbert_score_reduce float32 0 (Tensor [1; 2] [true; false])
     {[0 := Tensor [1; 2; 2] [3; 4; 5; 6]%Z]}).1 !! 0
  = Some (Tensor [1; 2; 2] [3; 4; -9999; -9999]%Z).
Proof. vm_compute. reflexivity. Qed.


(** ** The gather step on a single worker *)

(** C8.  When the world size is 1, [gather_tensors_from_other_gpus]
    returns the query embeddings, the document embeddings and the document
    mask it was given, unchanged. *)
Theorem gather_single_worker_is_identity (dist : Dist)
    (query_embeddings item_embeddings : tensor Z) (item_mask : tensor bool) :
  get_world_size dist = 1 →
  gather_tensors_from_other_gpus dist query_embeddings item_embeddings item_mask
  = Ok (query_embeddings, item_embeddings, item_mask).
Proof.
  intros Hw. unfold gather_tensors_from_other_gpus. by rewrite decide_True.
Qed.

Lemma gather_single_worker_is_identity_witness :
  gather_tensors_from_other_gpus
    {| get_world_size := 1; get_rank := 0; all_gather := λ A t, [t] |}
    (Tensor [1; 1; 2] [3; 4]%Z) (Tensor [2; 1; 2] [5; 6; 7; 8]%Z) (Tensor [2; 1] [true; false])
  = Ok (Tensor [1; 1; 2] [3; 4]%Z, Tensor [2; 1; 2] [5; 6; 7; 8]%Z, Tensor [2; 1] [true; false]).
Proof.
  apply (gather_single_worker_is_identity
           {| get_world_size := 1; get_rank := 0; all_gather := λ A t, [t] |}).
  reflexivity.
Defined.

(** With two workers the result is the concatenation over the ranks. *)
Example gather_two_workers :
  gather_tensors_from_other_gpus
    {| get_world_size := 2; get_rank := 1; all_gather := λ A t, [t; t] |}
    (Tensor [1; 1; 2] [3; 4]%Z) (Tensor [2; 1; 2] [5; 6; 7; 8]%Z) (Tensor [2; 1] [true; false])
  = Ok (Tensor [2; 1; 2] [3; 4; 3; 4]%Z,
        Tensor [4; 1; 2] [5; 6; 7; 8; 5; 6; 7; 8]%Z,
        Tensor [4; 1] [true; false; true; false]).
Proof. vm_compute. reflexivity. Qed.

(** ** Labels of the in-batch negative loss *)

Lemma argmax_from_replicate best bi i n x l :
  (x ≤ best)%Z →
  argmax_from best bi i (replicate n x ++ l) = argmax_from best bi (i + n) l.
Proof.
  intros Hx. revert i. induction n as [|n IH]; intros i; simpl.
  - by rewrite Nat.add_0_r.
  - rewrite decide_False by lia. rewrite IH. f_equal. lia.
Qed.

Lemma argmax_from_replicate_nil best bi i n x :
  (x ≤ best)%Z → argmax_from best bi i (replicate n x) = bi.
Proof.
  intros Hx. rewrite <-(app_nil_r (replicate n x)).
  by rewrite argmax_from_replicate.
Qed.

(** The arg-max of a one-hot row is the position of its one. *)
Lemma argmax_one_hot m j :
  j < m → argmax_list (<[j := 1%Z]> (replicate m 0%Z)) = j.
Proof.
  intros Hj. rewrite insert_replicate_lt by done.
  destruct j as [|j]; simpl.
  - by rewrite argmax_from_replicate_nil.
  - rewrite argmax_from_replicate by lia. simpl.
    by rewrite argmax_from_replicate_nil.
Qed.

Lemma set2_in_range n m (d : list Z) i j v :
  i < n → j < m → set2 (Tensor [n; m] d) i j v = Ok (Tensor [n; m] (<[i * m + j := v]> d)).
Proof. intros Hi Hj. unfold set2; simpl. by rewrite decide_True. Qed.

Lemma label_loop (B m step a n : nat) (pre : list Z) :
  a + n = B → length pre = a * m → (∀ i, i < B → step * i < m) →
  for_each (seq a n) (λ i labels, set2 labels i (step * i) 1)
    (Tensor [B; m] (pre ++ replicate (n * m) 0%Z))
  = Ok (Tensor [B; m]
          (pre ++ concat ((λ i, <[step * i := 1%Z]> (replicate m 0%Z)) <$> seq a n))).
Proof.
  revert a pre. induction n as [|n IH]; intros a pre HB Hpre Hstep; csimpl.
  { done. }
  rewrite set2_in_range by (lia || (apply Hstep; lia)).
  csimpl.
  assert (<[a * m + step * a := 1%Z]> (pre ++ replicate (m + n * m) 0%Z)
          = (pre ++ <[step * a := 1%Z]> (replicate m 0%Z)) ++ replicate (n * m) 0%Z) as ->.
  { rewrite <-Hpre, insert_app_r. rewrite replicate_add, insert_app_l.
    - by rewrite <-app_assoc.
    - rewrite length_replicate. apply Hstep. lia. }
  rewrite (IH (S a)); [|lia| |done].
  - by rewrite <-app_assoc.
  - rewrite length_app, length_insert, length_replicate. lia.
Qed.

(** The labels for [B] queries and [B'] documents: query [i] is labelled
    with column [(B' // B) * i]. *)
Lemma in_batch_labels_step (B B' : nat) :
  0 < B → B ≤ B' →
  in_batch_labels B B' = Ok (Tensor [B] ((λ i, (B' `div` B) * i) <$> seq 0 B)).
Proof.
  intros HB HB'. unfold in_batch_labels, floordiv.
  rewrite decide_False by lia. csimpl.
  assert (∀ i, i < B → B' `div` B * i < B') as Hstep.
  { intros i Hi. pose proof (Nat.Div0.mul_div_le B' B).
    assert (0 < B' `div` B) by (apply Nat.div_str_pos; lia). nia. }
  unfold zeros2.
  pose proof (label_loop B B' (B' `div` B) 0 B [] eq_refl eq_refl Hstep) as Hloop.
  cbn [app] in Hloop. rewrite Hloop.
  csimpl. unfold argmax_dim1; simpl. rewrite decide_False by lia.
  do 2 f_equal. rewrite (chunk_concat' B B').
  - rewrite <-list_fmap_compose. apply list_fmap_ext.
    intros ? i ?%lookup_seq; simpl. apply argmax_one_hot, Hstep. lia.
  - by rewrite length_fmap, length_seq.
  - apply Forall_fmap, Forall_forall. intros i _; simpl.
    by rewrite length_insert, length_replicate.
Qed.

(** With one positive and [k] negatives per query the label of query [i]
    is [i * (1 + k)]. *)
Lemma in_batch_labels_pos_neg (B k : nat) :
  0 < B →
  in_batch_labels B (B * (1 + k)) = Ok (Tensor [B] ((λ i, i * (1 + k)) <$> seq 0 B)).
Proof.
  intros HB. rewrite in_batch_labels_step by nia.
  do 2 f_equal. apply list_fmap_ext. intros _ i _.
  rewrite (Nat.mul_comm B), Nat.div_mul by lia. lia.
Qed.

(** ** The score matrix of the in-batch negative loss *)

Lemma fmap_concat {A B} (f : A → B) (ls : list (list A)) :
  f <$> concat ls = concat ((λ l : list A, f <$> l) <$> ls).
Proof. induction ls as [|l ls IH]; csimpl; [done|]. by rewrite fmap_app, IH. Qed.

Lemma concat_replicate_concat {A} k (ls : list (list A)) :
  concat (concat (replicate k ls)) = concat (replicate k (concat ls)).
Proof. induction k as [|k IH]; simpl; [done|]. by rewrite concat_app, IH. Qed.

Lemma length_concat_replicate {A} k (l : list A) :
  length (concat (replicate k l)) = k * length l.
Proof. induction k as [|k IH]; simpl; [done|]. rewrite length_app, IH. lia. Qed.

Lemma chunk_replicate {A} k n sz (l : list A) :
  length l = n * sz →
  chunk (k * n) sz (concat (replicate k l)) = concat (replicate k (chunk n sz l)).
Proof.
  intros Hl. rewrite <-(concat_chunk n sz l Hl) at 1.
  rewrite <-concat_replicate_concat. apply chunk_concat'.
  - by rewrite length_concat_replicate, length_chunk.
  - apply Forall_concat, Forall_replicate. by apply chunk_block_lengths.
Qed.

Lemma chunk_one {A} sz (l : list A) : length l = sz → chunk 1 sz l = [l].
Proof. intros Hl. simpl. rewrite take_ge by lia. done. Qed.

Lemma nested4_unsqueeze0 {A} b c d (l : list A) :
  length l = b * (c * d) → nested4 1 b c d l = [nested3 b c d l].
Proof. intros Hl. unfold nested4. by rewrite chunk_one. Qed.

Lemma nested4_unsqueeze1 {A} a c d (l : list A) :
  length l = a * (c * d) →
  nested4 a 1 c d l = (λ m, [m]) <$> nested3 a c d l.
Proof.
  intros Hl. unfold nested4, nested3. rewrite <-list_fmap_compose.
  rewrite Nat.mul_1_l. apply Forall_fmap_ext_1.
  eapply Forall_impl; [apply (chunk_block_lengths a (c * d)); lia|].
  intros blk Hblk; simpl in *.
  by rewrite take_ge by lia.
Qed.

Lemma broadcast_zip_outer {A B} n (x : A) (ys : list B) :
  length ys = n → broadcast_zip 1 n [x] ys = (λ y, (x, y)) <$> ys.
Proof.
  intros Hn. unfold broadcast_zip. destruct (decide (1 = n)) as [<-|].
  - by destruct ys as [|? [|??]].
  - by rewrite decide_False by lia.
Qed.

Lemma broadcast_zip_inner {A B} n (xs : list A) (y : B) :
  length xs = n → broadcast_zip n 1 xs [y] = (λ x, (x, y)) <$> xs.
Proof.
  intros Hn. unfold broadcast_zip. destruct (decide (n = 1)) as [->|].
  - by destruct xs as [|? [|??]].
  - by rewrite decide_True.
Qed.

Lemma length_concat_uniform3 {A} a b c (ms : list (list (list A))) :
  length ms = a → uniform3 b c ms → length (concat (concat ms)) = a * (b * c).
Proof.
  intros Ha Hu. rewrite (length_concat_uniform c).
  - rewrite (length_concat_uniform b), Ha; [lia|].
    eapply Forall_impl; [exact Hu|]. by intros ? [? _].
  - apply Forall_concat. eapply Forall_impl; [exact Hu|]. by intros ? [_ ?].
Qed.

(** The rank-4 product of [compute_ib_loss_new], query by query and
    document by document. *)
Lemma matmul4_outer (Q D : tensor Z) B B' ql dl d :
  shape Q = [B; ql; d] → wf Q → shape D = [B'; dl; d] → wf D →
  (d4 ← unsqueeze 0 D; qp ← permute021 Q; q4 ← unsqueeze 1 qp;
   prod ← matmul4 d4 q4; flatten01 prod)
  = Ok (Tensor [B * B'; dl; ql]
          (concat (concat (concat
             ((λ Qi, (λ Dj, sim_matrix Dj Qi) <$> rows3 D) <$> rows3 Q))))).
Proof.
  intros HQ HwQ HD HwD. unfold wf in *. rewrite HQ in HwQ. rewrite HD in HwD.
  simpl in HwQ, HwD. rewrite Nat.mul_1_r in HwQ, HwD.
  unfold unsqueeze, dim, permute021, rows3. rewrite HQ, HD; csimpl.
  unfold matmul4; cbn [shape data]. rewrite decide_True by done.
  assert (broadcast_dim 1 B = Ok B) as ->.
  { unfold broadcast_dim. repeat case_decide; (done || by subst). }
  assert (broadcast_dim B' 1 = Ok B') as ->.
  { unfold broadcast_dim. repeat case_decide; (done || by subst). }
  csimpl. unfold flatten01; cbn [shape data]. do 5 f_equal.
  pose proof (nested3_uniform B ql d (data Q) ltac:(lia)) as HuQ.
  pose proof (length_nested3 B ql d (data Q)) as HnQ.
  set (Qs := nested3 B ql d (data Q)) in *.
  set (Ds := nested3 B' dl d (data D)).
  pose proof (transpose_uniform ql d Qs HuQ) as HuT.
  assert (length (transpose d <$> Qs) = B) as HnT by (by rewrite length_fmap).
  rewrite nested4_unsqueeze0 by lia.
  rewrite nested4_unsqueeze1 by (by apply length_concat_uniform3).
  rewrite (nested3_concat B d ql) by done.
  rewrite broadcast_zip_outer by (by rewrite !length_fmap).
  rewrite <-!list_fmap_compose. apply Forall_fmap_ext_1.
  eapply Forall_impl; [exact HuQ|]. intros Qi [HlQ HrQ]; simpl.
  rewrite (broadcast_zip_inner B') by apply length_nested3.
  rewrite <-list_fmap_compose. apply list_fmap_ext. intros _ Dj _; simpl.
  by apply matmul2_transpose.
Qed.

Lemma zip_with_replicate_rows {A B C} (f : A → B → C) n (xs : list A) (yss : list (list B)) :
  length yss = n → Forall (λ ys, length ys = length xs) yss →
  zip_with f (concat (replicate n xs)) (concat yss)
  = concat ((λ ys, zip_with f xs ys) <$> yss).
Proof.
  intros Hn Hl. rewrite zip_with_concat.
  - by rewrite zip_with_replicate_l by lia.
  - subst n. induction Hl as [|ys yss Hys _ IH]; simpl; constructor; done.
Qed.

Lemma maxsim_reduce_row (fill : Z) (Qi : list (list Z)) dl d (Ds : list (list (list Z)))
    (Ms : list (list bool)) :
  0 < dl → uniform3 dl d Ds → Forall (λ Mj, length Mj = dl) Ms →
  (λ m, Zsum (col_max m))
    <$> zip_with (mask_rows fill) Ms ((λ Dj, sim_matrix Dj Qi) <$> Ds)
  = zip_with (λ Dj Mj, maxsim fill Qi Dj Mj) Ds Ms.
Proof.
  intros Hdl HuD HMs. revert Ms HMs.
  induction HuD as [|Dj Ds [HlD _] _ IH]; intros [|Mj Ms] HMs; csimpl; try done.
  inversion HMs; subst. f_equal; [|by apply IH].
  apply maxsim_reduce; lia.
Qed.

(** The score matrix of [compute_ib_loss_new]: row [i] holds the MaxSim of
    query [i] against every document of the batch. *)
Lemma in_batch_scores_maxsim (Q D : tensor Z) (M : tensor bool) B B' ql dl d
    (h : gmap nat (tensor Z)) :
  0 < B →
  shape Q = [B; ql; d] → wf Q →
  shape D = [B'; dl; d] → wf D →
  shape M = [B'; dl] ∨ shape M = [B'; dl; 1] → wf M →
  0 < dl →
  (in_batch_scores Q D M h).2
  = Ok (Tensor [B; B']
          (concat ((λ Qi, zip_with (λ Dj Mj, maxsim (-9999) Qi Dj Mj) (rows3 D)
                            (chunk B' dl (data M)))
                     <$> rows3 Q))).
Proof.
  intros HB HQ HwQ HD HwD HM HwM Hdl.
  pose proof (matmul4_outer Q D B B' ql dl d HQ HwQ HD HwD) as Hmm.
  assert (uniform3 dl d (rows3 D) ∧ length (rows3 D) = B') as [HuD HnD].
  { unfold rows3. rewrite HD. split; [|apply length_nested3].
    apply nested3_uniform. unfold wf in HwD. rewrite HD in HwD. simpl in HwD. lia. }
  assert (uniform3 ql d (rows3 Q) ∧ length (rows3 Q) = B) as [HuQ HnQ].
  { unfold rows3. rewrite HQ. split; [|apply length_nested3].
    apply nested3_uniform. unfold wf in HwQ. rewrite HQ in HwQ. simpl in HwQ. lia. }
  assert (length (data M) = B' * dl) as HlM.
  { unfold wf in HwM. destruct HM as [HM|HM]; rewrite HM in HwM; simpl in HwM; lia. }
  set (Ms := chunk B' dl (data M)).
  set (matss := (λ Qi, (λ Dj, sim_matrix Dj Qi) <$> rows3 D) <$> rows3 Q) in *.
  assert (Forall (λ ms, length ms = B' ∧ uniform3 dl ql ms) matss) as Hmatss.
  { apply Forall_fmap. eapply Forall_impl; [exact HuQ|]. intros Qi [HlQ _]; simpl.
    split; [by rewrite length_fmap|]. apply Forall_fmap.
    eapply Forall_impl; [exact HuD|]. intros Dj [HlD _]; simpl. unfold sim_matrix.
    split; [by rewrite length_fmap|]. apply Forall_fmap, Forall_forall.
    intros r _; simpl. by rewrite length_fmap. }
  assert (length (concat matss) = B * B') as Hnm.
  { rewrite (length_concat_uniform B').
    - unfold matss. by rewrite length_fmap, HnQ.
    - eapply Forall_impl; [exact Hmatss|]. by intros ? [? _]. }
  assert (uniform3 dl ql (concat matss)) as Hum.
  { apply Forall_concat. eapply Forall_impl; [exact Hmatss|]. by intros ? [_ ?]. }
  assert (∃ rep, repeat_n11 B M = Ok rep ∧ data rep = concat (replicate B (data M))
                 ∧ numel (shape rep) = B * B' * dl) as (rep & Hrep & Hdrep & Hnrep).
  { unfold repeat_n11. destruct HM as [-> | ->]; eexists; (split; [done|]);
      split; try done; simpl; lia. }
  unfold in_batch_scores, mbind at 1, St_bind at 1, lift at 1. rewrite Hmm.
  unfold alloc, mbind, St_bind, lift, size. rewrite HQ; simpl. rewrite Hrep.
  rewrite (colbert_score_reduce_nested float32 _ _ (B * B') dl ql (concat matss) rep);
    [|apply lookup_insert_eq|done|done|done| |done].
  change (sentinel float32) with (-9999)%Z.
  2:{ unfold wf. rewrite Hdrep, length_concat_replicate, HlM, Hnrep. lia. }
  unfold reshape_rows; simpl. rewrite decide_False by lia.
  rewrite Nat.mul_1_r, Nat.mul_comm, Nat.Div0.mod_mul, Nat.div_mul by lia.
  rewrite decide_True by done. do 2 f_equal.
  rewrite Hdrep, (Nat.mul_comm B' B), chunk_replicate by done. fold Ms.
  rewrite (zip_with_replicate_rows _ B).
  - unfold matss. rewrite fmap_concat, <-!list_fmap_compose. f_equal.
    apply list_fmap_ext. intros _ Qi _; simpl.
    apply (maxsim_reduce_row (-9999) Qi dl d); [done..|].
    by apply chunk_block_lengths.
  - unfold matss. by rewrite length_fmap.
  - eapply Forall_impl; [exact Hmatss|]. intros ms [Hms _]; simpl.
    unfold Ms. by rewrite length_chunk.
Qed.

(** C3 (amended).  For [B ≥ 1] queries and [B * (1 + k)] documents laid out
    as [positive, negative_1 .. negative_k] per query,
    [compute_ib_loss_new] hands to the cross-entropy loss a score matrix of
    shape (B, B * (1 + k)), whose entry (i, j) is the MaxSim of query [i]
    against document [j], together with the label vector whose entry [i] is
    [i * (1 + k)]. *)
Theorem compute_ib_loss_new_labels (torch : Torch) (Q D : tensor Z) (M : tensor bool)
    (B k ql dl d : nat) (h : gmap nat (tensor Z)) :
  0 < B →
  shape Q = [B; ql; d] → wf Q →
  shape D = [B * (1 + k); dl; d] → wf D →
  shape M = [B * (1 + k); dl] ∨ shape M = [B * (1 + k); dl; 1] → wf M →
  0 < dl →
  ∃ scores : list Z,
    (compute_ib_loss_new torch Q D M h).2
    = CrossEntropyLoss torch (Tensor [B; B * (1 + k)] scores)
        (Tensor [B] ((λ i, i * (1 + k)) <$> seq 0 B)) ∧
    length scores = B * (B * (1 + k)) ∧
    (∀ i j, i < B → j < B * (1 + k) →
       scores !! (i * (B * (1 + k)) + j)
       = Some (maxsim (-9999) (nth i (rows3 Q) []) (nth j (rows3 D) [])
                 (nth j (chunk (B * (1 + k)) dl (data M)) []))).
Proof.
  intros HB HQ HwQ HD HwD HM HwM Hdl.
  set (B' := B * (1 + k)) in *.
  pose proof (in_batch_scores_maxsim Q D M B B' ql dl d h HB HQ HwQ HD HwD HM HwM Hdl) as Hsc.
  assert (uniform3 dl d (rows3 D) ∧ length (rows3 D) = B') as [HuD HnD].
  { unfold rows3. rewrite HD. split; [|apply length_nested3].
    apply nested3_uniform. unfold wf in HwD. rewrite HD in HwD. simpl in HwD. lia. }
  assert (length (rows3 Q) = B) as HnQ.
  { unfold rows3. rewrite HQ. apply length_nested3. }
  set (Ms := chunk B' dl (data M)) in *.
  assert (length Ms = B') as HnM by apply length_chunk.
  set (rows := (λ Qi, zip_with (λ Dj Mj, maxsim (-9999) Qi Dj Mj) (rows3 D) Ms)
                 <$> rows3 Q) in *.
  assert (Forall (λ r, length r = B') rows) as Hrows.
  { apply Forall_fmap, Forall_forall. intros Qi _; simpl.
    rewrite length_zip_with. lia. }
  exists (concat rows). split; [|split].
  - unfold compute_ib_loss_new, mbind, St_bind.
    destruct (in_batch_scores Q D M h) as [h' r]. simpl in Hsc. subst r.
    unfold lift, size. rewrite HQ, HD; simpl.
    unfold B'. by rewrite in_batch_labels_pos_neg.
  - rewrite (length_concat_uniform B') by done. unfold rows.
    by rewrite length_fmap, HnQ.
  - intros i j Hi Hj. rewrite (lookup_concat_uniform B') by done.
    unfold rows. rewrite list_lookup_fmap.
    destruct (nth_lookup_or_length (rows3 Q) i []) as [->|]; [|lia]. simpl.
    rewrite lookup_zip_with.
    destruct (nth_lookup_or_length (rows3 D) j []) as [->|]; [|lia]. simpl.
    destruct (nth_lookup_or_length Ms j []) as [->|]; [|lia]. done.
Qed.

Lemma compute_ib_loss_new_labels_witness :
  ∃ scores : list Z,
    (compute_ib_loss_new
       {| normalize_vec := id; half := id;
          CrossEntropyLoss := λ s l, Ok (Tensor (shape l) (Z.of_nat <$> data l)) |}
       (Tensor [2; 1; 1] [1; 2]%Z) (Tensor [2 * (1 + 1); 1; 1] [1; 2; 3; 4]%Z)
       (Tensor [2 * (1 + 1); 1] [true; true; true; true]) ∅).2
    = Ok (Tensor [2] (Z.of_nat <$> ((λ i, i * (1 + 1)) <$> seq 0 2))) ∧
    length scores = 2 * (2 * (1 + 1)) ∧
    (∀ i j, i < 2 → j < 2 * (1 + 1) →
       scores !! (i * (2 * (1 + 1)) + j)
       = Some (maxsim (-9999) (nth i (rows3 (Tensor [2; 1; 1] [1; 2]%Z)) [])
                 (nth j (rows3 (Tensor [2 * (1 + 1); 1; 1] [1; 2; 3; 4]%Z)) [])
                 (nth j (chunk (2 * (1 + 1)) 1 [true; true; true; true]) []))).
Proof.
  apply (compute_ib_loss_new_labels
           {| normalize_vec := id; half := id;
              CrossEntropyLoss := λ s l, Ok (Tensor (shape l) (Z.of_nat <$> data l)) |}
           (Tensor [2; 1; 1] [1; 2]%Z) (Tensor [2 * (1 + 1); 1; 1] [1; 2; 3; 4]%Z)
           (Tensor [2 * (1 + 1); 1] [true; true; true; true]) 2 1 1 1 1 ∅);
    [lia|reflexivity|reflexivity|reflexivity|reflexivity|left; reflexivity|reflexivity|lia].
Defined.

(** For two queries with one negative each (four documents) the labels are
    [0, 2], not [0, 3]. *)
Lemma in_batch_labels_two_queries_one_negative :
  in_batch_labels 2 (2 * (1 + 1)) = Ok (Tensor [2] [0; 2]) ∧
  in_batch_labels 2 (2 * (1 + 1)) ≠ Ok (Tensor [2] [0; 3]).
Proof. split; [vm_compute; reflexivity|vm_compute; discriminate]. Qed.

(** The labels [0, 3] belong to two negatives per query (six documents). *)
Example in_batch_labels_two_queries_two_negatives :
  in_batch_labels 2 (2 * (1 + 2)) = Ok (Tensor [2] [0; 3]).
Proof. vm_compute. reflexivity. Qed.

(** The labels seen by the loss, through a loss that returns its labels. *)
Example compute_ib_loss_new_observed_labels :
  (compute_ib_loss_new
     {| normalize_vec := id; half := id;
        CrossEntropyLoss := λ s l, Ok (Tensor (shape l) (Z.of_nat <$> data l)) |}
     (Tensor [2; 1; 1] [1; 2]%Z) (Tensor [4; 1; 1] [1; 2; 3; 4]%Z)
     (Tensor [4; 1; 1] [true; true; true; true]) ∅).2
  = Ok (Tensor [2] [0; 2]%Z).
Proof. vm_compute. reflexivity. Qed.

(** ** The packed scoring path *)

(** Whenever [colbert_score_packed] takes the padded branch (a visible GPU,
    or the "flipr" interaction) it raises: the call of
    [colbert_score_reduce] passes three positional arguments. *)
Lemma colbert_score_packed_padded_branch_raises (colbert : ColBERT)
    (segmented_maxsim : option segmented_maxsim_t) (dt : dtype) (Q D_packed : tensor Z)
    (D_lengths : tensor nat) (config : ColBERTConfig) (h : gmap nat (tensor Z)) :
  0 < total_visible_gpus config ∨ interaction config = "flipr" →
  is_raise (colbert_score_packed colbert segmented_maxsim dt Q D_packed D_lengths config h).2.
Proof.
  intros Hbranch.
  assert (bool_decide (0 < total_visible_gpus config)
          || bool_decide (interaction config = "flipr") = true) as Hb.
  { destruct Hbranch as [?| ->].
    - by rewrite bool_decide_true.
    - rewrite (bool_decide_true ("flipr" = "flipr")) by done. apply orb_true_r. }
  unfold colbert_score_packed. rewrite Hb.
  unfold mbind, St_bind, lift, alloc, call_colbert_score_reduce.
  destruct (py_assert _); [|done].
  destruct (py_assert _); [|done].
  destruct (result_bind _ _ _ _) as [scores|]; [|done].
  by destruct (as_padded_tensor _ _ _ _).
Qed.

(** When every step before the reduction succeeds, the exception of the
    padded branch is the TypeError of the three-argument call. *)
Lemma colbert_score_packed_type_error (colbert : ColBERT)
    (segmented_maxsim : option segmented_maxsim_t) (dt : dtype) (Q D_packed : tensor Z)
    (D_lengths : tensor nat) (config : ColBERTConfig) (h : gmap nat (tensor Z))
    (n T d : nat) (padded : tensor Z * tensor bool) :
  0 < total_visible_gpus config ∨ interaction config = "flipr" →
  shape Q = [1; n; d] → shape D_packed = [T; d] →
  (∀ scores b, as_padded_tensor colbert scores D_lengths b = Ok padded) →
  (colbert_score_packed colbert segmented_maxsim dt Q D_packed D_lengths config h).2
  = Raise TypeError.
Proof.
  intros Hbranch HQ HD Hpad.
  assert (bool_decide (0 < total_visible_gpus config)
          || bool_decide (interaction config = "flipr") = true) as Hb.
  { destruct Hbranch as [?| ->].
    - by rewrite bool_decide_true.
    - rewrite (bool_decide_true ("flipr" = "flipr")) by done. apply orb_true_r. }
  unfold colbert_score_packed. rewrite Hb.
  unfold mbind, St_bind, lift, alloc, call_colbert_score_reduce, squeeze0, dim.
  rewrite HQ, HD; simpl.
  unfold matmul2d. rewrite HD; simpl. rewrite decide_True by done.
  by rewrite Hpad.
Qed.

(** Without the compiled extension the other branch has no
    [segmented_maxsim] to call; [__init__] never loads it. *)
Lemma colbert_score_packed_no_extension (colbert : ColBERT) (dt : dtype)
    (Q D_packed : tensor Z) (D_lengths : tensor nat) (config : ColBERTConfig)
    (h : gmap nat (tensor Z)) (load : result segmented_maxsim_t) :
  total_visible_gpus config = 0 → interaction config ≠ "flipr" →
  try_load_torch_extensions None true load = Ok None ∧
  is_raise (colbert_score_packed colbert None dt Q D_packed D_lengths config h).2.
Proof.
  intros Hg Hi. split; [done|]. unfold colbert_score_packed; simpl.
  rewrite Hg, bool_decide_false by lia. rewrite bool_decide_false by done. simpl.
  unfold mbind, St_bind, lift.
  destruct (py_assert _); [|done].
  destruct (py_assert _); [|done].
  by destruct (result_bind _ _ _ _).
Qed.

(** C4.  A single query of one token against two one-token documents, with
    one visible GPU: the padded-mask path [colbert_score] returns the scores
    [1, 2] while the packed path [colbert_score_packed] raises TypeError and
    returns no scores. *)
Example colbert_score_packed_disagrees :
  (colbert_score float32 (Tensor [1; 1; 1] [1%Z]) (Tensor [2; 1; 1] [1; 2]%Z)
     (Tensor [2; 1] [true; true]) true ∅).2
  = Ok (Tensor [2] [1; 2]%Z) ∧
  (colbert_score_packed {| as_padded_tensor := pad_packed |} None float32
     (Tensor [1; 1; 1] [1%Z]) (Tensor [2; 1] [1; 2]%Z) (Tensor [2] [1; 1])
     {| total_visible_gpus := 1; interaction := "colbert" |} ∅).2
  = Raise TypeError.
Proof. split; vm_compute; reflexivity. Qed.

(** ** Input contract of [query] and [doc] *)

(** One step of a computation in the error monad: either it raised, or the
    proof goes on with its value. *)
Ltac raise_step :=
  match goal with
  | |- is_raise (match ?m with Ok _ => _ | Raise _ => _ end) =>
      destruct m; cbn beta iota zeta; [|exact I]
  end.

Lemma image_asserts_both {A} (pixel_values image_features : option A) :
  is_Some pixel_values → is_Some image_features →
  image_asserts pixel_values image_features = Raise AssertionError.
Proof. by intros [p ->] [f ->]. Qed.

Lemma query_both_image_inputs (torch : Torch) (self : FLMRModelForRetrieval)
    (input_ids attention_mask pixel_values image_features : option (tensor Z))
    (cv ct : option bool) :
  is_Some pixel_values → is_Some image_features →
  query torch self input_ids attention_mask pixel_values image_features cv ct
  = Raise AssertionError.
Proof. intros Hp Hf. unfold query. by rewrite image_asserts_both. Qed.

Lemma doc_both_image_inputs (torch : Torch) (self : FLMRModelForRetrieval)
    (input_ids attention_mask pixel_values image_features : option (tensor Z))
    (cv ct : option bool) (keep_dims : keep_dims_t) (return_mask : bool) :
  is_Some pixel_values → is_Some image_features →
  doc torch self input_ids attention_mask pixel_values image_features cv ct
    keep_dims return_mask
  = Raise AssertionError.
Proof.
  intros Hp Hf. unfold doc. destruct (py_assert _) as [[]|e] eqn:E.
  - csimpl. by rewrite image_asserts_both.
  - unfold py_assert in E. by destruct (bool_decide _); simplify_eq.
Qed.

Lemma text_block_absent enc lin skip (input_ids attention_mask : option (tensor Z)) :
  ¬ (is_Some input_ids ∧ is_Some attention_mask) →
  text_block enc lin skip input_ids attention_mask = Ok (None, None).
Proof.
  intros Hno. destruct input_ids, attention_mask; try done.
  destruct Hno. split; by eexists.
Qed.

Lemma query_no_inputs (torch : Torch) (self : FLMRModelForRetrieval)
    (input_ids attention_mask : option (tensor Z)) (cv ct : option bool) :
  ¬ (is_Some input_ids ∧ is_Some attention_mask) →
  query torch self input_ids attention_mask None None cv ct = Raise UnboundLocalError.
Proof.
  intros Hno. unfold query. rewrite text_block_absent by done. csimpl.
  by repeat case_match.
Qed.

Lemma doc_no_inputs (torch : Torch) (self : FLMRModelForRetrieval)
    (input_ids attention_mask : option (tensor Z)) (cv ct : option bool)
    (keep_dims : keep_dims_t) (return_mask : bool) :
  ¬ (is_Some input_ids ∧ is_Some attention_mask) →
  doc torch self input_ids attention_mask None None cv ct keep_dims return_mask
  = (if bool_decide (keep_dims ∈ [KeepTrue; KeepFalse; KeepStr "return_mask"])
     then Raise UnboundLocalError else Raise AssertionError).
Proof.
  intros Hno. unfold doc, py_assert. case_bool_decide; [|done]. csimpl.
  rewrite text_block_absent by done. csimpl.
  by repeat case_match.
Qed.

(** C9.  [query] and [doc] raise, and so return nothing, when a pixel
    tensor and a precomputed image feature tensor are both supplied, and
    when neither text inputs (token ids together with their attention mask)
    nor image inputs are supplied. *)
Theorem query_doc_reject_bad_inputs (torch : Torch) (self : FLMRModelForRetrieval)
    (input_ids attention_mask pixel_values image_features : option (tensor Z))
    (cv ct : option bool) (keep_dims : keep_dims_t) (return_mask : bool) :
  (is_Some pixel_values ∧ is_Some image_features) ∨
  (¬ (is_Some input_ids ∧ is_Some attention_mask) ∧
   pixel_values = None ∧ image_features = None) →
  is_raise (query torch self input_ids attention_mask pixel_values image_features cv ct) ∧
  is_raise (doc torch self input_ids attention_mask pixel_values image_features cv ct
              keep_dims return_mask).
Proof.
  intros [[Hp Hf]|(Hno & -> & ->)].
  - by rewrite query_both_image_inputs, doc_both_image_inputs.
  - rewrite query_no_inputs, doc_no_inputs by done. by case_bool_decide.
Qed.

Lemma query_doc_reject_bad_inputs_witness :
  is_raise (query toy_torch toy_model (Some (Tensor [1; 2] [5; 0]%Z))
              (Some (Tensor [1; 2] [1; 0]%Z)) (Some (Tensor [1; 1; 1] [7%Z]))
              (Some (Tensor [1; 1] [7%Z])) None None) ∧
  is_raise (doc toy_torch toy_model (Some (Tensor [1; 2] [5; 0]%Z))
              (Some (Tensor [1; 2] [1; 0]%Z)) (Some (Tensor [1; 1; 1] [7%Z]))
              (Some (Tensor [1; 1] [7%Z])) None None KeepTrue true).
Proof.
  apply (query_doc_reject_bad_inputs toy_torch toy_model).
  left. split; eexists; reflexivity.
Defined.

(** The two failures on the concrete instance. *)
Example doc_rejects_pixels_and_features :
  doc toy_torch toy_model (Some (Tensor [1; 2] [5; 0]%Z)) (Some (Tensor [1; 2] [1; 0]%Z))
    (Some (Tensor [1; 1; 1] [7%Z])) (Some (Tensor [1; 1] [7%Z])) None None KeepTrue true
  = Raise AssertionError.
Proof. vm_compute. reflexivity. Qed.

Example query_rejects_no_inputs :
  query toy_torch toy_model None None None None None None = Raise UnboundLocalError.
Proof. vm_compute. reflexivity. Qed.

(** ** The ragged output mode of [doc] *)

(** With [keep_dims] False, [doc] raises on every input: when everything
    before succeeds, [D] is a Python list by the time [D[:, 0, :]] is
    evaluated for the pooler output. *)
Lemma doc_keep_dims_false_raises (torch : Torch) (self : FLMRModelForRetrieval)
    (input_ids attention_mask pixel_values image_features : option (tensor Z))
    (cv ct : option bool) (return_mask : bool) :
  is_raise (doc torch self input_ids attention_mask pixel_values image_features cv ct
              KeepFalse return_mask).
Proof.
  unfold doc, mbind, result_bind.
  do 8 raise_step.
  destruct (read_local _); [|done].
  by destruct (ragged _ _).
Qed.

(** C7.  A text-only document with one valid and one padding token,
    encoded with [keep_dims] False: the list comprehension selects the one
    mask-true row, but [doc] then raises TypeError instead of returning the
    list; with [keep_dims] True the same document is encoded. *)
Example doc_ragged_mode_raises :
  ragged (Tensor [1; 2; 2] [5; 5; 0; 0]%Z) (Tensor [1; 2] [true; false])
  = Ok [Tensor [1; 2] [5; 5]%Z] ∧
  doc toy_torch toy_model (Some (Tensor [1; 2] [5; 0]%Z)) (Some (Tensor [1; 2] [1; 0]%Z))
    None None None None KeepFalse true
  = Raise TypeError ∧
  doc toy_torch toy_model (Some (Tensor [1; 2] [5; 0]%Z)) (Some (Tensor [1; 2] [1; 0]%Z))
    None None None None KeepTrue true
  = Ok {| FLMRContextEncoderOutput.pooler_output := Tensor [1; 2] [5; 5]%Z;
          FLMRContextEncoderOutput.late_interaction_output :=
            DTensor (Tensor [1; 2; 2] [5; 5; 0; 0]%Z);
          FLMRContextEncoderOutput.context_mask := Some (Tensor [1; 2; 1] [true; false]) |}.
Proof. repeat split; vm_compute; reflexivity. Qed.

(** ** Order of the modalities in [doc] *)

(** C2.  One document with the token ids [5, 0] (the second is padding) and
    an image feature, both modalities concatenated, two vision
    pseudo-tokens.  The combined embeddings start with the two vision rows
    (7, 7), but the combined mask starts with the text mask [true, false]
    and ends with the vision mask [true, true]: the second vision position
    is masked out and the padding token is marked valid. *)
Example doc_mask_order_differs :
  doc toy_torch toy_model (Some (Tensor [1; 2] [5; 0]%Z)) (Some (Tensor [1; 2] [1; 0]%Z))
    None (Some (Tensor [1; 1] [7%Z])) (Some true) (Some true) (KeepStr "return_mask") true
  = Ok {| FLMRContextEncoderOutput.pooler_output := Tensor [1; 2] [7; 7]%Z;
          FLMRContextEncoderOutput.late_interaction_output :=
            DTensor (Tensor [1; 4; 2] [7; 7; 7; 7; 5; 5; 0; 0]%Z);
          FLMRContextEncoderOutput.context_mask :=
            Some (Tensor [1; 4; 1] [true; false; true; true]) |}.
Proof. vm_compute. reflexivity. Qed.

(** ** The dense output mode of [docFromText] *)

(** [_stack_3D_tensors] applied to the batches themselves, which are
    tuples of inputs, raises. *)
Lemma stack_of_batches_raises (batches : list batch_t) :
  is_raise (_stack_3D_tensors (pyobj_of_batch <$> batches)).
Proof. by destruct batches. Qed.

(** With a batch size and [keep_dims] True, [docFromText] raises on every
    input: the tensors it pads and stacks are [batches], not
    [encoded_batches]. *)
Lemma docFromText_dense_raises (torch : Torch) (utils : TokenizationUtils)
    (self : FLMRModelForIndexing) (docs : docs_t) (b : nat)
    (to_cpu showprogress return_tokens : bool) :
  is_raise (docFromText torch utils self docs (Some (S b)) KeepTrue
              to_cpu showprogress return_tokens).
Proof.
  unfold docFromText, mbind, result_bind.
  do 7 raise_step.
  match goal with
  | |- context [_stack_3D_tensors (pyobj_of_batch <$> ?bs)] =>
      pose proof (stack_of_batches_raises bs) as Hs
  end.
  by destruct (_stack_3D_tensors _).
Qed.

(** C6.  Three text documents encoded in dense mode with batch size 2:
    [docFromText] raises AttributeError and returns no tensor.  Applied to
    two encoded chunks instead, [_stack_3D_tensors] pads the shorter chunk
    with a zero row and stacks them. *)
Example docFromText_dense_mode_raises :
  docFromText toy_torch ref_utils toy_indexer (TextDocs ["abc"; "a."; "b"]) (Some 2)
    KeepTrue false false false
  = Raise AttributeError ∧
  _stack_3D_tensors [PyTensor (Tensor [2; 1; 2] [1; 2; 3; 4]%Z);
                     PyTensor (Tensor [1; 2; 2] [5; 6; 7; 8]%Z)]
  = Ok (Tensor [3; 2; 2] [1; 2; 0; 0; 3; 4; 0; 0; 5; 6; 7; 8]%Z).
Proof. split; vm_compute; reflexivity. Qed.

(** ** The flattened output mode of [docFromText] *)

(** One step of a computation that is known to have returned. *)
Ltac ok_step H :=
  match type of H with
  | match ?m with Ok _ => _ | Raise _ => _ end = Ok _ =>
      let E := fresh "E" in
      destruct m eqn:E; cbn beta iota zeta in H; [|discriminate H]
  end.

Tactic Notation "ok_bind" hyp(H) "as" ident(x) ident(E) :=
  match type of H with
  | match ?m with Ok _ => _ | Raise _ => _ end = Ok _ =>
      destruct m as [x|] eqn:E; cbn beta iota zeta in H; [|discriminate H]
  end.






Lemma to_bool_b2z (l : list bool) :
  (λ x, bool_decide (x ≠ 0%Z)) <$> (Z.b2z <$> l) = l.
Proof.
  rewrite <-list_fmap_compose. rewrite <-(list_fmap_id l) at 2.
  apply list_fmap_ext. by intros _ [] _.
Qed.

Lemma mask_rows_lengths (ids : tensor Z) n L (skip : gset Z) :
  shape ids = [n; L] → wf ids →
  length (mask (nested2 n L (data ids)) skip) = n ∧
  Forall (λ r, length r = L) (mask (nested2 n L (data ids)) skip).
Proof.
  intros Hs Hw. unfold wf in Hw. rewrite Hs in Hw. simpl in Hw. rewrite Nat.mul_1_r in Hw.
  unfold mask, nested2. split; [by rewrite length_fmap, length_chunk|].
  apply Forall_fmap. eapply Forall_impl; [by apply chunk_block_lengths|].
  intros r Hr; simpl. by rewrite length_fmap.
Qed.





Lemma mask_text_mask_row (rows : list (list Z)) (skip : gset Z) :
  mask rows skip = text_mask_row skip <$> rows.
Proof. done. Qed.





Lemma mapR_Ok_inv {A B} (f : A → result B) (l : list A) (ys : list B) :
  mapR f l = Ok ys → Forall2 (λ x y, f x = Ok y) l ys.
Proof.
  revert ys. induction l as [|x l IH]; intros ys H; simpl in H.
  - injection H as <-. constructor.
  - unfold mbind, result_bind in H. do 2 ok_step H. injection H as <-.
    constructor; [done|]. by apply IH.
Qed.


(** The rows of a concatenation of well-formed matrices. *)
Lemma cat0_rows (ts : list (tensor Z)) (t : tensor Z) T L :
  cat0 ts = Ok t → shape t = [T; L] → Forall wf ts →
  Forall (λ t', ∃ n, shape t' = [n; L]) ts ∧
  rows2 t = concat (rows2 <$> ts).
Proof.
  intros Hc Hs Hw. unfold cat0 in Hc.
  destruct ts as [|t0 ts0] eqn:Ets; [done|]. rewrite <-Ets in *.
  destruct (shape t0) as [|n0 rest]; [done|].
  case_bool_decide as Hall; [|done]. injection Hc as <-. simpl in Hs.
  injection Hs as HT ->.
  assert (Forall (λ t', ∃ n, shape t' = [n; L]) ts) as Hsh.
  { eapply Forall_impl; [exact Hall|]. intros t' [Ht Hne]; simpl in *.
    destruct (shape t') as [|n' r']; [done|]. simpl in Ht. subst r'. by eexists. }
  split; [done|]. unfold rows2 at 1; simpl. unfold nested2. subst T.
  clear Ets Hall. induction ts as [|t' ts' IH]; [done|].
  inversion Hw as [|?? Hw1 Hw2]; subst. inversion Hsh as [|?? [n' Hn'] Hsh2]; subst.
  csimpl. rewrite Hn'; simpl. unfold wf in Hw1. rewrite Hn' in Hw1. simpl in Hw1.
  rewrite Nat.mul_1_r in Hw1. unfold rows2 at 1. rewrite Hn'. unfold nested2.
  rewrite <-(IH Hw2 Hsh2).
  generalize (concat (data <$> ts')) (sum_list ((λ t'0 : tensor Z, hd 0 (shape t'0)) <$> ts')).
  intros rest m. clear -Hw1. revert Hw1. generalize (data t'). clear.
  induction n' as [|n' IH]; intros d Hd; simpl.
  - by destruct d.
  - rewrite take_app_le, drop_app_le by lia. f_equal. apply IH.
    rewrite length_drop. lia.
Qed.

(** Indexing along axis 0 picks rows. *)
Lemma index_select0_rows {A} (rows : list (list A)) (rest : list nat)
    (idx : tensor nat) n (t' : tensor A) :
  Forall (λ r, length r = numel rest) rows → shape idx = [n] →
  index_select0 (Tensor (length rows :: rest) (concat rows)) idx = Ok t' →
  ∃ sel, t' = Tensor (n :: rest) (concat sel) ∧
         Forall2 (λ i r, rows !! i = Some r) (data idx) sel.
Proof.
  intros Hu Hi H. unfold index_select0, mbind, result_bind in H.
  cbn [shape data] in H. rewrite Hi in H.
  rewrite chunk_concat in H by done. ok_step H. injection H as <-.
  exists a. split; [done|]. apply mapR_Ok_inv in E.
  eapply Forall2_impl; [exact E|]. intros i r Hr; simpl in Hr.
  by destruct (rows !! i); simplify_eq.
Qed.

Lemma restores_rows (ids ids' : tensor Z) (rev : tensor nat) N L :
  restores ids ids' rev → shape ids = [N; L] → shape rev = [N] →
  (∃ T, shape ids' = [T; L]) ∧
  Forall2 (λ r row, rows2 ids' !! r = Some row) (data rev) (rows2 ids).
Proof.
  intros (Hw' & Hwr & Hsel) Hs Hr.
  assert (∃ T, shape ids' = [T; L]) as [T HT].
  { unfold index_select0, mbind, result_bind in Hsel. rewrite Hr in Hsel.
    destruct (shape ids') as [|a rest]; [done|]. ok_step Hsel.
    injection Hsel as <-. simpl in Hs. injection Hs as ->. by eexists. }
  split; [by eexists|].
  unfold wf in Hw', Hwr. rewrite HT in Hw'. rewrite Hr in Hwr. simpl in Hw', Hwr.
  rewrite Nat.mul_1_r in Hw', Hwr.
  assert (ids' = Tensor (length (rows2 ids') :: [L]) (concat (rows2 ids'))) as Hids'.
  { unfold rows2, nested2. rewrite HT, length_chunk, concat_chunk by done.
    destruct ids'; simpl in *. by subst. }
  assert (Forall (λ r, length r = L) (rows2 ids')) as Hrows'.
  { unfold rows2, nested2. rewrite HT. by apply chunk_block_lengths. }
  rewrite Hids' in Hsel.
  apply (index_select0_rows _ _ _ N) in Hsel as (sel & -> & Hsel); [|simpl|done].
  2:{ eapply Forall_impl; [exact Hrows'|]. intros r Hlr; simpl in *. lia. }
  assert (rows2 (Tensor [N; L] (concat sel)) = sel) as ->; [|done].
  unfold rows2, nested2; simpl. apply chunk_concat'.
  - apply Forall2_length in Hsel. lia.
  - clear -Hsel Hrows'. induction Hsel as [|i r ?? Hi _ IH]; constructor; [|done].
    by eapply (Forall_lookup_1 _ _ _ _ Hrows') in Hi.
Qed.






Lemma cat0_cons {A} (t : tensor A) (ts : list (tensor A)) n rest :
  shape t = n :: rest →
  cat0 (t :: ts)
  = if bool_decide (Forall (λ t', tail (shape t') = rest ∧ shape t' ≠ []) (t :: ts))
    then Ok (Tensor (sum_list ((λ t', hd 0 (shape t')) <$> (t :: ts)) :: rest)
               (concat (data <$> (t :: ts))))
    else Raise RuntimeError.
Proof. intros Hs. unfold cat0. by rewrite Hs. Qed.




(** The flattened encoding of three documents in batches of two: document
    lengths in the original order and the five kept rows. *)
Example docFromText_flatten_example :
  docFromText toy_torch ref_utils toy_indexer (TextDocs ["abc"; "a."; "b"]) (Some 2)
    (KeepStr "flatten") false false false
  = Ok (RetFlat (Tensor [5; 2] [97; 97; 98; 98; 99; 99; 97; 97; 98; 98]%Z)
          (Tensor [3] [3; 1; 1]) []).
Proof. vm_compute. reflexivity. Qed.

(** Flattened mode exists only with a batch size: without one the call
    reaches [doc], which refuses the value 'flatten'. *)
Example docFromText_flatten_needs_bsize :
  docFromText toy_torch ref_utils toy_indexer (TextDocs ["abc"; "a."; "b"]) None
    (KeepStr "flatten") false false false
  = Raise AssertionError.
Proof. vm_compute. reflexivity. Qed.

(** * Further properties of the code *)

(** ** Preconditions of the scorers *)

Lemma colbert_score_reduce_frame (dt : dtype) (h : gmap nat (tensor Z)) r
    (M : tensor bool) r' :
  r' ≠ r → (colbert_score_reduce dt r M h).1 !! r' = h !! r'.
Proof.
  intros Hne. unfold colbert_score_reduce, mbind, St_bind, load, lift, store_at.
  destruct (h !! r) as [s|] eqn:Hr; [|done]. 
  destruct (size s 0); [|done]. destruct (size s 1); [|done].
  destruct (view M _); [|done]. destruct (index_put _ _ _); [|done].
  rewrite lookup_insert_eq.
  repeat match goal with
         | |- context [match ?m with Ok _ => _ | Raise _ => _ end] => destruct m
         end; simpl; by rewrite lookup_insert_ne.
Qed.

(** [colbert_score] raises AssertionError, and leaves the store as it was,
    when the query tensor or the document tensor is not of rank 3, and when
    the first size of the query tensor is neither 1 nor the first size of
    the document tensor. *)
Theorem colbert_score_assertions (dt : dtype) (Q D : tensor Z) (M : tensor bool)
    (use_gpu : bool) (h : gmap nat (tensor Z)) :
  dim Q ≠ 3 ∨ dim D ≠ 3 ∨ (hd 0 (shape Q) ≠ 1 ∧ hd 0 (shape Q) ≠ hd 0 (shape D)) →
  colbert_score dt Q D M use_gpu h = (h, Raise AssertionError).
Proof.
  intros Hbad. unfold colbert_score, mbind, St_bind, lift, py_assert, size, dim in *.
  destruct (decide (length (shape Q) = 3)) as [HQ|HQ];
    [rewrite (bool_decide_true _ HQ)|by rewrite (bool_decide_false _ HQ)].
  destruct (decide (length (shape D) = 3)) as [HD|HD];
    [rewrite (bool_decide_true _ HD)|by rewrite (bool_decide_false _ HD)].
  destruct Hbad as [?|[?|[H1 H2]]]; [done..|].
  destruct (shape Q) as [|q0 ?]; [done|]. destruct (shape D) as [|d0 ?]; [done|].
  simpl in *. rewrite bool_decide_false; [done|].
  by intros [?|[?|?%elem_of_nil]%elem_of_cons]%elem_of_cons.
Qed.

Lemma colbert_score_assertions_witness :
  colbert_score float16 (Tensor [2; 1; 1] [1; 2]%Z) (Tensor [3; 1; 1] [1; 2; 3]%Z)
    (Tensor [3; 1] [true; true; true]) false ∅
  = (∅, Raise AssertionError).
Proof.
  apply (colbert_score_assertions float16 (Tensor [2; 1; 1] [1; 2]%Z)
           (Tensor [3; 1; 1] [1; 2; 3]%Z)).
  right; right. split; simpl; lia.
Defined.

(** Whatever its arguments and whether it returns or raises,
    [colbert_score] leaves every tensor that was in the store before the
    call with its shape and its entries: the similarity tensor it reduces in
    place is one it has allocated itself. *)
Theorem colbert_score_keeps_store (dt : dtype) (Q D : tensor Z) (M : tensor bool)
    (use_gpu : bool) (h : gmap nat (tensor Z)) (r : nat) (t : tensor Z) :
  h !! r = Some t → (colbert_score dt Q D M use_gpu h).1 !! r = Some t.
Proof.
  intros Hr. unfold colbert_score, mbind, St_bind, lift, alloc.
  destruct (py_assert _); [|done]. destruct (py_assert _); [|done].
  destruct (size Q 0); [|done]. destruct (size D 0); [|done].
  destruct (py_assert _); [|done]. destruct (permute021 Q); [|done].
  destruct (matmul3 _ _) as [sc|]; [|done].
  assert (r ≠ fresh (dom h)) as Hne.
  { intros ->. apply (is_fresh (dom h)). apply elem_of_dom. by eexists. }
  pose proof (colbert_score_reduce_frame dt (<[fresh (dom h) := sc]> h) (fresh (dom h)) M r
                Hne) as Hf.
  destruct (colbert_score_reduce _ _ _ _) as [h' [res|e]]; simpl in *;
    by rewrite Hf, lookup_insert_ne.
Qed.

Lemma colbert_score_keeps_store_witness :
  (colbert_score float16 (Tensor [1; 1; 1] [2%Z]) (Tensor [1; 2; 1] [3; 4]%Z)
     (Tensor [1; 2] [true; false]) false {[0 := Tensor [1] [5%Z]]}).1 !! 0
  = Some (Tensor [1] [5%Z]).
Proof.
  apply (colbert_score_keeps_store float16 (Tensor [1; 1; 1] [2%Z])
           (Tensor [1; 2; 1] [3; 4]%Z)
           (Tensor [1; 2] [true; false]) false {[0 := Tensor [1] [5%Z]]} 0).
  reflexivity.
Defined.

(** [colbert_score_packed] accepts one query only: for a query tensor of
    rank 3 whose first size is not 1 it raises AssertionError. *)
Theorem colbert_score_packed_single_query (colbert : ColBERT)
    (segmented_maxsim : option segmented_maxsim_t) (dt : dtype)
    (Q D_packed : tensor Z) (D_lengths : tensor nat) (config : ColBERTConfig)
    (h : gmap nat (tensor Z)) (n q d : nat) :
  shape Q = [n; q; d] → n ≠ 1 →
  colbert_score_packed colbert segmented_maxsim dt Q D_packed D_lengths config h
  = (h, Raise AssertionError).
Proof.
  intros HQ Hn. unfold colbert_score_packed, mbind, St_bind, lift, py_assert, squeeze0, dim.
  rewrite HQ. destruct n as [|[|n]]; [|done|]; by rewrite HQ.
Qed.

Lemma colbert_score_packed_single_query_witness :
  colbert_score_packed {| as_padded_tensor := λ _ _ _, Raise RuntimeError |} None float32
    (Tensor [2; 1; 1] [1; 2]%Z) (Tensor [2; 1] [1; 2]%Z) (Tensor [1] [2])
    {| total_visible_gpus := 0; interaction := "colbert" |} ∅
  = (∅, Raise AssertionError).
Proof.
  apply (colbert_score_packed_single_query _ _ float32 (Tensor [2; 1; 1] [1; 2]%Z) _ _ _ _
           2 1 1);
    [reflexivity|lia].
Defined.

(** ** Repeating the reduction *)

Lemma concat_nested3 {A} a b c (l : list A) :
  length l = a * (b * c) → concat (concat (nested3 a b c l)) = l.
Proof.
  intros Hl. unfold nested3.
  assert (∀ ms : list (list (list A)), concat (concat ms) = concat ((λ m, concat m) <$> ms))
    as ->.
  { induction ms as [|m ms IH]; simpl; [done|]. by rewrite concat_app, IH. }
  rewrite <-list_fmap_compose.
  pose proof (chunk_block_lengths a (b * c) l Hl) as Hb.
  rewrite <-(concat_chunk a (b * c) l Hl) at 2. f_equal.
  rewrite <-(list_fmap_id (chunk a (b * c) l)) at 2.
  apply Forall_fmap_ext_1. eapply Forall_impl; [exact Hb|].
  intros blk Hblk; simpl. by apply concat_chunk.
Qed.

Lemma mask_rows_idemp (fill : Z) (Mi : list bool) (m : list (list Z)) :
  mask_rows fill Mi (mask_rows fill Mi m) = mask_rows fill Mi m.
Proof.
  unfold mask_rows. revert m. induction Mi as [|b Mi IH]; intros [|row m]; simpl; try done.
  f_equal; [|apply IH]. destruct b; [done|]. by rewrite length_replicate.
Qed.

Lemma zip_mask_rows_idemp (fill : Z) (Ms : list (list bool))
    (mats : list (list (list Z))) :
  zip_with (mask_rows fill) Ms (zip_with (mask_rows fill) Ms mats)
  = zip_with (mask_rows fill) Ms mats.
Proof.
  revert mats. induction Ms as [|Mi Ms IH]; intros [|m mats]; simpl; try done.
  by rewrite mask_rows_idemp, IH.
Qed.

(** Running [colbert_score_reduce] a second time on the same tensor object
    with the same mask returns the same scores and leaves the tensor as the
    first run left it. *)
Theorem colbert_score_reduce_idempotent (dt : dtype) (h : gmap nat (tensor Z)) (r : nat)
    (s : tensor Z) (M : tensor bool) (n l ql : nat) :
  h !! r = Some s → shape s = [n; l; ql] → wf s →
  numel (shape M) = n * l → wf M → 0 < l →
  colbert_score_reduce dt r M (colbert_score_reduce dt r M h).1
  = colbert_score_reduce dt r M h.
Proof.
  intros Hr Hs Hws HM HwM Hl.
  assert (length (data s) = n * (l * ql)) as Hlen.
  { unfold wf in Hws. rewrite Hs in Hws. simpl in Hws. lia. }
  set (mats := nested3 n l ql (data s)).
  assert (s = Tensor [n; l; ql] (concat (concat mats))) as Hs'.
  { unfold mats. rewrite concat_nested3 by done. destruct s; simpl in *. by subst. }
  pose proof (nested3_uniform n l ql (data s) Hlen) as Hu. fold mats in Hu.
  pose proof (length_nested3 n l ql (data s)) as Hn. fold mats in Hn.
  rewrite Hs' in Hr.
  rewrite (colbert_score_reduce_nested dt h r n l ql mats M Hr Hn Hu HM HwM Hl). cbn [fst].
  assert (length (data M) = n * l) as HlM by (unfold wf in HwM; lia).
  destruct (zip_mask_uniform (sentinel dt) n l ql (chunk n l (data M)) mats) as [Hzn Hzu];
    [apply length_chunk|done|by apply chunk_block_lengths|done|].
  rewrite (colbert_score_reduce_nested dt _ r n l ql
             (zip_with (mask_rows (sentinel dt)) (chunk n l (data M)) mats) M);
    [|apply lookup_insert_eq|done..].
  by rewrite zip_mask_rows_idemp, insert_insert_eq.
Qed.

Lemma colbert_score_reduce_idempotent_witness :
  colbert_score_reduce float16 0 (Tensor [1; 2] [true; false])
    (colbert_score_reduce float16 0 (Tensor [1; 2] [true; false])
       {[0 := Tensor [1; 2; 2] [3; 4; 5; 6]%Z]}).1
  = colbert_score_reduce float16 0 (Tensor [1; 2] [true; false])
      {[0 := Tensor [1; 2; 2] [3; 4; 5; 6]%Z]}.
Proof.
  apply (colbert_score_reduce_idempotent float16 {[0 := Tensor [1; 2; 2] [3; 4; 5; 6]%Z]} 0
           (Tensor [1; 2; 2] [3; 4; 5; 6]%Z) (Tensor [1; 2] [true; false]) 1 2 2);
    [reflexivity|reflexivity|reflexivity|reflexivity|reflexivity|lia].
Defined.

(** ** The packed scorer without a GPU *)

(** With no visible GPU, an interaction other than 'flipr' and the
    extension loaded, [colbert_score_packed] on a query of shape
    (1, q_len, dim) and packed documents of shape (T, dim) passes to
    [segmented_maxsim] the (T, q_len) matrix of dot products of every
    document token with every query token, together with the document
    lengths, and returns its result. *)
Theorem colbert_score_packed_cpu (colbert : ColBERT) (segmented_maxsim : segmented_maxsim_t)
    (dt : dtype) (Q D_packed : tensor Z) (D_lengths : tensor nat) (config : ColBERTConfig)
    (h : gmap nat (tensor Z)) (ql T d : nat) :
  total_visible_gpus config = 0 → interaction config ≠ "flipr" →
  shape Q = [1; ql; d] → wf Q → shape D_packed = [T; d] →
  colbert_score_packed colbert (Some segmented_maxsim) dt Q D_packed D_lengths config h
  = (h, segmented_maxsim
          (Tensor [T; ql] (concat (sim_matrix (rows2 D_packed) (nested2 ql d (data Q)))))
          D_lengths).
Proof.
  intros Hg Hi HQ HwQ HD.
  assert (length (data Q) = ql * d) as Hlen.
  { unfold wf in HwQ. rewrite HQ in HwQ. simpl in HwQ. lia. }
  unfold colbert_score_packed, squeeze0. rewrite HQ, Hg.
  rewrite (bool_decide_false (0 < 0)) by lia.
  rewrite (bool_decide_false (interaction config = "flipr")) by done.
  unfold mbind, St_bind, lift, py_assert, dim. cbn [shape data length].
  rewrite !bool_decide_true by (by rewrite ?HD).
  unfold transpose2. cbn [shape data mbind result_bind].
  unfold matmul2d. rewrite HD. cbn [shape data]. rewrite decide_True by done.
  cbn [orb]. do 3 f_equal. unfold rows2. rewrite HD.
  rewrite (chunk_concat' d ql).
  - f_equal. apply matmul2_transpose; [apply length_chunk|by apply chunk_block_lengths].
  - unfold transpose. by rewrite length_fmap, length_seq.
  - unfold transpose. apply Forall_fmap, Forall_forall. intros j _; simpl.
    unfold column. by rewrite length_fmap, length_chunk.
Qed.

Lemma colbert_score_packed_cpu_witness :
  colbert_score_packed {| as_padded_tensor := λ _ _ _, Raise RuntimeError |}
    (Some (λ scores _, Ok scores)) float32
    (Tensor [1; 2; 1] [1; 2]%Z) (Tensor [3; 1] [1; 2; 3]%Z) (Tensor [2] [1; 2])
    {| total_visible_gpus := 0; interaction := "colbert" |} ∅
  = (∅, Ok (Tensor [3; 2]
              (concat (sim_matrix (rows2 (Tensor [3; 1] [1; 2; 3]%Z))
                         (nested2 2 1 [1; 2]%Z))))).
Proof.
  apply (colbert_score_packed_cpu {| as_padded_tensor := λ _ _ _, Raise RuntimeError |}
           (λ scores _, Ok scores) float32
           (Tensor [1; 2; 1] [1; 2]%Z) (Tensor [3; 1] [1; 2; 3]%Z) (Tensor [2] [1; 2])
           {| total_visible_gpus := 0; interaction := "colbert" |} ∅ 2 3 1);
    [reflexivity|discriminate|reflexivity|reflexivity|reflexivity].
Defined.

(** ** Padding and stacking *)

Lemma concat_replicate_const {A} n m (x : A) :
  concat (replicate n (replicate m x)) = replicate (n * m) x.
Proof. induction n as [|n IH]; [done|]. simpl. by rewrite replicate_add, IH. Qed.

Lemma uniform3_app {A} b c (ms ms' : list (list (list A))) :
  uniform3 b c ms → uniform3 b c ms' → uniform3 b c (ms ++ ms').
Proof. apply Forall_app_2. Qed.

Lemma uniform3_zeros n b c : uniform3 b c (replicate n (replicate b (replicate c 0%Z))).
Proof.
  apply Forall_replicate. split; [apply length_replicate|].
  apply Forall_replicate, length_replicate.
Qed.

Lemma rows3_uniform (t : tensor Z) b l hdim :
  wf t → shape t = [b; l; hdim] → length (rows3 t) = b ∧ uniform3 l hdim (rows3 t).
Proof.
  intros Hw Hs. unfold rows3. rewrite Hs. split; [apply length_nested3|].
  apply nested3_uniform. unfold wf in Hw. rewrite Hs in Hw. simpl in Hw. lia.
Qed.

Lemma pad_rows_uniform maxlen hdim l (ms : list (list (list Z))) :
  l ≤ maxlen → uniform3 l hdim ms → uniform3 maxlen hdim (pad_rows maxlen hdim <$> ms).
Proof.
  intros Hl Hu. apply Forall_fmap. eapply Forall_impl; [exact Hu|].
  intros m [Hm Hr]; simpl. unfold pad_rows. split.
  - rewrite length_app, length_replicate. lia.
  - apply Forall_app_2; [done|]. apply Forall_replicate, length_replicate.
Qed.

Lemma stack_body_step bsize maxlen hdim (t : tensor Z) b l (done : list (list (list Z))) :
  wf t → shape t = [b; l; hdim] → l ≤ maxlen →
  uniform3 maxlen hdim done → length done + b ≤ bsize →
  stack_body (PyTensor t)
    (Tensor [bsize; maxlen; hdim]
       (concat (concat (done ++ replicate (bsize - length done)
                                  (replicate maxlen (replicate hdim 0%Z))))),
     length done)
  = Ok (Tensor [bsize; maxlen; hdim]
          (concat (concat ((done ++ (pad_rows maxlen hdim <$> rows3 t))
                           ++ replicate (bsize - (length done + b))
                                (replicate maxlen (replicate hdim 0%Z))))),
        length done + b).
Proof.
  intros Hw Hs Hl Hdone Hsum.
  destruct (rows3_uniform t b l hdim Hw Hs) as [Hnt Hut].
  unfold stack_body, size_attr, size. rewrite Hs. csimpl.
  unfold slice_assign. cbn [shape data fst snd]. cbn zeta.
  rewrite (Nat.min_l (length done + b) bsize), (Nat.min_l l maxlen) by lia.
  replace (length done + b - length done) with b by lia.
  unfold broadcast_to. rewrite decide_True by done. cbn [mbind result_bind].
  set (zm := replicate maxlen (replicate hdim 0%Z)).
  rewrite (nested3_concat bsize maxlen hdim).
  2:{ rewrite length_app, length_replicate. lia. }
  2:{ apply uniform3_app; [done|apply uniform3_zeros]. }
  rewrite take_app_length, drop_app_length.
  rewrite take_replicate, drop_app_add', drop_replicate by done.
  rewrite Nat.min_l by lia.
  assert (nested3 b l hdim (data t) = rows3 t) as -> by (unfold rows3; by rewrite Hs).
  rewrite zip_with_replicate_r_eq by done.
  assert (flip (λ xm om : list (list Z), xm ++ drop l om) zm <$> rows3 t
          = pad_rows maxlen hdim <$> rows3 t) as ->.
  { apply Forall_fmap_ext_1. eapply Forall_impl; [exact Hut|].
    intros m [Hm _]; simpl. unfold pad_rows, zm. by rewrite drop_replicate, Hm. }
  csimpl. rewrite <-!app_assoc.
  by replace (bsize - length done - b) with (bsize - (length done + b)) by lia.
Qed.

Lemma stack_loop bsize maxlen hdim (ts : list (tensor Z)) (done : list (list (list Z))) :
  Forall (λ t, wf t ∧ ∃ b l, shape t = [b; l; hdim] ∧ l ≤ maxlen) ts →
  uniform3 maxlen hdim done →
  length done + sum_list ((λ t, hd 0 (shape t)) <$> ts) = bsize →
  for_each (PyTensor <$> ts) stack_body
    (Tensor [bsize; maxlen; hdim]
       (concat (concat (done ++ replicate (bsize - length done)
                                  (replicate maxlen (replicate hdim 0%Z))))),
     length done)
  = Ok (Tensor [bsize; maxlen; hdim]
          (concat (concat (done ++ concat ((λ t, pad_rows maxlen hdim <$> rows3 t) <$> ts)))),
        bsize).
Proof.
  intros Hts. revert done. induction Hts as [|t ts (Hw & b & l & Hs & Hl) _ IH];
    intros done Hdone Hsum.
  - simpl in *. rewrite Nat.add_0_r in Hsum. subst bsize.
    by rewrite Nat.sub_diag.
  - csimpl in Hsum. rewrite Hs in Hsum. simpl in Hsum.
    destruct (rows3_uniform t b l hdim Hw Hs) as [Hnt Hut].
    rewrite fmap_cons. cbn [for_each].
    rewrite (stack_body_step bsize maxlen hdim t b l) by (done || lia).
    csimpl.
    specialize (IH (done ++ (pad_rows maxlen hdim <$> rows3 t))).
    rewrite length_app, length_fmap, Hnt in IH.
    rewrite IH; [by rewrite <-!app_assoc| |lia].
    apply uniform3_app; [done|]. by apply (pad_rows_uniform _ _ l).
Qed.

Lemma le_max_list (l : list nat) x : x ∈ l → x ≤ max_list l.
Proof.
  induction l as [|y l IH]; [by intros ?%elem_of_nil|].
  intros [->|Hin]%elem_of_cons; simpl; [lia|]. specialize (IH Hin). lia.
Qed.

(** [_stack_3D_tensors] on a non-empty list of tensors of shapes
    (b_i, l_i, hdim) returns a tensor of shape (sum b_i, max l_i, hdim):
    the matrices of the groups in order, each filled up with zero rows to
    max l_i rows. *)
Theorem _stack_3D_tensors_pads (ts : list (tensor Z)) (hdim : nat) :
  ts ≠ [] → Forall (λ t, wf t ∧ ∃ b l, shape t = [b; l; hdim]) ts →
  _stack_3D_tensors (PyTensor <$> ts)
  = Ok (Tensor [sum_list ((λ t, hd 0 (shape t)) <$> ts);
                max_list ((λ t, nth 1 (shape t) 0) <$> ts); hdim]
          (concat (concat (concat
             ((λ t, pad_rows (max_list ((λ t, nth 1 (shape t) 0) <$> ts)) hdim <$> rows3 t)
                <$> ts))))).
Proof.
  intros Hne Hts. unfold _stack_3D_tensors.
  set (maxlen := max_list ((λ t, nth 1 (shape t) 0) <$> ts)).
  set (bsize := sum_list ((λ t, hd 0 (shape t)) <$> ts)).
  rewrite !mapR_fmap.
  rewrite (mapR_ok ((λ x, size_attr x 0) ∘ PyTensor) (λ t, hd 0 (shape t))).
  2:{ eapply Forall_impl; [exact Hts|]. intros t (_ & b & l & Hs); simpl.
      unfold size. by rewrite Hs. }
  csimpl.
  rewrite (mapR_ok ((λ x, size_attr x 1) ∘ PyTensor) (λ t, nth 1 (shape t) 0)).
  2:{ eapply Forall_impl; [exact Hts|]. intros t (_ & b & l & Hs); simpl.
      unfold size. by rewrite Hs. }
  csimpl. fold bsize.
  assert (py_max ((λ t, nth 1 (shape t) 0) <$> ts) = Ok maxlen) as ->.
  { unfold maxlen. clear -Hne. by destruct ts. }
  csimpl.
  assert (match PyTensor <$> ts with
          | [] => Raise IndexError
          | x :: _ => Ok x
          end ≫= (λ g0, size_attr g0 2) = Ok hdim) as Hhd.
  { clear -Hne Hts. destruct ts as [|t0 ts0]; [done|]. csimpl.
    inversion Hts as [|?? (_ & b & l & Hs)]; subst. unfold size. by rewrite Hs. }
  unfold mbind at 1. unfold mbind at 1 in Hhd. unfold result_bind at 1.
  unfold result_bind at 1 in Hhd.
  destruct (match PyTensor <$> ts with [] => Raise IndexError | x :: _ => Ok x end)
    as [g0|]; [|done]. rewrite Hhd. csimpl.
  pose proof (stack_loop bsize maxlen hdim ts []) as Hloop.
  cbn [app length] in Hloop. rewrite Nat.sub_0_r in Hloop.
  unfold zeros. cbn [numel foldr].
  assert (replicate (bsize * (maxlen * (hdim * 1))) 0%Z
          = concat (concat (replicate bsize (replicate maxlen (replicate hdim 0%Z))))) as ->.
  { rewrite !concat_replicate_const. f_equal. lia. }
  fold stack_body. rewrite Hloop; [done| |constructor|done].
  apply Forall_forall. intros t Hin. rewrite Forall_forall in Hts.
  destruct (Hts t Hin) as (Hw & b & l & Hs). split; [done|]. exists b, l. split; [done|].
  apply le_max_list. apply list_elem_of_fmap. exists t. by rewrite Hs.
Qed.

Lemma _stack_3D_tensors_pads_witness :
  _stack_3D_tensors [PyTensor (Tensor [2; 1; 2] [1; 2; 3; 4]%Z);
                     PyTensor (Tensor [1; 2; 2] [5; 6; 7; 8]%Z)]
  = Ok (Tensor [3; 2; 2] [1; 2; 0; 0; 3; 4; 0; 0; 5; 6; 7; 8]%Z).
Proof.
  apply (_stack_3D_tensors_pads [Tensor [2; 1; 2] [1; 2; 3; 4]%Z;
                                  Tensor [1; 2; 2] [5; 6; 7; 8]%Z] 2).
  - discriminate.
  - repeat constructor; by eexists _, _.
Defined.

(** Groups of unequal last size: a group of last size one is broadcast to
    the last size of the first group; any other last size raises. *)
Example _stack_3D_tensors_broadcasts :
  _stack_3D_tensors [PyTensor (Tensor [1; 1; 2] [1; 2]%Z);
                     PyTensor (Tensor [1; 2; 1] [7; 8]%Z)]
  = Ok (Tensor [2; 2; 2] [1; 2; 0; 0; 7; 7; 8; 8]%Z) ∧
  _stack_3D_tensors [PyTensor (Tensor [1; 2; 1] [7; 8]%Z);
                     PyTensor (Tensor [1; 1; 2] [1; 2]%Z)]
  = Raise RuntimeError.
Proof. split; vm_compute; reflexivity. Qed.

(** ** Gathering across several workers *)

Lemma take_drop_concat_uniform {A} sz (ls : list (list A)) p blk :
  Forall (λ b, length b = sz) ls → ls !! p = Some blk →
  take sz (drop (p * sz) (concat ls)) = blk.
Proof.
  intros Hu. revert p. induction Hu as [|b ls Hb _ IH]; intros p Hp; [done|].
  destruct p as [|p]; simpl in Hp.
  - injection Hp as ->. change (0 * sz) with 0. rewrite drop_0. cbn [concat].
    by rewrite take_app_length'.
  - change (S p * sz) with (sz + p * sz). cbn [concat].
    rewrite drop_app_add' by done. by apply IH.
Qed.

Lemma own_slot_lookup {A} rank (own : tensor A) (gathered : list (tensor A)) :
  rank < length gathered → own_slot rank own gathered !! rank = Some own.
Proof.
  intros Hr. unfold own_slot. rewrite list_lookup_imap.
  destruct (lookup_lt_is_Some_2 gathered rank Hr) as [t ->]. simpl.
  by rewrite decide_False by (intros Hn; by apply Hn).
Qed.

Lemma own_slot_Forall {A} (P : tensor A → Prop) rank (own : tensor A) gathered :
  P own → Forall P gathered → Forall P (own_slot rank own gathered).
Proof.
  intros Ho Hg. apply Forall_lookup. intros i t Hi. unfold own_slot in Hi.
  rewrite list_lookup_imap in Hi. destruct (gathered !! i) as [t'|] eqn:E; [|done].
  simpl in Hi. case_decide; simplify_eq; [|done].
  by eapply (Forall_lookup_1 _ _ _ _ Hg).
Qed.

Lemma sum_list_const (l : list nat) b : Forall (λ x, x = b) l → sum_list l = length l * b.
Proof. induction 1 as [|x l -> _ IH]; simpl; [done|]. by rewrite IH. Qed.

Lemma cat0_own_slot {A} rank (own : tensor A) (gathered : list (tensor A)) n b rest :
  shape own = b :: rest → length gathered = n → rank < n →
  Forall (λ t', shape t' = shape own ∧ length (data t') = length (data own)) gathered →
  ∃ g, cat0 (own_slot rank own gathered) = Ok g ∧
       shape g = n * b :: rest ∧
       take (length (data own)) (drop (rank * length (data own)) (data g)) = data own.
Proof.
  intros Hs Hn Hr Hg.
  pose proof (own_slot_Forall _ rank own gathered (conj eq_refl eq_refl) Hg) as Hall.
  pose proof (own_slot_lookup rank own gathered ltac:(lia)) as Hown.
  assert (length (own_slot rank own gathered) = n) as Hlen
    by (unfold own_slot; by rewrite length_imap).
  remember (own_slot rank own gathered) as l eqn:E.
  destruct l as [|t0 ts]; [simpl in Hlen; lia|].
  assert (shape t0 = b :: rest) as Ht0.
  { inversion Hall as [|?? [Ht _]]; subst. by rewrite Ht. }
  rewrite (cat0_cons t0 ts b rest Ht0).
  rewrite bool_decide_true.
  2:{ eapply Forall_impl; [exact Hall|]. intros t' [Ht' _]; simpl. rewrite Ht', Hs. done. }
  eexists. split; [done|]. cbn [shape data]. split.
  - f_equal. rewrite (sum_list_const _ b), length_fmap, Hlen; [done|].
    apply Forall_fmap. eapply Forall_impl; [exact Hall|].
    intros t' [Ht' _]; simpl. by rewrite Ht', Hs.
  - apply take_drop_concat_uniform.
    + apply Forall_fmap. eapply Forall_impl; [exact Hall|]. by intros t' [_ ?].
    + by rewrite list_lookup_fmap, Hown.
Qed.

(** With a world size other than 1, a rank below the world size and an
    [all_gather] that returns one tensor of the given shape per rank,
    [gather_tensors_from_other_gpus] returns tensors whose first size is the
    world size times that of the input, and whose block at the position of
    this rank is the tensor passed in, for the query embeddings, the
    document embeddings and the mask alike. *)
Theorem gather_keeps_own_slot (dist : Dist)
    (query_embeddings item_embeddings : tensor Z) (item_mask : tensor bool) :
  get_world_size dist ≠ 1 → get_rank dist < get_world_size dist →
  (∀ A (t : tensor A),
     length (all_gather dist A t) = get_world_size dist ∧
     Forall (λ t', shape t' = shape t ∧ length (data t') = length (data t))
       (all_gather dist A t)) →
  shape query_embeddings ≠ [] → shape item_embeddings ≠ [] → shape item_mask ≠ [] →
  ∃ Q D M,
    gather_tensors_from_other_gpus dist query_embeddings item_embeddings item_mask
    = Ok (Q, D, M) ∧
    shape Q = get_world_size dist * hd 0 (shape query_embeddings)
              :: tail (shape query_embeddings) ∧
    shape D = get_world_size dist * hd 0 (shape item_embeddings)
              :: tail (shape item_embeddings) ∧
    shape M = get_world_size dist * hd 0 (shape item_mask) :: tail (shape item_mask) ∧
    take (length (data query_embeddings))
      (drop (get_rank dist * length (data query_embeddings)) (data Q))
    = data query_embeddings ∧
    take (length (data item_embeddings))
      (drop (get_rank dist * length (data item_embeddings)) (data D))
    = data item_embeddings ∧
    take (length (data item_mask))
      (drop (get_rank dist * length (data item_mask)) (data M))
    = data item_mask.
Proof.
  intros Hw Hr Hg HQ HD HM. unfold gather_tensors_from_other_gpus.
  rewrite decide_False by done.
  destruct (shape query_embeddings) as [|bq rq] eqn:EQ; [done|].
  destruct (shape item_embeddings) as [|bd rd] eqn:ED; [done|].
  destruct (shape item_mask) as [|bm rm] eqn:EM; [done|].
  destruct (Hg Z query_embeddings) as [HlQ HfQ]. destruct (Hg Z item_embeddings) as [HlD HfD].
  destruct (Hg bool item_mask) as [HlM HfM].
  destruct (cat0_own_slot (get_rank dist) query_embeddings _ _ bq rq EQ HlQ Hr HfQ)
    as (Q & -> & HsQ & HdQ).
  destruct (cat0_own_slot (get_rank dist) item_embeddings _ _ bd rd ED HlD Hr HfD)
    as (D & -> & HsD & HdD).
  destruct (cat0_own_slot (get_rank dist) item_mask _ _ bm rm EM HlM Hr HfM)
    as (M & -> & HsM & HdM).
  by exists Q, D, M.
Qed.

Lemma gather_keeps_own_slot_witness :
  let dist := {| get_world_size := 2; get_rank := 1; all_gather := λ A t, [t; t] |} in
  let q := Tensor [1; 1; 1] [7%Z] in
  let d := Tensor [1; 2; 1] [3; 4]%Z in
  let m := Tensor [1; 2] [true; false] in
  ∃ Q D M,
    gather_tensors_from_other_gpus dist q d m = Ok (Q, D, M) ∧
    shape Q = [2 * 1; 1; 1] ∧ shape D = [2 * 1; 2; 1] ∧ shape M = [2 * 1; 2] ∧
    take 1 (drop (1 * 1) (data Q)) = [7%Z] ∧
    take 2 (drop (1 * 2) (data D)) = [3; 4]%Z ∧
    take 2 (drop (1 * 2) (data M)) = [true; false].
Proof.
  apply (gather_keeps_own_slot
           {| get_world_size := 2; get_rank := 1; all_gather := λ A t, [t; t] |}
           (Tensor [1; 1; 1] [7%Z]) (Tensor [1; 2; 1] [3; 4]%Z) (Tensor [1; 2] [true; false])).
  - simpl. lia.
  - simpl. lia.
  - intros A t. split; [reflexivity|]. by repeat constructor.
  - discriminate.
  - discriminate.
  - discriminate.
Defined.

(** ** Labels for an uneven batch *)

Lemma in_batch_labels_floor (B B' : nat) :
  0 < B → 0 < B' →
  in_batch_labels B B' = Ok (Tensor [B] ((λ i, (B' `div` B) * i) <$> seq 0 B)).
Proof.
  intros HB HB'. unfold in_batch_labels, floordiv.
  rewrite decide_False by lia. csimpl.
  assert (∀ i, i < B → B' `div` B * i < B') as Hstep.
  { intros i Hi. pose proof (Nat.Div0.mul_div_le B' B).
    destruct (decide (B' < B)) as [Hlt|Hge].
    - rewrite Nat.div_small by done. lia.
    - assert (0 < B' `div` B) by (apply Nat.div_str_pos; lia). nia. }
  unfold zeros2.
  pose proof (label_loop B B' (B' `div` B) 0 B [] eq_refl eq_refl Hstep) as Hloop.
  cbn [app] in Hloop. rewrite Hloop.
  csimpl. unfold argmax_dim1; simpl. rewrite decide_False by lia.
  do 2 f_equal. rewrite (chunk_concat' B B').
  - rewrite <-list_fmap_compose. apply list_fmap_ext.
    intros ? i ?%lookup_seq; simpl. apply argmax_one_hot, Hstep. lia.
  - by rewrite length_fmap, length_seq.
  - apply Forall_fmap, Forall_forall. intros i _; simpl.
    by rewrite length_insert, length_replicate.
Qed.

(** [compute_ib_loss_new] does not require the number of documents B' to be
    a multiple of the number of queries B: for any B, B' ≥ 1 it hands to the
    cross-entropy loss a (B, B') score matrix with the label
    (B' // B) * i for query i; with fewer documents than queries every
    label is 0. *)
Theorem compute_ib_loss_new_uneven (torch : Torch) (Q D : tensor Z) (M : tensor bool)
    (B B' ql dl d : nat) (h : gmap nat (tensor Z)) :
  0 < B → 0 < B' →
  shape Q = [B; ql; d] → wf Q →
  shape D = [B'; dl; d] → wf D →
  shape M = [B'; dl] ∨ shape M = [B'; dl; 1] → wf M →
  0 < dl →
  ∃ scores : tensor Z,
    (compute_ib_loss_new torch Q D M h).2
    = CrossEntropyLoss torch scores (Tensor [B] ((λ i, (B' `div` B) * i) <$> seq 0 B)) ∧
    shape scores = [B; B'] ∧
    (B' < B → (λ i, (B' `div` B) * i) <$> seq 0 B = replicate B 0).
Proof.
  intros HB HB' HQ HwQ HD HwD HM HwM Hdl.
  pose proof (in_batch_scores_maxsim Q D M B B' ql dl d h HB HQ HwQ HD HwD HM HwM Hdl) as Hsc.
  eexists. split; [|split].
  - unfold compute_ib_loss_new, mbind, St_bind.
    destruct (in_batch_scores Q D M h) as [h' r]. simpl in Hsc. subst r.
    unfold lift, size. rewrite HQ, HD; simpl.
    by rewrite in_batch_labels_floor.
  - done.
  - intros Hlt. rewrite Nat.div_small by done. clear.
    change (λ i, 0 * i) with (λ _ : nat, 0).
    generalize 0 at 2. induction B as [|B IH]; intros s; [done|]. csimpl. f_equal. apply IH.
Qed.

Lemma compute_ib_loss_new_uneven_witness :
  ∃ scores : tensor Z,
    (compute_ib_loss_new toy_torch (Tensor [2; 1; 1] [1; 2]%Z) (Tensor [3; 1; 1] [1; 2; 3]%Z)
       (Tensor [3; 1] [true; true; true]) ∅).2
    = CrossEntropyLoss toy_torch scores (Tensor [2] ((λ i, (3 `div` 2) * i) <$> seq 0 2)) ∧
    shape scores = [2; 3] ∧
    (3 < 2 → (λ i, (3 `div` 2) * i) <$> seq 0 2 = replicate 2 0).
Proof.
  apply (compute_ib_loss_new_uneven toy_torch (Tensor [2; 1; 1] [1; 2]%Z)
           (Tensor [3; 1; 1] [1; 2; 3]%Z) (Tensor [3; 1] [true; true; true]) 2 3 1 1 1 ∅);
    [lia|lia|reflexivity|reflexivity|reflexivity|reflexivity|by left|reflexivity|lia].
Defined.

(** ** The training forward pass *)






Lemma image_block_absent enc proj cfg :
  image_block enc proj cfg None None = Ok (None, None).
Proof.
  unfold image_block. rewrite bool_decide_false; [done|].
  by intros [[? [=]]|[? [=]]].
Qed.

(** [query] raises when the output of the vision encoder is requested (by
    the argument or, without it, by the configuration) but neither pixel
    values nor image features are given, when the output of the text encoder
    is requested but token ids and attention mask are not both given, and
    when neither output is requested. *)
Theorem query_requested_output_missing (torch : Torch) (self : FLMRModelForRetrieval)
    (input_ids attention_mask pixel_values image_features : option (tensor Z))
    (cv ct : option bool) :
  let vision := default (FLMRConfig.query_concat_output_from_vision_encoder (config self)) cv in
  let text := default (FLMRConfig.query_concat_output_from_text_encoder (config self)) ct in
  (vision = true ∧ pixel_values = None ∧ image_features = None) ∨
  (text = true ∧ ¬ (is_Some input_ids ∧ is_Some attention_mask)) ∨
  (vision = false ∧ text = false) →
  is_raise (query torch self input_ids attention_mask pixel_values image_features cv ct).
Proof.
  intros vision text Hcase. unfold query, mbind, result_bind. fold vision text.
  raise_step. 
  destruct Hcase as [(Hv & -> & ->)|[[Ht Hno]|[Hv Ht]]].
  - raise_step. rewrite image_block_absent, Hv. cbn beta iota zeta. simpl.
    by destruct text.
  - rewrite text_block_absent by done. cbn beta iota zeta.
    raise_step. rewrite Ht. simpl.
    destruct vision; simpl; [|done]. by destruct (read_local _).
  - do 2 raise_step. by rewrite Hv, Ht.
Qed.

Lemma query_requested_output_missing_witness :
  is_raise (query toy_torch toy_model (Some (Tensor [1; 2] [5; 0]%Z))
              (Some (Tensor [1; 2] [1; 0]%Z)) None None None None).
Proof.
  apply (query_requested_output_missing toy_torch toy_model (Some (Tensor [1; 2] [5; 0]%Z))
           (Some (Tensor [1; 2] [1; 0]%Z)) None None None None).
  left. repeat split; reflexivity.
Defined.

(** [doc] raises when the output of the vision encoder is requested (by the
    argument or, without it, by the configuration) but neither pixel values
    nor image features are given, when the output of the text encoder is
    requested but token ids and attention mask are not both given, and when
    neither output is requested. *)
Theorem doc_requested_output_missing (torch : Torch) (self : FLMRModelForRetrieval)
    (input_ids attention_mask pixel_values image_features : option (tensor Z))
    (cv ct : option bool) (keep_dims : keep_dims_t) (return_mask : bool) :
  let vision := default (FLMRConfig.context_concat_output_from_vision_encoder (config self)) cv in
  let text := default (FLMRConfig.context_concat_output_from_text_encoder (config self)) ct in
  (vision = true ∧ pixel_values = None ∧ image_features = None) ∨
  (text = true ∧ ¬ (is_Some input_ids ∧ is_Some attention_mask)) ∨
  (vision = false ∧ text = false) →
  is_raise (doc torch self input_ids attention_mask pixel_values image_features cv ct
              keep_dims return_mask).
Proof.
  intros vision text Hcase. unfold doc, mbind, result_bind. fold vision text.
  do 2 raise_step.
  destruct Hcase as [(Hv & -> & ->)|[[Ht Hno]|[Hv Ht]]].
  - raise_step. rewrite image_block_absent, Hv. cbn beta iota zeta. simpl.
    by destruct text.
  - rewrite text_block_absent by done. cbn beta iota zeta.
    do 2 raise_step. rewrite Ht. simpl.
    destruct vision; simpl; [|done]. by destruct (read_local _).
  - do 3 raise_step. by rewrite Hv, Ht.
Qed.

Lemma doc_requested_output_missing_witness :
  is_raise (doc toy_torch toy_model (Some (Tensor [1; 2] [5; 0]%Z))
              (Some (Tensor [1; 2] [1; 0]%Z)) None None (Some true) None KeepTrue false).
Proof.
  apply (doc_requested_output_missing toy_torch toy_model (Some (Tensor [1; 2] [5; 0]%Z))
           (Some (Tensor [1; 2] [1; 0]%Z)) None None (Some true) None KeepTrue false).
  left. repeat split; reflexivity.
Defined.

(** A model configured with [mask_punctuation] False cannot encode the
    text of a document: [__init__] binds no skiplist, and [doc] with token
    ids and an attention mask raises. *)
Theorem doc_text_needs_skiplist (torch : Torch) (self : FLMRModelForRetrieval)
    (input_ids attention_mask : tensor Z) (pixel_values image_features : option (tensor Z))
    (cv ct : option bool) (keep_dims : keep_dims_t) (return_mask : bool) :
  FLMRConfig.mask_punctuation (config self) = false →
  is_raise (doc torch self (Some input_ids) (Some attention_mask) pixel_values image_features
              cv ct keep_dims return_mask).
Proof.
  intros Hmp. unfold doc, mbind, result_bind. do 2 raise_step.
  unfold text_block, mbind, result_bind, skiplist. rewrite Hmp.
  by do 2 (destruct (_ : result (tensor Z)); cbn beta iota zeta; [|done]).
Qed.

Lemma doc_text_needs_skiplist_witness :
  is_raise (doc toy_torch toy_model_unmasked (Some (Tensor [1; 2] [5; 0]%Z))
              (Some (Tensor [1; 2] [1; 0]%Z)) None None None None KeepTrue false).
Proof.
  apply (doc_text_needs_skiplist toy_torch toy_model_unmasked (Tensor [1; 2] [5; 0]%Z)
           (Tensor [1; 2] [1; 0]%Z) None None None None KeepTrue false).
  reflexivity.
Defined.

Lemma doc_keep_dims_string (torch : Torch) (self : FLMRModelForRetrieval)
    (input_ids attention_mask pixel_values image_features : option (tensor Z))
    (cv ct : option bool) (s : string) (return_mask : bool) :
  s ≠ "return_mask" →
  doc torch self input_ids attention_mask pixel_values image_features cv ct (KeepStr s)
    return_mask
  = Raise AssertionError.
Proof.
  intros Hs. unfold doc, py_assert. rewrite bool_decide_false; [done|].
  intros [[=]|[[=]|[[=]|?%elem_of_nil]%elem_of_cons]%elem_of_cons]%elem_of_cons; done.
Qed.

(** [docFromText] with a string as [keep_dims] raises unless the string is
    'flatten' and a non-zero batch size is given: another string fails the
    assertion, and without a batch size 'flatten' is refused by [doc]. *)
Theorem docFromText_keep_dims_string (torch : Torch) (utils : TokenizationUtils)
    (self : FLMRModelForIndexing) (docs : docs_t) (bsize : option nat) (s : string)
    (to_cpu showprogress return_tokens : bool) :
  s ≠ "flatten" ∨ bsize = None ∨ bsize = Some 0 →
  is_raise (docFromText torch utils self docs bsize (KeepStr s)
              to_cpu showprogress return_tokens).
Proof.
  intros Hcase. unfold docFromText, mbind, result_bind.
  destruct (decide (s = "flatten")) as [->|Hs].
  - destruct Hcase as [?|Hb]; [done|]. do 2 raise_step.
    assert (∀ ids am, is_raise (FLMRModelForIndexing_doc torch self ids am None None
                                  (KeepStr "flatten") true to_cpu)) as Hdoc.
    { intros. unfold FLMRModelForIndexing_doc, mbind, result_bind.
      by rewrite doc_keep_dims_string. }
    destruct Hb as [-> | ->]; raise_step;
      match goal with |- context [FLMRModelForIndexing_doc ?a ?b ?c ?d ?e ?f ?g ?h ?i] =>
        pose proof (Hdoc c d) as Hd; by destruct (FLMRModelForIndexing_doc a b c d e f g h i) end.
  - unfold py_assert. rewrite bool_decide_false; [done|].
    intros [[=]|[[=]|[[=]|?%elem_of_nil]%elem_of_cons]%elem_of_cons]%elem_of_cons; done.
Qed.

Lemma docFromText_keep_dims_string_witness :
  is_raise (docFromText toy_torch ref_utils toy_indexer (TextDocs ["ab"; "c"]) None
              (KeepStr "flatten") false false false).
Proof.
  apply (docFromText_keep_dims_string toy_torch ref_utils toy_indexer (TextDocs ["ab"; "c"])
           None "flatten" false false false).
  right; left. reflexivity.
Defined.

(** [docFromText] on an empty list of documents raises: IndexError for a
    valid [keep_dims], AssertionError otherwise. *)
Theorem docFromText_empty (torch : Torch) (utils : TokenizationUtils)
    (self : FLMRModelForIndexing) (docs : docs_t) (bsize : option nat) (keep_dims : keep_dims_t)
    (to_cpu showprogress return_tokens : bool) :
  docs = TextDocs [] ∨ docs = TupleDocs [] →
  docFromText torch utils self docs bsize keep_dims to_cpu showprogress return_tokens
  = if bool_decide (keep_dims ∈ [KeepTrue; KeepFalse; KeepStr "flatten"])
    then Raise IndexError else Raise AssertionError.
Proof.
  intros Hd. unfold docFromText, py_assert.
  destruct (bool_decide (keep_dims ∈ [KeepTrue; KeepFalse; KeepStr "flatten"])); [|done].
  by destruct Hd as [-> | ->].
Qed.

Lemma docFromText_empty_witness :
  docFromText toy_torch ref_utils toy_indexer (TextDocs []) (Some 2) KeepTrue false false false
  = Raise IndexError.
Proof.
  apply (docFromText_empty toy_torch ref_utils toy_indexer (TextDocs []) (Some 2) KeepTrue
           false false false).
  left. reflexivity.
Defined.

Lemma zip_with_replicate_None {A B} (l : list A) (k : nat) :
  Forall (λ p : A * option B, p.2 = None)
    (zip_with (λ im e, (im, e)) l (replicate k None)).
Proof.
  revert k. induction l as [|x l IH]; intros [|k]; simpl; constructor; [done|apply IH].
Qed.

Lemma ref_split_into_batches_text_only (ids am : tensor Z) (bsize : nat)
    (bs : list batch_t) :
  ref_split_into_batches ids am bsize None = Ok bs →
  Forall (λ batch : batch_t, batch.2 = None) bs.
Proof.
  unfold ref_split_into_batches. intros H.
  repeat match type of H with
         | match ?l with _ => _ end = Ok _ => destruct l; try discriminate H
         end.
  injection H as <-. apply zip_with_replicate_None.
Qed.

(** For plain text documents, [docFromText] with a batch size and
    [return_tokens] True raises: the batches of text documents are pairs,
    which do not unpack into four names. *)
Theorem docFromText_return_tokens_text_only (torch : Torch) (utils : TokenizationUtils)
    (self : FLMRModelForIndexing) (texts : list string) (b : nat)
    (to_cpu showprogress : bool) :
  (∀ ids am bs, _split_into_batches utils ids am (S b) None = Ok bs →
                Forall (λ batch : batch_t, batch.2 = None) bs) →
  is_raise (docFromText torch utils self (TextDocs texts) (Some (S b)) (KeepStr "flatten")
              to_cpu showprogress true).
Proof.
  intros Hsplit. unfold docFromText, mbind, result_bind.
  destruct texts as [|t texts]; [done|]. cbn -[mapR cat0].
  do 3 raise_step.
  match goal with
  | |- context [_split_into_batches ?u ?i ?m ?n None] =>
      destruct (_split_into_batches u i m n None) as [batches|] eqn:E; [|done]
  end.
  apply Hsplit in E. cbn -[mapR cat0].
  destruct E as [|batch batches Hb _].
  - simpl. by destruct (py_gather _ _).
  - simpl. by rewrite Hb.
Qed.

Lemma docFromText_return_tokens_text_only_witness :
  is_raise (docFromText toy_torch ref_utils toy_indexer (TextDocs ["ab"; "c"]) (Some 2)
              (KeepStr "flatten") false false true).
Proof.
  apply (docFromText_return_tokens_text_only toy_torch ref_utils toy_indexer ["ab"; "c"] 1
           false false).
  intros ids am bs. apply ref_split_into_batches_text_only.
Defined.

(** ** Embeddings of padding and punctuation tokens *)

Lemma chunk_singletons {A} (l : list A) m :
  length l = m → chunk m 1 l = (λ x, [x]) <$> l.
Proof.
  revert l. induction m as [|m IH]; intros [|x l] Hl; simplify_eq/=; [done|].
  rewrite take_0, drop_0. f_equal. by apply IH.
Qed.

Lemma mul_mask_row (b : bool) (row : list Z) :
  (λ e : Z * Z, (e.1 * e.2)%Z) <$> ((λ x, (x, Z.b2z b)) <$> row)
  = if b then row else replicate (length row) 0%Z.
Proof.
  rewrite <-list_fmap_compose. destruct b; simpl.
  - rewrite <-(list_fmap_id row) at 2. apply list_fmap_ext. intros _ x _; simpl. lia.
  - induction row as [|x row IH]; [done|]. csimpl. rewrite IH. f_equal. lia.
Qed.

Lemma broadcast_zip_same {A B} n (xs : list A) (ys : list B) :
  broadcast_zip n n xs ys = zip xs ys.
Proof. unfold broadcast_zip. by rewrite decide_True. Qed.

Lemma mul_rows (m : list (list Z)) (fr : list bool) d :
  Forall (λ r, length r = d) m →
  (λ r : list Z * list Z, (λ e : Z * Z, (e.1 * e.2)%Z) <$> broadcast_zip d 1 r.1 r.2)
    <$> zip m ((λ b : bool, [Z.b2z b]) <$> fr)
  = zip_with (λ (b : bool) row, if b then row else replicate d 0%Z) fr m.
Proof.
  intros Hm. revert fr. induction Hm as [|r m Hr _ IH]; intros [|b fr]; csimpl; try done.
  f_equal; [|apply IH].
  rewrite (broadcast_zip_inner d) by done. by rewrite mul_mask_row, Hr.
Qed.

Lemma concat_nested3_rows {A} n L d (l : list A) :
  length l = n * (L * d) → concat (nested3 n L d l) = chunk (n * L) d l.
Proof.
  intros Hl. unfold nested3. symmetry.
  rewrite <-(concat_chunk n (L * d) l Hl) at 1.
  rewrite <-(chunk_concat' (n * L) d (concat (chunk L d <$> chunk n (L * d) l))).
  - f_equal. pose proof (chunk_block_lengths n (L * d) l Hl) as Hb.
    induction Hb as [|blk blks Hblk _ IH]; [done|]. csimpl.
    rewrite concat_app, <-IH. f_equal. symmetry. by apply concat_chunk.
  - rewrite (length_concat_uniform L), length_fmap, length_chunk; [done|].
    apply Forall_fmap, Forall_forall. intros blk _; simpl. apply length_chunk.
  - apply Forall_concat, Forall_fmap.
    eapply Forall_impl; [by apply (chunk_block_lengths n (L * d))|].
    intros blk Hblk; simpl. by apply chunk_block_lengths.
Qed.

Lemma Forall2_lengths_uniform {X Y} L (fs : list (list X)) (E : list (list Y)) :
  Forall (λ f, length f = L) fs → Forall (λ m, length m = L) E → length fs = length E →
  Forall2 (λ x y, length x = length y) fs E.
Proof.
  intros Hf. revert E. induction Hf as [|f fs Hfl _ IH]; intros [|m E] HE Hl;
    simplify_eq/=; constructor.
  - inversion HE; subst. lia.
  - apply IH; [by inversion HE|done].
Qed.

Lemma mul_matrices (E : list (list (list Z))) (fs : list (list bool)) L d :
  uniform3 L d E → Forall (λ f, length f = L) fs → length fs = length E →
  (λ p : list (list Z) * list (list Z),
     (λ r : list Z * list Z, (λ e : Z * Z, (e.1 * e.2)%Z) <$> broadcast_zip d 1 r.1 r.2)
       <$> broadcast_zip L L p.1 p.2)
    <$> zip E ((λ fr : list bool, (λ b : bool, [Z.b2z b]) <$> fr) <$> fs)
  = zip_with (zip_with (λ (b : bool) row, if b then row else replicate d 0%Z)) fs E.
Proof.
  intros HuE. revert fs. induction HuE as [|m E [Hm Hr] _ IH]; intros [|fr fs] Hf Hl;
    simplify_eq/=; [done|].
  inversion Hf; subst. f_equal; [|by apply IH].
  rewrite broadcast_zip_same. by apply mul_rows.
Qed.

(** The masked text embeddings and the mask bound by the text block. *)

Lemma text_block_value enc lin (skip : gset Z) (ids am h emb : tensor Z) n L d :
  shape ids = [n; L] → wf ids → 0 < n →
  enc ids am = Ok h → lin h = Ok emb → shape emb = [n; L; d] → wf emb →
  text_block enc lin (Ok skip) (Some ids) (Some am)
  = Ok (Some (Tensor [n; L; d]
                (concat (zip_with (λ (b : bool) row, if b then row else replicate d 0%Z)
                           (text_mask_row skip (data ids))
                           (chunk (n * L) d (data emb))))),
        Some (Tensor [n; L; 1] (Z.b2z <$> text_mask_row skip (data ids)))).
Proof.
  intros Hs Hw Hn Henc Hlin Hse Hwe.
  assert (length (data ids) = n * L) as Hlen.
  { unfold wf in Hw. rewrite Hs in Hw. simpl in Hw. lia. }
  assert (length (data emb) = n * (L * d)) as Hlene.
  { unfold wf in Hwe. rewrite Hse in Hwe. simpl in Hwe. lia. }
  unfold text_block. rewrite Henc. cbn [mbind result_bind]. rewrite Hlin.
  cbn [mbind result_bind]. unfold tolist2. rewrite Hs. cbn [mbind result_bind].
  destruct (mask_rows_lengths ids n L skip Hs Hw) as [Hmn HmL].
  remember (mask (nested2 n L (data ids)) skip) as rows eqn:Erows.
  assert (concat rows = text_mask_row skip (data ids)) as Hflat.
  { rewrite Erows. rewrite mask_text_mask_row. unfold text_mask_row at 1, nested2.
    rewrite <-(concat_chunk n L (data ids) Hlen) at 2. unfold text_mask_row.
    by rewrite fmap_concat. }
  assert (tensor_of_rows rows = Tensor [n; L] (concat rows)) as ->.
  { unfold tensor_of_rows. clear Erows Hflat. revert Hmn HmL.
    destruct rows as [|r rows']; intros Hmn HmL; [simpl in Hmn; lia|].
    inversion HmL as [|?? Hr _]. by rewrite Hmn, Hr. }
  unfold unsqueeze, dim. cbn [shape data length]. rewrite decide_True by lia.
  cbn [mbind result_bind take drop app]. unfold to_float. cbn [shape data].
  rewrite Hflat. set (flags := text_mask_row skip (data ids)).
  assert (length flags = n * L) as Hfl by (unfold flags, text_mask_row; by rewrite length_fmap).
  unfold mul3. rewrite Hse. cbn [shape data].
  assert (broadcast_dim n n = Ok n) as -> by (unfold broadcast_dim; by rewrite decide_True).
  assert (broadcast_dim L L = Ok L) as -> by (unfold broadcast_dim; by rewrite decide_True).
  assert (broadcast_dim d 1 = Ok d) as ->.
  { unfold broadcast_dim. repeat case_decide; (done || by subst). }
  cbn [mbind result_bind]. do 3 f_equal.
  pose proof (nested3_uniform n L d (data emb) Hlene) as HuE.
  pose proof (length_nested3 n L d (data emb)) as HnE.
  set (E := nested3 n L d (data emb)) in *.
  assert (nested3 n L 1 (Z.b2z <$> flags)
          = (λ fr : list bool, (λ b, [Z.b2z b]) <$> fr) <$> chunk n L flags) as ->.
  { unfold nested3. rewrite Nat.mul_1_r.
    rewrite <-(concat_chunk n L flags Hfl) at 1.
    rewrite fmap_concat, (chunk_concat' n L).
    - rewrite <-!list_fmap_compose. apply Forall_fmap_ext_1.
      eapply Forall_impl; [by apply (chunk_block_lengths n L flags)|].
      intros fr Hfr; simpl. rewrite chunk_singletons by (by rewrite length_fmap).
      by rewrite <-list_fmap_compose.
    - by rewrite length_fmap, length_chunk.
    - apply Forall_fmap. eapply Forall_impl; [by apply (chunk_block_lengths n L flags)|].
      intros fr Hfr; simpl. by rewrite length_fmap. }
  rewrite broadcast_zip_same. f_equal.
  pose proof (chunk_block_lengths n L flags Hfl) as Hf.
  pose proof (length_chunk n L flags) as Hcn.
  rewrite <-(concat_nested3_rows n L d (data emb) Hlene). fold E.
  rewrite <-(concat_chunk n L flags Hfl) at 2.
  rewrite zip_with_concat.
  2:{ apply (Forall2_lengths_uniform L); [done| |lia].
      eapply Forall_impl; [exact HuE|]. by intros ? [? _]. }
  do 2 f_equal. apply (mul_matrices _ _ L); [done..|lia].
Qed.

Lemma image_asserts_none : image_asserts (A:=tensor Z) None None = Ok tt.
Proof.
  unfold image_asserts. rewrite bool_decide_false; [done|].
  by intros [[? [=]]|[? [=]]].
Qed.

Lemma normalize_rows (torch : Torch) n L d (rows : list (list Z)) :
  length rows = n * L → Forall (λ r, length r = d) rows →
  normalize torch (Tensor [n; L; d] (concat rows))
  = Ok (Tensor [n; L; d] (concat (normalize_vec torch <$> rows))).
Proof.
  intros Hn Hd. unfold normalize. cbn [shape data].
  by rewrite (chunk_concat' (n * L) d).
Qed.

Lemma zeroed_rows_uniform n L d (flags : list bool) (l : list Z) :
  length flags = n * L → length l = n * L * d →
  length (zip_with (λ (b : bool) row, if b then row else replicate d 0%Z) flags
            (chunk (n * L) d l)) = n * L ∧
  Forall (λ r, length r = d)
    (zip_with (λ (b : bool) row, if b then row else replicate d 0%Z) flags
       (chunk (n * L) d l)).
Proof.
  intros Hf Hl. split.
  - rewrite length_zip_with, length_chunk. lia.
  - pose proof (chunk_block_lengths (n * L) d l Hl) as Hb. revert Hb.
    generalize (chunk (n * L) d l). clear. intros rows Hb. revert flags.
    induction Hb as [|r rows Hr _ IH]; intros [|b flags]; simpl; try constructor.
    + destruct b; [done|apply length_replicate].
    + apply IH.
Qed.

(** For a text-only document batch, [doc] (with [keep_dims] True or
    'return_mask') returns one embedding row per token: the normalised (and,
    on GPU, half-precision) output of the linear layer for a token that is
    neither padding (id 0) nor in the punctuation skiplist, and the
    normalised zero vector for any other token.  With [return_mask] the
    context mask of shape (n, L, 1) marks exactly the tokens that are kept. *)
Theorem doc_zeroes_skipped_tokens (torch : Torch) (self : FLMRModelForRetrieval)
    (ids am h emb : tensor Z) (cv ct : option bool) (keep_dims : keep_dims_t)
    (return_mask : bool) (n L d : nat) :
  default (FLMRConfig.context_concat_output_from_vision_encoder (config self)) cv = false →
  default (FLMRConfig.context_concat_output_from_text_encoder (config self)) ct = true →
  FLMRConfig.mask_punctuation (config self) = true →
  keep_dims = KeepTrue ∨ keep_dims = KeepStr "return_mask" →
  shape ids = [n; L] → wf ids → 0 < n → 0 < L →
  context_text_encoder self ids am = Ok h →
  context_text_encoder_linear self h = Ok emb →
  shape emb = [n; L; d] → wf emb →
  let flags := (λ x, bool_decide (x ∉ punctuation_ids self) && bool_decide (x ≠ 0%Z))
                 <$> data ids in
  let cast := if use_gpu self then half torch else id in
  let D := Tensor [n; L; d]
             (concat ((λ row, cast <$> normalize_vec torch row)
                        <$> zip_with (λ (b : bool) row, if b then row else replicate d 0%Z)
                              flags (chunk (n * L) d (data emb)))) in
  ∃ pooler_output,
    doc torch self (Some ids) (Some am) None None cv ct keep_dims return_mask
    = Ok {| FLMRContextEncoderOutput.pooler_output := pooler_output;
            FLMRContextEncoderOutput.late_interaction_output := DTensor D;
            FLMRContextEncoderOutput.context_mask :=
              if return_mask then Some (Tensor [n; L; 1] flags) else None |}.
Proof.
  intros Hv Ht Hmp Hkd Hs Hw Hn HL Henc Hlin Hse Hwe flags cast D.
  assert (length (data emb) = n * L * d) as Hlene.
  { unfold wf in Hwe. rewrite Hse in Hwe. simpl in Hwe. lia. }
  assert (length flags = n * L) as Hfl.
  { unfold flags. rewrite length_fmap. unfold wf in Hw. rewrite Hs in Hw. simpl in Hw. lia. }
  destruct (zeroed_rows_uniform n L d flags (data emb) Hfl Hlene) as [Hzn Hzd].
  set (rows0 := zip_with (λ (b : bool) row, if b then row else replicate d 0%Z) flags
                  (chunk (n * L) d (data emb))) in *.
  unfold doc. rewrite bool_decide_true.
  2:{ destruct Hkd as [-> | ->]; rewrite !elem_of_cons; auto. }
  cbn [py_assert mbind result_bind]. rewrite image_asserts_none. cbn [mbind result_bind].
  unfold skiplist. rewrite Hmp.
  rewrite (text_block_value _ _ (punctuation_ids self) ids am h emb n L d) by done.
  cbn [mbind result_bind fst snd]. rewrite image_block_absent.
  cbn [mbind result_bind fst snd]. rewrite Hv, Ht.
  cbn [andb read_local mbind result_bind fst snd].
  fold (text_mask_row (punctuation_ids self) (data ids)).
  change (text_mask_row (punctuation_ids self) (data ids)) with flags. fold rows0.
  rewrite (normalize_rows torch n L d rows0) by done. cbn [mbind result_bind].
  assert ((if use_gpu self
           then half_t torch (Tensor [n; L; d] (concat (normalize_vec torch <$> rows0)))
           else Tensor [n; L; d] (concat (normalize_vec torch <$> rows0))) = D) as ->.
  { unfold D, cast, half_t. cbn [shape data]. destruct (use_gpu self).
    - f_equal. by rewrite fmap_concat, <-list_fmap_compose.
    - f_equal. f_equal. apply list_fmap_ext. intros _ r _; simpl. by rewrite list_fmap_id. }
  assert (∃ p, select1_0_rank3 D = Ok p) as [p Hp].
  { unfold select1_0_rank3, select1_0, dim, D. cbn [shape length].
    rewrite decide_True by lia. rewrite decide_False by lia. by eexists. }
  exists p.
  assert (to_bool (Tensor [n; L; 1] (Z.b2z <$> flags)) = Tensor [n; L; 1] flags) as Hb.
  { unfold to_bool. cbn [shape data]. by rewrite to_bool_b2z. }
  destruct Hkd as [-> | ->]; cbn [mbind result_bind fst snd fmap option_fmap option_map];
    rewrite Hp, Hb; cbn [mbind result_bind]; by destruct return_mask.
Qed.

Lemma doc_zeroes_skipped_tokens_witness :
  ∃ pooler_output,
    doc toy_torch toy_model (Some (Tensor [1; 3] [97; 46; 0]%Z))
      (Some (Tensor [1; 3] [1; 1; 0]%Z)) None None None None KeepTrue true
    = Ok {| FLMRContextEncoderOutput.pooler_output := pooler_output;
            FLMRContextEncoderOutput.late_interaction_output :=
              DTensor (Tensor [1; 3; 2] [97; 97; 0; 0; 0; 0]%Z);
            FLMRContextEncoderOutput.context_mask :=
              Some (Tensor [1; 3; 1] [true; false; false]) |}.
Proof.
  apply (doc_zeroes_skipped_tokens toy_torch toy_model (Tensor [1; 3] [97; 46; 0]%Z)
           (Tensor [1; 3] [1; 1; 0]%Z) (Tensor [1; 3; 2] [97; 97; 46; 46; 0; 0]%Z)
           (Tensor [1; 3; 2] [97; 97; 46; 46; 0; 0]%Z) None None KeepTrue true 1 3 2);
    [reflexivity|reflexivity|reflexivity|by left|reflexivity|reflexivity|lia|lia
    |reflexivity|reflexivity|reflexivity|reflexivity].
Defined.

(** For a text-only query batch, [query] returns as late-interaction output
    one normalised row per token, the row of a padding token (id 0) being
    the normalised zero vector, and as pooler output the row of the first
    token of every query before normalisation. *)
Theorem query_zeroes_padding_tokens (torch : Torch) (self : FLMRModelForRetrieval)
    (ids am h emb : tensor Z) (cv ct : option bool) (n L d : nat) :
  default (FLMRConfig.query_concat_output_from_vision_encoder (config self)) cv = false →
  default (FLMRConfig.query_concat_output_from_text_encoder (config self)) ct = true →
  shape ids = [n; L] → wf ids → 0 < n → 0 < L →
  query_text_encoder self ids am = Ok h →
  query_text_encoder_linear self h = Ok emb →
  shape emb = [n; L; d] → wf emb →
  let rows := zip_with (λ (x : Z) row, if bool_decide (x ≠ 0%Z) then row else replicate d 0%Z)
                (data ids) (chunk (n * L) d (data emb)) in
  query torch self (Some ids) (Some am) None None cv ct
  = Ok {| FLMRQuestionEncoderOutput.pooler_output :=
            Tensor [n; d] (concat (take d <$> chunk n (L * d) (concat rows)));
          FLMRQuestionEncoderOutput.late_interaction_output :=
            Tensor [n; L; d] (concat (normalize_vec torch <$> rows)) |}.
Proof.
  intros Hv Ht Hs Hw Hn HL Henc Hlin Hse Hwe rows.
  assert (length (data emb) = n * L * d) as Hlene.
  { unfold wf in Hwe. rewrite Hse in Hwe. simpl in Hwe. lia. }
  set (flags := text_mask_row ∅ (data ids)).
  assert (length flags = n * L) as Hfl.
  { unfold flags, text_mask_row. rewrite length_fmap. unfold wf in Hw. rewrite Hs in Hw.
    simpl in Hw. lia. }
  destruct (zeroed_rows_uniform n L d flags (data emb) Hfl Hlene) as [Hzn Hzd].
  assert (zip_with (λ (b : bool) row, if b then row else replicate d 0%Z) flags
            (chunk (n * L) d (data emb)) = rows) as Hrows.
  { unfold rows, flags, text_mask_row. rewrite zip_with_fmap_l.
    apply zip_with_ext; [|done..]. intros x row.
    rewrite bool_decide_true by set_solver. done. }
  rewrite Hrows in Hzn, Hzd.
  unfold query. rewrite image_asserts_none. cbn [mbind result_bind].
  rewrite (text_block_value _ _ ∅ ids am h emb n L d) by done.
  cbn [mbind result_bind fst snd]. rewrite image_block_absent.
  cbn [mbind result_bind fst snd]. rewrite Hv, Ht.
  cbn [andb read_local mbind result_bind fst snd].
  fold flags. rewrite Hrows.
  rewrite (normalize_rows torch n L d rows) by done.
  unfold select1_0_rank3, select1_0, dim. cbn [shape data length numel foldr].
  rewrite decide_True by lia. rewrite decide_False by lia.
  cbn [mbind result_bind]. by rewrite Nat.mul_1_r.
Qed.

Lemma query_zeroes_padding_tokens_witness :
  query toy_torch toy_model (Some (Tensor [1; 2] [5; 0]%Z)) (Some (Tensor [1; 2] [1; 0]%Z))
    None None (Some false) None
  = Ok {| FLMRQuestionEncoderOutput.pooler_output := Tensor [1; 2] [5; 5]%Z;
          FLMRQuestionEncoderOutput.late_interaction_output :=
            Tensor [1; 2; 2] [5; 5; 0; 0]%Z |}.
Proof.
  apply (query_zeroes_padding_tokens toy_torch toy_model (Tensor [1; 2] [5; 0]%Z)
           (Tensor [1; 2] [1; 0]%Z) (Tensor [1; 2; 2] [5; 5; 0; 0]%Z)
           (Tensor [1; 2; 2] [5; 5; 0; 0]%Z) (Some false) None 1 2 2);
    [reflexivity|reflexivity|reflexivity|reflexivity|lia|lia
    |reflexivity|reflexivity|reflexivity|reflexivity].
Defined.

(** ** Encoding queries from text *)

Lemma query_text_only_needs_flag (torch : Torch) (self : FLMRModelForRetrieval)
    (input_ids attention_mask : option (tensor Z)) :
  FLMRConfig.query_concat_output_from_vision_encoder (config self) = true →
  is_raise (query torch self input_ids attention_mask None None None None).
Proof.
  intros Hv. unfold query, mbind, result_bind. simpl.
  raise_step. rewrite Hv. simpl.
  by destruct (FLMRConfig.query_concat_output_from_text_encoder (config self)).
Qed.

(** [queryFromText] raises when the configuration requests the output of
    the vision encoder for queries (it passes no image input and no flag to
    [query]), and when [to_cpu] is True together with a non-zero batch
    size. *)
Theorem queryFromText_unusable (torch : Torch) (query_tokenizer : QueryTokenizer)
    (self : FLMRModelForIndexing) (queries : list string) (bsize : option nat)
    (to_cpu : bool) (context : option (list string)) :
  FLMRConfig.query_concat_output_from_vision_encoder (config (retrieval self)) = true ∨
  (to_cpu = true ∧ ∃ b, bsize = Some (S b)) →
  is_raise (queryFromText torch query_tokenizer self queries bsize to_cpu context).
Proof.
  intros Hcase.
  assert (∀ ids am c, is_raise (FLMRModelForIndexing_query torch self ids am None None
                                  None None c) ∨
                      (c = false ∧
                       FLMRConfig.query_concat_output_from_vision_encoder
                         (config (retrieval self)) = false)) as Hq.
  { intros ids am c. unfold FLMRModelForIndexing_query, mbind, result_bind.
    destruct (FLMRConfig.query_concat_output_from_vision_encoder (config (retrieval self)))
      eqn:Ev.
    - left. pose proof (query_text_only_needs_flag torch (retrieval self) ids am Ev) as Hr.
      by destruct (query _ _ _ _ _ _ _ _).
    - destruct c; [left|by right]. by destruct (query _ _ _ _ _ _ _ _). }
  unfold queryFromText, mbind, result_bind.
  assert (∀ b, is_raise
                 match tensorize_batches query_tokenizer queries context (S b) with
                 | Ok batches =>
                     match mapR (λ batch : tensor Z * tensor Z,
                                   FLMRModelForIndexing_query torch self (Some batch.1)
                                     (Some batch.2) None None None None to_cpu) batches with
                     | Ok batches0 =>
                         match cat0 (FLMRQuestionEncoderOutput.late_interaction_output
                                       <$> batches0) with
                         | Ok Q => Ok (QueryTensor Q)
                         | Raise e => Raise e
                         end
                     | Raise e => Raise e
                     end
                 | Raise e => Raise e
                 end) as Hb.
  { intros b.
    destruct (tensorize_batches _ _ _ _) as [[|batch batches]|]; [done| |done]. simpl.
    unfold mbind, result_bind.
    destruct (Hq (Some batch.1) (Some batch.2) to_cpu) as [Hr|[-> Hv]].
    - by destruct (FLMRModelForIndexing_query _ _ _ _ _ _ _ _ _).
    - destruct Hcase as [?|[? _]]; congruence. }
  destruct bsize as [[|b]|]; [|apply Hb|].
  - destruct (tensorize _ _ _) as [enc|]; [|done]. cbn beta iota zeta.
    destruct (Hq (Some enc.1) (Some enc.2) false) as [Hr|[_ Hv]].
    + by destruct (FLMRModelForIndexing_query _ _ _ _ _ _ _ _ _).
    + destruct Hcase as [?|[_ [b ?]]]; congruence.
  - destruct (tensorize _ _ _) as [enc|]; [|done]. cbn beta iota zeta.
    destruct (Hq (Some enc.1) (Some enc.2) false) as [Hr|[_ Hv]].
    + by destruct (FLMRModelForIndexing_query _ _ _ _ _ _ _ _ _).
    + destruct Hcase as [?|[_ [b ?]]]; congruence.
Qed.

Lemma queryFromText_unusable_witness :
  is_raise (queryFromText toy_torch toy_query_tokenizer toy_indexer ["ab"; "c"] None false
              None).
Proof.
  apply (queryFromText_unusable toy_torch toy_query_tokenizer toy_indexer ["ab"; "c"] None
           false None).
  left. reflexivity.
Defined.

(** The overrides [query] and [doc] of [FLMRModelForIndexing] never return
    with [to_cpu] True: what the parent returns is a model output, on which
    [cpu] is not defined. *)
Theorem FLMRModelForIndexing_to_cpu_raises (torch : Torch) (self : FLMRModelForIndexing)
    (input_ids attention_mask pixel_values image_features : option (tensor Z))
    (cv ct : option bool) (keep_dims : keep_dims_t) (return_mask : bool) :
  is_raise (FLMRModelForIndexing_query torch self input_ids attention_mask pixel_values
              image_features cv ct true) ∧
  is_raise (FLMRModelForIndexing_doc torch self input_ids attention_mask pixel_values
              image_features keep_dims return_mask true).
Proof.
  unfold FLMRModelForIndexing_query, FLMRModelForIndexing_doc, mbind, result_bind.
  split; by raise_step.
Qed.

(** ** The tokens returned by [docFromText] *)

Lemma py_gather_fmap {A B} (f : A → B) (l l2 : list A) (idx : list nat) (r : list B) :
  Forall2 (λ i x, l !! i = Some x) idx l2 →
  py_gather (f <$> l) idx = Ok r → r = f <$> l2.
Proof.
  intros HF. revert r. unfold py_gather.
  induction HF as [|i x idx l2 Hi _ IH]; intros r Hr; simpl in Hr.
  - by injection Hr as <-.
  - unfold mbind, result_bind in Hr. rewrite list_lookup_fmap, Hi in Hr. simpl in Hr.
    ok_step Hr. injection Hr as <-. csimpl. f_equal. by apply IH.
Qed.

Lemma iter_tensor_rows (t : tensor Z) n L :
  shape t = [n; L] → iter_tensor t = Ok (Tensor [L] <$> rows2 t).
Proof.
  intros Hs. unfold iter_tensor, rows2, nested2. rewrite Hs. cbn [numel foldr].
  by rewrite Nat.mul_1_r.
Qed.

Lemma returned_rows (batches : list batch_t) L (rt : list (list (tensor Z)))
    (rev : list nat) (rowsI : list (list Z)) :
  Forall (λ t', ∃ n, shape t' = [n; L]) ((λ batch : batch_t, batch.1.1) <$> batches) →
  Forall2 (λ r row, concat (rows2 <$> ((λ batch : batch_t, batch.1.1) <$> batches)) !! r
                    = Some row) rev rowsI →
  (text_batches ← mapR (λ batch : batch_t,
                          match batch.2 with
                          | Some _ => Ok (batch.1.1, batch.1.2)
                          | None => Raise ValueError
                          end) batches;
   rows ← mapR (λ batch : tensor Z * tensor Z, iter_tensor batch.1) text_batches;
   returned_text ← py_gather (concat rows) rev;
   Ok [returned_text]) = Ok rt →
  rt = [Tensor [L] <$> rowsI].
Proof.
  intros Hsh Hrev H. unfold mbind, result_bind in H.
  ok_bind H as tb Etb. ok_bind H as rows Erows. ok_bind H as r Er. injection H as <-.
  assert (tb = (λ batch : batch_t, (batch.1.1, batch.1.2)) <$> batches) as ->.
  { clear -Etb. revert tb Etb. induction batches as [|batch batches IH]; intros tb Etb.
    - simpl in Etb. by injection Etb as <-.
    - simpl in Etb. unfold mbind, result_bind in Etb.
      destruct (batch.2); [|done]. cbn beta iota in Etb.
      ok_step Etb. injection Etb as <-. csimpl. f_equal. by apply IH. }
  assert (rows = (λ t : tensor Z, Tensor [L] <$> rows2 t)
                   <$> ((λ batch : batch_t, batch.1.1) <$> batches)) as ->.
  { clear -Erows Hsh. revert rows Erows. induction batches as [|batch batches IH];
      intros rows Erows.
    - simpl in Erows. by injection Erows as <-.
    - inversion Hsh as [|?? [n Hn] Hsh']; subst. csimpl in Erows.
      unfold mbind, result_bind in Erows. rewrite (iter_tensor_rows _ n L Hn) in Erows.
      ok_step Erows. injection Erows as <-. csimpl. f_equal. by apply IH. }
  f_equal. rewrite <-list_fmap_compose in Er.
  assert (concat ((λ t : tensor Z, Tensor [L] <$> rows2 t)
                    <$> ((λ batch : batch_t, batch.1.1) <$> batches))
          = Tensor [L] <$> concat (rows2 <$> ((λ batch : batch_t, batch.1.1) <$> batches)))
    as Hc.
  { rewrite fmap_concat, <-!list_fmap_compose. done. }
  rewrite <-list_fmap_compose in Hc. unfold compose in Hc, Er.
  unfold compose in Hc. rewrite Hc in Er.
  by eapply py_gather_fmap.
Qed.

(** When [docFromText] in flattened mode with [return_tokens] True returns
    (for multimodal documents, sorted and split by helpers that keep their
    contracts), the returned text is a list holding one list: the token id
    rows of the documents, in the order in which the documents were
    given. *)
Theorem docFromText_returns_tokens_in_order (torch : Torch) (utils : TokenizationUtils)
    (self : FLMRModelForIndexing) (docs : docs_t) (b : nat)
    (to_cpu showprogress : bool)
    (texts : list string) (extras extras' : option extras_t) (iif : bool)
    (ids am ids' am' : tensor Z) (rev : tensor nat) (batches : list batch_t)
    (N L : nat) (D : tensor Z) (doclens : tensor nat) (rt : list (list (tensor Z))) :
  unpack_docs docs = Ok (texts, extras, iif) →
  context_tokenizer (retrieval self) texts = Ok (ids, am) →
  shape ids = [N; L] → wf ids →
  _sort_by_length utils ids am (S b) extras = Ok (ids', am', extras', rev) →
  shape rev = [N] → restores ids ids' rev →
  _split_into_batches utils ids' am' (S b)
    (if bool_decide (is_Some extras) then extras' else None) = Ok batches →
  splits ids' batches →
  docFromText torch utils self docs (Some (S b)) (KeepStr "flatten")
    to_cpu showprogress true = Ok (RetFlat D doclens rt) →
  rt = [Tensor [L] <$> rows2 ids].
Proof.
  intros Hun Htok Hs Hw Hsort Hrev Hres Hsplit [Hcat Hwb] H.
  destruct (restores_rows ids ids' rev N L Hres Hs Hrev) as [[T HT] Hrows].
  destruct (cat0_rows _ _ T L Hcat HT) as [Hshapes Hrows'].
  { apply Forall_fmap. eapply Forall_impl; [exact Hwb|]. done. }
  unfold docFromText, mbind, result_bind in H.
  ok_step H. rewrite Hun in H. cbn beta iota zeta in H. cbn [fst snd] in H.
  rewrite Htok in H. cbn beta iota zeta in H. cbn [fst snd] in H.
  rewrite Hsort in H. cbn beta iota zeta in H. cbn [fst snd] in H.
  rewrite Hsplit in H. cbn beta iota zeta in H.
  ok_bind H as returned_text Ert.
  assert (rt = returned_text) as ->.
  { rewrite decide_True in H by done.
    do 7 ok_step H.
    repeat match type of H with
           | match ?m with Ok _ => _ | Raise _ => _ end = Ok _ =>
               destruct m; cbn beta iota zeta in H; [|discriminate H]
           end.
    by injection H as _ _ <-. }
  clear H. rewrite Hrows' in Hrows.
  by apply (returned_rows batches L _ (data rev) (rows2 ids)).
Qed.

Lemma docFromText_returns_tokens_in_order_witness :
  docFromText toy_torch ref_utils toy_indexer
    (TupleDocs [("abc", Some [7%Z], None); ("a.", Some [8%Z], None); ("b", Some [9%Z], None)])
    (Some 2) (KeepStr "flatten") false false true
  = Ok (RetFlat (Tensor [5; 2] [97; 97; 98; 98; 99; 99; 97; 97; 98; 98]%Z)
          (Tensor [3] [3; 1; 1])
          [[Tensor [3] [97; 98; 99]%Z; Tensor [3] [97; 46; 0]%Z; Tensor [3] [98; 0; 0]%Z]]) ∧
  [[Tensor [3] [97; 98; 99]%Z; Tensor [3] [97; 46; 0]%Z; Tensor [3] [98; 0; 0]%Z]]
  = [Tensor [3] <$> rows2 (Tensor [3; 3] [97; 98; 99; 97; 46; 0; 98; 0; 0]%Z)].
Proof.
  split; [vm_compute; reflexivity|].
  apply (docFromText_returns_tokens_in_order toy_torch ref_utils toy_indexer
           (TupleDocs [("abc", Some [7%Z], None); ("a.", Some [8%Z], None);
                       ("b", Some [9%Z], None)]) 1 false false
           ["abc"; "a."; "b"]
           (Some (FeatTensor (Tensor [3; 1] [7; 8; 9]%Z), [None; None; None]))
           (Some (FeatTensor (Tensor [3; 1] [9; 8; 7]%Z), [None; None; None])) true
           (Tensor [3; 3] [97; 98; 99; 97; 46; 0; 98; 0; 0]%Z)
           (Tensor [3; 3] [1; 1; 1; 1; 1; 0; 1; 0; 0]%Z)
           (Tensor [3; 3] [98; 0; 0; 97; 46; 0; 97; 98; 99]%Z)
           (Tensor [3; 3] [1; 0; 0; 1; 1; 0; 1; 1; 1]%Z)
           (Tensor [3] [2; 1; 0])
           [(Tensor [2; 3] [98; 0; 0; 97; 46; 0]%Z, Tensor [2; 3] [1; 0; 0; 1; 1; 0]%Z,
             Some (FeatTensor (Tensor [2; 1] [9; 8]%Z), [None; None]));
            (Tensor [1; 3] [97; 98; 99]%Z, Tensor [1; 3] [1; 1; 1]%Z,
             Some (FeatTensor (Tensor [1; 1] [7%Z]), [None]))]
           3 3
           (Tensor [5; 2] [97; 97; 98; 98; 99; 99; 97; 97; 98; 98]%Z)
           (Tensor [3] [3; 1; 1])).
  - vm_compute. reflexivity.
  - reflexivity.
  - reflexivity.
  - reflexivity.
  - vm_compute. reflexivity.
  - reflexivity.
  - split; [reflexivity|]. split; [reflexivity|]. vm_compute. reflexivity.
  - vm_compute. reflexivity.
  - split; [vm_compute; reflexivity|]. repeat constructor.
  - vm_compute. reflexivity.
Defined.

(** ** The mapping network *)

Lemma MLP_loop new_Linear bias act (pre suf : list nat) (acc : list layer) :
  for_each (seq (length pre) (length suf - 1))
    (λ i layers,
       s ← py_index (pre ++ suf) i;
       s' ← py_index (pre ++ suf) (i + 1);
       let layers := layers ++ [LinearLayer (new_Linear s s' bias)] in
       Ok (if bool_decide (Z.of_nat i < Z.of_nat (length (pre ++ suf)) - 2)%Z
           then layers ++ [ActivationLayer act] else layers))
    acc
  = Ok (acc ++ mlp_layers new_Linear bias act suf).
Proof.
  revert pre acc. induction suf as [|s suf IH]; intros pre acc.
  { simpl. by rewrite app_nil_r. }
  destruct suf as [|s' rest].
  { simpl. by rewrite app_nil_r. }
  cbn [length Nat.sub]. cbn [seq for_each]. cbn beta.
  assert (py_index (pre ++ s :: s' :: rest) (length pre) = Ok s) as ->.
  { unfold py_index. by rewrite lookup_app_r, Nat.sub_diag by lia. }
  assert (py_index (pre ++ s :: s' :: rest) (length pre + 1) = Ok s') as ->.
  { unfold py_index. rewrite lookup_app_r by lia.
    by replace (length pre + 1 - length pre) with 1 by lia. }
  csimpl.
  match goal with
  | |- for_each _ _ ?acc' = _ => specialize (IH (pre ++ [s]) acc')
  end.
  rewrite length_app in IH. cbn [length Nat.sub] in IH.
  rewrite Nat.sub_0_r, Nat.add_1_r, <-app_assoc in IH. cbn [app] in IH.
  rewrite IH. f_equal. cbn [mlp_layers]. rewrite length_app. cbn [length].
  destruct rest as [|s'' rest]; cbn [length].
  - rewrite bool_decide_false by lia. by rewrite <-!app_assoc.
  - rewrite bool_decide_true by lia. by rewrite <-!app_assoc.
Qed.

Lemma MLP_init_layers new_Linear (sizes : list nat) bias act :
  MLP.__init__ new_Linear sizes bias act = Ok (mlp_layers new_Linear bias act sizes).
Proof. apply (MLP_loop new_Linear bias act [] sizes []). Qed.

Lemma split_last_app (lead : list nat) n : split_last (lead ++ [n]) = Some (lead, n).
Proof.
  induction lead as [|a lead IH]; [done|]. cbn [app split_last].
  destruct (lead ++ [n]) eqn:E; [by destruct lead|]. by rewrite IH.
Qed.

Lemma numel_app (sh sh' : list nat) : numel (sh ++ sh') = numel sh * numel sh'.
Proof. unfold numel. induction sh as [|a sh IH]; simpl; [lia|]. rewrite IH. lia. Qed.

Lemma length_apply_vec (l : Linear.t) (v : list Z) :
  length (Linear.weight l) = Linear.out_features l →
  match Linear.bias l with Some b => length b = Linear.out_features l | None => True end →
  length (Linear.apply_vec l v) = Linear.out_features l.
Proof.
  intros Hw Hb. unfold Linear.apply_vec. destruct (Linear.bias l).
  - rewrite length_zip_with, length_fmap. lia.
  - by rewrite length_fmap.
Qed.

Lemma Linear_forward_shape (l : Linear.t) (x : tensor Z) (lead : list nat) :
  length (Linear.weight l) = Linear.out_features l →
  match Linear.bias l with Some b => length b = Linear.out_features l | None => True end →
  shape x = lead ++ [Linear.in_features l] →
  ∃ y, Linear.forward l x = Ok y ∧ shape y = lead ++ [Linear.out_features l] ∧ wf y.
Proof.
  intros Hw Hb Hs. unfold Linear.forward. rewrite Hs, split_last_app.
  rewrite decide_True by done. eexists. split; [done|]. split; [done|].
  unfold wf. cbn [shape data]. rewrite numel_app. cbn [numel foldr]. rewrite Nat.mul_1_r.
  rewrite (length_concat_uniform (Linear.out_features l)).
  - by rewrite length_fmap, length_chunk.
  - apply Forall_fmap, Forall_forall. intros v _; simpl. by apply length_apply_vec.
Qed.

Lemma mlp_layers_cons new_Linear bias act (s s' : nat) (rest : list nat) :
  mlp_layers new_Linear bias act (s :: s' :: rest)
  = LinearLayer (new_Linear s s' bias)
    :: match rest with
       | [] => []
       | _ :: _ => [ActivationLayer act]
       end
    ++ mlp_layers new_Linear bias act (s' :: rest).
Proof. done. Qed.

Lemma last_cons_default {A} (l : list A) (x d d' : A) :
  List.last (x :: l) d = List.last (x :: l) d'.
Proof. revert x. induction l as [|y l IH]; intros x; [done|]. apply (IH y). Qed.

Lemma mlp_layers_forward new_Linear bias act (s0 : nat) (rest : list nat)
    (x : tensor Z) (lead : list nat) :
  linear_constructor new_Linear → shape x = lead ++ [s0] →
  ∃ y, MLP.forward (mlp_layers new_Linear bias act (s0 :: rest)) x = Ok y ∧
       shape y = lead ++ [List.last rest s0] ∧ (rest ≠ [] → wf y).
Proof.
  intros Hc. revert s0 x. induction rest as [|s1 rest IH]; intros s0 x Hs.
  { exists x. by repeat split. }
  destruct (Hc s0 s1 bias) as (Hin & Hout & Hw & Hb).
  destruct (Linear_forward_shape (new_Linear s0 s1 bias) x lead) as (y & Hy & Hsy & Hwy).
  { by rewrite Hout. }
  { destruct (Linear.bias _); [|done]. rewrite Hout. by destruct Hb. }
  { by rewrite Hin. }
  rewrite Hout in Hsy.
  unfold MLP.forward. cbn [mlp_layers for_each layer_forward].
  rewrite Hy. csimpl.
  destruct rest as [|s2 rest].
  - simpl. exists y. by repeat split.
  - cbn [app for_each layer_forward]. csimpl.
    destruct (IH s1 (Tensor (shape y) (act <$> data y))) as (z & Hz & Hsz & Hwz); [done|].
    exists z. split; [exact Hz|]. split; [|intros _; by apply Hwz].
    rewrite Hsz. do 2 f_equal. apply last_cons_default.
Qed.

Lemma toy_new_Linear_constructor : linear_constructor toy_new_Linear.
Proof.
  intros n m b. unfold toy_new_Linear. cbn. rewrite length_replicate.
  destruct b; by rewrite ?length_replicate.
Qed.

Lemma mlp_layers_length new_Linear bias act (s0 : nat) (rest : list nat) :
  length (mlp_layers new_Linear bias act (s0 :: rest))
  = match rest with
    | [] => 0
    | _ :: rest' => 2 * length rest' + 1
    end.
Proof.
  revert s0. induction rest as [|s1 rest IH]; intros s0; [done|].
  rewrite mlp_layers_cons. cbn [length]. rewrite length_app, IH.
  destruct rest; simpl; lia.
Qed.

Lemma mlp_layers_lookup_linear new_Linear bias act (sizes : list nat) (i s s' : nat) :
  sizes !! i = Some s → sizes !! (i + 1) = Some s' →
  mlp_layers new_Linear bias act sizes !! (2 * i)
  = Some (LinearLayer (new_Linear s s' bias)).
Proof.
  revert i. induction sizes as [|a sizes IH]; intros i Hi Hi'; [done|].
  destruct sizes as [|b rest]; [by destruct i|].
  rewrite mlp_layers_cons. destruct i as [|i].
  - simpl in *. by simplify_eq.
  - cbn [lookup list_lookup Nat.add] in Hi, Hi'.
    destruct rest as [|c rest]; [by destruct i|].
    replace (2 * S i) with (S (S (2 * i))) by lia.
    cbn [app lookup list_lookup]. by apply IH.
Qed.

Lemma mlp_layers_lookup_activation new_Linear bias act (sizes : list nat) (i : nat) :
  i + 2 < length sizes →
  mlp_layers new_Linear bias act sizes !! (2 * i + 1) = Some (ActivationLayer act).
Proof.
  revert i. induction sizes as [|a sizes IH]; intros i Hi; [simpl in Hi; lia|].
  destruct sizes as [|b [|c rest]]; [simpl in Hi; lia..|].
  rewrite mlp_layers_cons. destruct i as [|i]; [done|].
  replace (2 * S i + 1) with (S (S (2 * i + 1))) by lia.
  cbn [app lookup list_lookup]. apply IH. simpl in *. lia.
Qed.

(** [MLP.__init__] on a non-empty list of sizes returns the layers built
    by its loop: none for a single size; otherwise a linear layer from
    [sizes[i]] to [sizes[i + 1]] at position 2 i for every pair of
    consecutive sizes, and the activation at the odd positions between two
    linear layers, 2 (len - 1) - 1 layers in all.  [MLP.forward] maps a
    tensor whose last size is the first of the sizes to a tensor with the
    same leading sizes whose last size is the last of the sizes. *)
Theorem MLP_maps_first_size_to_last (new_Linear : nat → nat → bool → Linear.t)
    (sizes : list nat) (bias : bool) (act : Z → Z) (x : tensor Z)
    (lead : list nat) (s0 : nat) (rest : list nat) :
  linear_constructor new_Linear → sizes = s0 :: rest → shape x = lead ++ [s0] →
  ∃ model y,
    MLP.__init__ new_Linear sizes bias act = Ok model ∧
    length model = match rest with
                   | [] => 0
                   | _ :: rest' => 2 * length rest' + 1
                   end ∧
    (∀ i s s', sizes !! i = Some s → sizes !! (i + 1) = Some s' →
               model !! (2 * i) = Some (LinearLayer (new_Linear s s' bias))) ∧
    (∀ i, i + 2 < length sizes → model !! (2 * i + 1) = Some (ActivationLayer act)) ∧
    MLP.forward model x = Ok y ∧
    shape y = lead ++ [List.last sizes 0].
Proof.
  intros Hc -> Hs. rewrite MLP_init_layers.
  destruct (mlp_layers_forward new_Linear bias act s0 rest x lead Hc Hs) as (y & Hy & Hsy & _).
  exists (mlp_layers new_Linear bias act (s0 :: rest)), y.
  split; [done|]. split; [apply mlp_layers_length|].
  split; [intros i s s'; apply mlp_layers_lookup_linear|].
  split; [intros i; apply mlp_layers_lookup_activation|].
  split; [done|].
  rewrite Hsy. f_equal. f_equal. clear. revert s0.
  induction rest as [|s1 rest IH]; intros s0; [done|].
  change (List.last (s0 :: s1 :: rest) 0) with (List.last (s1 :: rest) 0).
  apply last_cons_default.
Qed.

Lemma MLP_maps_first_size_to_last_witness :
  ∃ model y,
    MLP.__init__ toy_new_Linear [2; 3; 1] true id = Ok model ∧
    length model = 2 * length [1] + 1 ∧
    (∀ i s s', [2; 3; 1] !! i = Some s → [2; 3; 1] !! (i + 1) = Some s' →
               model !! (2 * i) = Some (LinearLayer (toy_new_Linear s s' true))) ∧
    (∀ i, i + 2 < length [2; 3; 1] → model !! (2 * i + 1) = Some (ActivationLayer id)) ∧
    MLP.forward model (Tensor [1; 2] [1; 1]%Z) = Ok y ∧
    shape y = [1] ++ [List.last [2; 3; 1] 0].
Proof.
  apply (MLP_maps_first_size_to_last toy_new_Linear [2; 3; 1] true id (Tensor [1; 2] [1; 1]%Z)
           [1] 2 [3; 1]);
    [apply toy_new_Linear_constructor|reflexivity|reflexivity].
Defined.

(** A single size gives no layer; three sizes give linear, activation,
    linear. *)
Example MLP_layers_examples :
  MLP.__init__ toy_new_Linear [5] true id = Ok [] ∧
  MLP.__init__ toy_new_Linear [2; 3; 1] true id
  = Ok [LinearLayer (toy_new_Linear 2 3 true); ActivationLayer id;
        LinearLayer (toy_new_Linear 3 1 true)].
Proof. split; reflexivity. Qed.

(** The mapping network built by [FLMRModelForRetrieval.__init__] turns
    image features of shape (B, vision_encoder_dim) into B blocks of
    [mapping_network_prefix_length] pseudo-tokens of [dim] entries: the
    image block of [query] and [doc] returns a well-formed tensor of shape
    (B, mapping_network_prefix_length, dim). *)
Theorem vision_projection_pseudo_tokens (new_Linear : nat → nat → bool → Linear.t)
    (tanh : Z → Z) (vision_encoder_dim : nat) (cfg : FLMRConfig.t)
    (vision_encoder : tensor Z → result (tensor Z)) (image_features : tensor Z) (B : nat) :
  linear_constructor new_Linear →
  shape image_features = [B; vision_encoder_dim] →
  0 < FLMRConfig.mapping_network_prefix_length cfg → 0 < FLMRConfig.dim cfg →
  ∃ model v,
    new_vision_projection new_Linear tanh vision_encoder_dim cfg = Ok model ∧
    image_block vision_encoder (MLP.forward model) cfg None (Some image_features)
    = Ok (Some v, Some B) ∧
    shape v = [B; FLMRConfig.mapping_network_prefix_length cfg; FLMRConfig.dim cfg] ∧
    wf v.
Proof.
  intros Hc Hs HP Hd. unfold new_vision_projection. rewrite MLP_init_layers.
  set (P := FLMRConfig.mapping_network_prefix_length cfg) in *.
  set (dim := FLMRConfig.dim cfg) in *.
  destruct (mlp_layers_forward new_Linear true tanh vision_encoder_dim
              [(dim * P) `div` 2; dim * P] image_features [B] Hc Hs) as (y & Hy & Hsy & Hwy).
  specialize (Hwy ltac:(done)). cbn [List.last app] in Hsy.
  remember (mlp_layers new_Linear true tanh [vision_encoder_dim; (dim * P) `div` 2; dim * P])
    as model eqn:Em.
  exists model. eexists. split; [done|].
  unfold image_block. rewrite bool_decide_true by (right; by eexists).
  unfold mbind, result_bind, read_local, size. rewrite Hs. cbn [lookup list_lookup].
  cbn beta iota. rewrite Hy.
  unfold view_m1. rewrite Hsy. cbn [numel foldr]. fold P dim.
  rewrite decide_False by nia.
  assert (B * (dim * P * 1) = B * (P * (dim * 1))) as -> by lia.
  rewrite Nat.Div0.mod_mul, decide_True by done. rewrite Nat.div_mul by nia.
  csimpl. split; [done|]. split; [done|].
  unfold wf in *. rewrite Hsy in Hwy. cbn [shape data numel foldr] in *. lia.
Qed.

Lemma vision_projection_pseudo_tokens_witness :
  ∃ model v,
    new_vision_projection toy_new_Linear id 1 toy_config = Ok model ∧
    image_block Ok (MLP.forward model) toy_config None (Some (Tensor [1; 1] [7%Z]))
    = Ok (Some v, Some 1) ∧
    shape v = [1; FLMRConfig.mapping_network_prefix_length toy_config;
               FLMRConfig.dim toy_config] ∧
    wf v.
Proof.
  apply (vision_projection_pseudo_tokens toy_new_Linear id 1 toy_config Ok
           (Tensor [1; 1] [7%Z]) 1);
    [apply toy_new_Linear_constructor|reflexivity|simpl; lia|simpl; lia].
Defined.

(** ** Construction of the retrieval model *)

(** [FLMRModelForRetrieval.__init__] raises when [use_vision_encoder] is
    False (the context vision encoder it then reads was never bound), when
    [mask_punctuation] is True and no context tokenizer is given, and when
    [hidden_size] is not positive. *)
Theorem FLMRModelForRetrieval_init_requirements (new : Constructors)
    (segmented_maxsim : option segmented_maxsim_t)
    (config : FLMRConfig.t) (encoder_config : EncoderConfig.t)
    (vision_config : VisionConfig.t) (context_tokenizer : option Tokenizer) :
  VisionConfig.use_vision_encoder vision_config = false ∨
  (FLMRConfig.mask_punctuation config = true ∧ context_tokenizer = None) ∨
  (EncoderConfig.hidden_size encoder_config ≤ 0)%Z →
  is_raise (FLMRModelForRetrieval__init__ new segmented_maxsim config encoder_config
              vision_config context_tokenizer).
Proof.
  intros Hcase. unfold FLMRModelForRetrieval__init__, mbind, result_bind.
  destruct (FLMREncoder.__init__ _ _ _) as [enc|] eqn:Eenc; [|done].
  destruct (new_vision_projection _ _ _ _) as [proj|]; [|done].
  destruct Hcase as [Hv|[[Hm ->]|Hh]].
  - by rewrite Hv.
  - destruct (VisionConfig.use_vision_encoder vision_config); [|done].
    destruct (CLIPVisionModel new _); [|done]. cbn beta iota zeta.
    unfold try_load_torch_extensions. rewrite orb_true_r. cbn beta iota zeta.
    rewrite Hm. done.
  - unfold FLMREncoder.__init__, mbind, result_bind in Eenc.
    destruct (new_BertModel new encoder_config); [|done].
    by rewrite bool_decide_true in Eenc.
Qed.

Lemma FLMRModelForRetrieval_init_requirements_witness :
  is_raise (FLMRModelForRetrieval__init__ toy_constructors None default_FLMRConfig
              (default_EncoderConfig false false true) default_VisionConfig None).
Proof.
  apply (FLMRModelForRetrieval_init_requirements toy_constructors None default_FLMRConfig
           (default_EncoderConfig false false true) default_VisionConfig None).
  right; left. split; reflexivity.
Defined.

Lemma mapR_Ok_elem_of {A B} (f : A → result B) (l : list A) (ys : list B) (y : B) :
  mapR f l = Ok ys → y ∈ ys ↔ ∃ x, x ∈ l ∧ f x = Ok y.
Proof.
  intros H%mapR_Ok_inv. induction H as [|x y' l ys Hxy _ IH].
  - split; [by intros ?%elem_of_nil|by intros (? & ?%elem_of_nil & _)].
  - rewrite elem_of_cons, IH. split.
    + intros [->|(x' & Hin & Hx')]; [exists x; split; [left|done]|].
      exists x'. split; [by right|done].
    + intros (x' & [->|Hin]%elem_of_cons & Hx'); [left; congruence|].
      right. by exists x'.
Qed.

(** When [FLMRModelForRetrieval.__init__] returns, the model holds the
    configuration it was given and has [use_gpu] True, the class attribute
    [segmented_maxsim] is as before (the extension is not loaded), and the
    token ids of the skiplist are exactly the first token ids of the
    encodings of the punctuation symbols, none if [mask_punctuation] is
    False. *)
Theorem FLMRModelForRetrieval_init_post (new : Constructors)
    (segmented_maxsim segmented_maxsim' : option segmented_maxsim_t)
    (cfg : FLMRConfig.t) (encoder_config : EncoderConfig.t)
    (vision_config : VisionConfig.t) (context_tokenizer : option Tokenizer)
    (self : FLMRModelForRetrieval) :
  FLMRModelForRetrieval__init__ new segmented_maxsim cfg encoder_config
    vision_config context_tokenizer = Ok (self, segmented_maxsim') →
  config self = cfg ∧
  use_gpu self = true ∧
  segmented_maxsim' = segmented_maxsim ∧
  (∀ x : Z,
     x ∈ punctuation_ids self ↔
     FLMRConfig.mask_punctuation cfg = true ∧
     ∃ tokenizer symbol ids,
       context_tokenizer = Some tokenizer ∧ symbol ∈ punctuation ∧
       encode tokenizer symbol = Ok ids ∧ ids !! 0 = Some x).
Proof.
  intros H. unfold FLMRModelForRetrieval__init__, mbind, result_bind in H.
  do 4 ok_step H.
  unfold try_load_torch_extensions in H. rewrite orb_true_r in H. cbn beta iota zeta in H.
  match type of H with
  | match ?m with Ok _ => _ | Raise _ => _ end = Ok _ =>
      destruct m as [skiplist|] eqn:Eskip; cbn beta iota zeta in H; [|discriminate H]
  end.
  injection H as <- <-. cbn [config use_gpu punctuation_ids].
  split; [done|]. split; [done|]. split; [done|].
  intros x. rewrite elem_of_list_to_set.
  destruct (FLMRConfig.mask_punctuation cfg).
  - rewrite (mapR_Ok_elem_of _ _ _ x Eskip). split.
    + intros (symbol & Hin & Hx). split; [done|].
      destruct context_tokenizer as [t|]; [|done]. unfold mbind, result_bind in Hx.
      destruct (encode t symbol) as [ids|] eqn:Eids; [|done].
      exists t, symbol, ids. repeat split; try done.
      unfold py_index in Hx. by destruct (ids !! 0); simplify_eq.
    + intros (_ & t & symbol & ids & -> & Hin & Hids & Hx).
      exists symbol. split; [done|]. unfold mbind, result_bind. rewrite Hids.
      unfold py_index. by rewrite Hx.
  - injection Eskip as <-. split; [by intros ?%elem_of_nil|by intros [[=] _]].
Qed.

Lemma FLMRModelForRetrieval_init_post_witness :
  config toy_initialised_model = toy_config ∧
  use_gpu toy_initialised_model = true ∧
  (None : option segmented_maxsim_t) = None ∧
  (∀ x : Z,
     x ∈ punctuation_ids toy_initialised_model ↔
     FLMRConfig.mask_punctuation toy_config = true ∧
     ∃ tokenizer symbol ids,
       Some toy_Tokenizer = Some tokenizer ∧ symbol ∈ punctuation ∧
       encode tokenizer symbol = Ok ids ∧ ids !! 0 = Some x).
Proof.
  apply (FLMRModelForRetrieval_init_post toy_constructors None None toy_config
           (toy_encoder_config 0) toy_vision_config (Some toy_Tokenizer)
           toy_initialised_model).
  vm_compute. reflexivity.
Defined.

(** ** The encoders and the reader *)

Lemma input_shape_of_ambiguous warn (input_ids attention_mask inputs_embeds : option (tensor Z)) :
  (is_Some input_ids ↔ is_Some inputs_embeds) →
  input_shape_of warn input_ids attention_mask inputs_embeds = Raise ValueError.
Proof.
  intros Hboth. destruct input_ids as [ids|], inputs_embeds as [emb|]; try done.
  - destruct (proj1 Hboth) as [? [=]]. by eexists.
  - destruct (proj2 Hboth) as [? [=]]. by eexists.
Qed.

(** The [forward] methods of the context encoder, the question encoder and
    the reader raise ValueError when [input_ids] and [inputs_embeds] are
    both given, and when neither is. *)
Theorem forward_requires_exactly_one_input
    (ctx : FLMRContextEncoder.t) (qe : FLMRQuestionEncoder.t) (reader : FLMRReader.t)
    (input_ids attention_mask token_type_ids inputs_embeds : option (tensor Z))
    (output_attentions output_hidden_states return_dict : option bool) :
  (is_Some input_ids ↔ is_Some inputs_embeds) →
  FLMRContextEncoder.forward ctx input_ids attention_mask token_type_ids inputs_embeds
    output_attentions output_hidden_states return_dict = Raise ValueError ∧
  FLMRQuestionEncoder.forward qe input_ids attention_mask token_type_ids inputs_embeds
    output_attentions output_hidden_states return_dict = Raise ValueError ∧
  FLMRReader.forward reader input_ids attention_mask inputs_embeds
    output_attentions output_hidden_states return_dict = Raise ValueError.
Proof.
  intros Hboth.
  unfold FLMRContextEncoder.forward, FLMRQuestionEncoder.forward, FLMRReader.forward.
  by rewrite !input_shape_of_ambiguous.
Qed.

Lemma forward_requires_exactly_one_input_witness :
  FLMRContextEncoder.forward toy_context_encoder None None None None None None None
  = Raise ValueError ∧
  FLMRQuestionEncoder.forward toy_question_encoder None None None None None None None
  = Raise ValueError ∧
  FLMRReader.forward toy_reader None None None None None None = Raise ValueError.
Proof.
  apply (forward_requires_exactly_one_input toy_context_encoder toy_question_encoder
           toy_reader None None None None None None None).
  split; intros [? [=]].
Defined.

(** [FLMRQuestionEncoder.forward] never returns: it reads
    [self.question_encoder], which [__init__] does not bind.  With token ids
    only and no failure of the padding check, the error is AttributeError. *)
Theorem FLMRQuestionEncoder_forward_raises (self : FLMRQuestionEncoder.t)
    (input_ids attention_mask token_type_ids inputs_embeds : option (tensor Z))
    (output_attentions output_hidden_states return_dict : option bool) :
  is_raise (FLMRQuestionEncoder.forward self input_ids attention_mask token_type_ids
              inputs_embeds output_attentions output_hidden_states return_dict) ∧
  (is_Some input_ids → inputs_embeds = None →
   (∀ ids, FLMRQuestionEncoder.warn_if_padding_and_no_attention_mask self ids attention_mask
           = Ok tt) →
   FLMRQuestionEncoder.forward self input_ids attention_mask token_type_ids
     inputs_embeds output_attentions output_hidden_states return_dict
   = Raise AttributeError).
Proof.
  unfold FLMRQuestionEncoder.forward, mbind, result_bind. split.
  - by destruct (input_shape_of _ _ _ _).
  - intros [ids ->] -> Hwarn. simpl. unfold mbind, result_bind. by rewrite Hwarn.
Qed.

Lemma Linear_forward_rows (l : Linear.t) (x : tensor Z) (lead : list nat) :
  shape x = lead ++ [Linear.in_features l] →
  Linear.forward l x
  = Ok (Tensor (lead ++ [Linear.out_features l])
          (concat (Linear.apply_vec l
                     <$> chunk (numel lead) (Linear.in_features l) (data x)))).
Proof.
  intros Hs. unfold Linear.forward. rewrite Hs, split_last_app.
  by rewrite decide_True.
Qed.

Lemma split1_last_pair (N L : nat) {X} (f g : X → Z) (toks : list X) :
  length toks = N * L →
  split1_last (Tensor [N; L; 2] (concat ((λ v, [f v; g v]) <$> toks)))
  = Ok [Tensor [N; L; 1] (f <$> toks); Tensor [N; L; 1] (g <$> toks)].
Proof.
  intros Hl. unfold split1_last.
  change (split_last (shape (Tensor [N; L; 2] (concat ((λ v, [f v; g v]) <$> toks)))))
    with (Some ([N; L], 2)).
  cbn [seq fmap list_fmap numel foldr app data]. rewrite Nat.mul_1_r.
  rewrite (chunk_concat' (N * L) 2).
  - by rewrite <-!list_fmap_compose.
  - by rewrite length_fmap.
  - apply Forall_fmap, Forall_forall. by intros v _.
Qed.

Lemma squeeze_last_one {A} (a b : nat) (d : list A) :
  squeeze_last (Tensor [a; b; 1] d) = Tensor [a; b] d.
Proof. done. Qed.

(** [FLMRReader.forward] with token ids of shape (N, L), [return_dict] True
    and no projection returns start and end logits of shape (N, L), the
    entry for a token being the dot product of its hidden state with the
    first, respectively second, row of [qa_outputs] plus the bias, and
    relevance logits of shape (N), the entry for a passage being
    [qa_classifier] applied to the hidden state of its first token; hidden
    states and attentions are those of BERT. *)
Theorem FLMRReader_forward_logits (self : FLMRReader.t) (ids : tensor Z)
    (attention_mask : option (tensor Z)) (oa ohs : option bool)
    (seq_out pooled : tensor Z) (hs at_ : option pyobj) (N L H : nat)
    (w0 w1 wc : list Z) (b0 b1 bc : Z) :
  let sp := FLMRReader.span_predictor self in
  let enc := FLMRSpanPredictor.encoder sp in
  shape ids = [N; L] →
  FLMRReader.warn_if_padding_and_no_attention_mask self ids attention_mask = Ok tt →
  (FLMREncoder.projection_dim enc ≤ 0)%Z →
  FLMREncoder.bert_model enc
    {| BertModel.input_ids := Some ids;
       BertModel.attention_mask := Some (default (ones [N; L]) attention_mask);
       BertModel.token_type_ids := None;
       BertModel.inputs_embeds := None;
       BertModel.output_attentions :=
         default (EncoderConfig.output_attentions (FLMRReader.config self)) oa;
       BertModel.output_hidden_states :=
         default (EncoderConfig.output_hidden_states (FLMRReader.config self)) ohs;
       BertModel.return_dict := true |}
  = Ok (OutDict seq_out pooled hs at_) →
  shape seq_out = [N; L; H] → wf seq_out → 0 < L →
  FLMRSpanPredictor.qa_outputs sp
  = {| Linear.in_features := H; Linear.out_features := 2;
       Linear.weight := [w0; w1]; Linear.bias := Some [b0; b1] |} →
  FLMRSpanPredictor.qa_classifier sp
  = {| Linear.in_features := H; Linear.out_features := 1;
       Linear.weight := [wc]; Linear.bias := Some [bc] |} →
  FLMRReader.forward self (Some ids) attention_mask None oa ohs (Some true)
  = Ok (ReaderDict
          (Tensor [N; L] ((λ v, dot w0 v + b0)%Z <$> chunk (N * L) H (data seq_out)))
          (Tensor [N; L] ((λ v, dot w1 v + b1)%Z <$> chunk (N * L) H (data seq_out)))
          (Tensor [N] ((λ m, dot wc (take H m) + bc)%Z <$> chunk N (L * H) (data seq_out)))
          hs at_).
Proof.
  intros sp enc Hids Hwarn Hproj Hbert Hseq Hwf HL Hqa Hqc.
  assert (length (data seq_out) = N * L * H) as Hlen.
  { unfold wf in Hwf. rewrite Hseq in Hwf. simpl in Hwf. lia. }
  unfold FLMRReader.forward, input_shape_of. rewrite Hwarn. cbn [mbind result_bind].
  rewrite Hids. fold sp.
  unfold FLMRSpanPredictor.forward. rewrite Hids. cbn [mbind result_bind fst snd].
  fold enc. unfold FLMREncoder.forward.
  match goal with
  | |- context [FLMREncoder.bert_model enc ?a] =>
      replace (FLMREncoder.bert_model enc a) with (Ok (OutDict seq_out pooled hs at_))
        by (symmetry; exact Hbert)
  end.
  change (default (EncoderConfig.use_return_dict (FLMRReader.config self)) (Some true))
    with true.
  cbn [mbind result_bind getitem to_tuple py_index lookup list_lookup as_tensor].
  assert (select1_0_rank3 seq_out
          = Ok (Tensor [N; H] (concat (take H <$> chunk N (L * H) (data seq_out))))) as Hcls.
  { unfold select1_0_rank3, dim, select1_0. rewrite Hseq. cbn [length numel foldr].
    rewrite decide_True by lia. rewrite decide_False by lia. by rewrite Nat.mul_1_r. }
  rewrite Hcls. cbn [mbind result_bind].
  rewrite bool_decide_false by lia.
  cbn [negb attr_hidden_states attr_attentions mbind result_bind as_tensor].
  cbn [mbind result_bind getitem to_tuple py_index lookup list_lookup as_tensor].
  rewrite (Linear_forward_rows _ seq_out [N; L]) by (by rewrite Hqa).
  rewrite Hqa. cbn [Linear.in_features Linear.out_features mbind result_bind app].
  cbn [numel foldr]. rewrite Nat.mul_1_r.
  set (toks := chunk (N * L) H (data seq_out)).
  assert (Linear.apply_vec
            {| Linear.in_features := H; Linear.out_features := 2;
               Linear.weight := [w0; w1]; Linear.bias := Some [b0; b1] |}
          = λ v, [(dot w0 v + b0)%Z; (dot w1 v + b1)%Z]) as -> by done.
  assert (length toks = N * L) as Htoks by apply length_chunk.
  rewrite (split1_last_pair N L) by done. cbn [mbind result_bind fst snd].
  rewrite !squeeze_last_one.
  rewrite Hcls. cbn [mbind result_bind].
  rewrite (Linear_forward_rows _ _ [N]) by (by rewrite Hqc).
  rewrite Hqc. cbn [Linear.in_features Linear.out_features mbind result_bind app].
  cbn [numel foldr data]. rewrite Nat.mul_1_r.
  assert (Linear.apply_vec
            {| Linear.in_features := H; Linear.out_features := 1;
               Linear.weight := [wc]; Linear.bias := Some [bc] |}
          = λ v, [(dot wc v + bc)%Z]) as -> by done.
  rewrite (chunk_concat' N H).
  2:{ by rewrite length_fmap, length_chunk. }
  2:{ apply Forall_fmap. eapply Forall_impl;
        [apply (chunk_block_lengths N (L * H)); lia|].
      intros blk Hb; simpl in *. rewrite length_take, Hb. apply Nat.min_l. nia. }
  rewrite <-list_fmap_compose. unfold compose.
  unfold view. cbn [shape data numel foldr].
  rewrite !decide_True by lia.
  cbn [mbind result_bind]. do 3 f_equal.
  generalize (chunk N (L * H) (data seq_out)). clear.
  intros ms. induction ms as [|m ms IH]; [done|]. csimpl. by rewrite IH.
Qed.

Lemma FLMRReader_forward_logits_witness :
  FLMRReader.forward toy_reader (Some (Tensor [1; 2] [3; 4]%Z)) None None None None (Some true)
  = Ok (ReaderDict (Tensor [1; 2] [3; 4]%Z) (Tensor [1; 2] [13; 14]%Z) (Tensor [1] [11%Z])
          None None).
Proof.
  apply (FLMRReader_forward_logits toy_reader (Tensor [1; 2] [3; 4]%Z) None None None
           (Tensor [1; 2; 2] [3; 3; 4; 4]%Z) (Tensor [0] []) None None 1 2 2
           [1; 0]%Z [0; 1]%Z [1; 1]%Z 0%Z 10%Z 5%Z);
    [reflexivity|reflexivity|simpl; lia|reflexivity|reflexivity|reflexivity|lia
    |reflexivity|reflexivity].
Defined.

(** ** The pooled output of the context encoder *)

(** [FLMRContextEncoder.forward] with token ids of shape (N, L), no
    attention mask, [return_dict] True and no projection calls BERT with the
    mask of the tokens other than [pad_token_id] and, unless given, token
    type ids that are all zero, and returns as pooler output the hidden
    state of the first token of every sequence, not the pooled output of
    BERT; hidden states and attentions are those of BERT. *)
Theorem FLMRContextEncoder_forward_pooler (self : FLMRContextEncoder.t) (ids : tensor Z)
    (token_type_ids : option (tensor Z)) (oa ohs : option bool)
    (seq_out pooled : tensor Z) (hs at_ : option pyobj) (N L H : nat) :
  shape ids = [N; L] →
  (FLMREncoder.projection_dim (FLMRContextEncoder.ctx_encoder self) ≤ 0)%Z →
  FLMREncoder.bert_model (FLMRContextEncoder.ctx_encoder self)
    {| BertModel.input_ids := Some ids;
       BertModel.attention_mask :=
         Some (ne_pad (EncoderConfig.pad_token_id (FLMRContextEncoder.config self)) ids);
       BertModel.token_type_ids := Some (default (zeros [N; L]) token_type_ids);
       BertModel.inputs_embeds := None;
       BertModel.output_attentions :=
         default (EncoderConfig.output_attentions (FLMRContextEncoder.config self)) oa;
       BertModel.output_hidden_states :=
         default (EncoderConfig.output_hidden_states (FLMRContextEncoder.config self)) ohs;
       BertModel.return_dict := true |}
  = Ok (OutDict seq_out pooled hs at_) →
  shape seq_out = [N; L; H] → 0 < L →
  FLMRContextEncoder.forward self (Some ids) None token_type_ids None oa ohs (Some true)
  = Ok (EncoderDict
          (Tensor [N; H] (concat (take H <$> chunk N (L * H) (data seq_out)))) hs at_).
Proof.
  intros Hids Hproj Hbert Hseq HL.
  unfold FLMRContextEncoder.forward, input_shape_of. cbn [mbind result_bind].
  rewrite Hids. unfold FLMREncoder.forward.
  match goal with
  | |- context [FLMREncoder.bert_model ?enc ?a] =>
      replace (FLMREncoder.bert_model enc a) with (Ok (OutDict seq_out pooled hs at_))
        by (symmetry; exact Hbert)
  end.
  change (default (EncoderConfig.use_return_dict (FLMRContextEncoder.config self))
            (Some true)) with true.
  cbn [mbind result_bind getitem to_tuple py_index lookup list_lookup as_tensor].
  assert (select1_0_rank3 seq_out
          = Ok (Tensor [N; H] (concat (take H <$> chunk N (L * H) (data seq_out))))) as Hcls.
  { unfold select1_0_rank3, dim, select1_0. rewrite Hseq. cbn [length numel foldr].
    rewrite decide_True by lia. rewrite decide_False by lia. by rewrite Nat.mul_1_r. }
  rewrite Hcls. cbn [mbind result_bind].
  rewrite bool_decide_false by lia.
  by cbn [negb attr_hidden_states attr_attentions attr_pooler_output mbind result_bind
          as_tensor].
Qed.

Lemma FLMRContextEncoder_forward_pooler_witness :
  FLMRContextEncoder.forward toy_context_encoder (Some (Tensor [2; 2] [3; 0; 4; 5]%Z)) None None
    None None None (Some true)
  = Ok (EncoderDict (Tensor [2; 2] [3; 3; 4; 4]%Z) None None).
Proof.
  apply (FLMRContextEncoder_forward_pooler toy_context_encoder (Tensor [2; 2] [3; 0; 4; 5]%Z)
           None None None (Tensor [2; 2; 2] [3; 3; 0; 0; 4; 4; 5; 5]%Z) (Tensor [0] [])
           None None 2 2 2);
    [reflexivity|simpl; lia|reflexivity|reflexivity|lia].
Defined.

(** ** Sizes of the encoder and of the reader heads *)

Lemma FLMREncoder_init_fields
    (new_BertModel : EncoderConfig.t → result (BertModel.args → result model_outputs))
    (new_Linear : nat → nat → bool → Linear.t) (config : EncoderConfig.t)
    (self : FLMREncoder.t) :
  FLMREncoder.__init__ new_BertModel new_Linear config = Ok self →
  (0 < EncoderConfig.hidden_size config)%Z ∧
  FLMREncoder.hidden_size self = EncoderConfig.hidden_size config ∧
  FLMREncoder.projection_dim self = EncoderConfig.projection_dim config ∧
  FLMREncoder.encode_proj self
  = if bool_decide (0 < EncoderConfig.projection_dim config)%Z
    then Some (new_Linear (Z.to_nat (EncoderConfig.hidden_size config))
                 (Z.to_nat (EncoderConfig.projection_dim config)) true)
    else None.
Proof.
  intros H. unfold FLMREncoder.__init__, mbind, result_bind in H.
  ok_step H. case_bool_decide as Hh; [done|]. injection H as <-.
  split; [lia|done].
Qed.

(** An encoder built by [FLMREncoder.__init__] has a positive hidden size,
    and its [embeddings_size] is [projection_dim] when that is positive and
    the hidden size otherwise. *)
Theorem FLMREncoder_embeddings_size
    (new_BertModel : EncoderConfig.t → result (BertModel.args → result model_outputs))
    (new_Linear : nat → nat → bool → Linear.t) (config : EncoderConfig.t)
    (self : FLMREncoder.t) :
  linear_constructor new_Linear →
  FLMREncoder.__init__ new_BertModel new_Linear config = Ok self →
  (0 < EncoderConfig.hidden_size config)%Z ∧
  FLMREncoder.embeddings_size self
  = Ok (if bool_decide (0 < EncoderConfig.projection_dim config)%Z
        then EncoderConfig.projection_dim config
        else EncoderConfig.hidden_size config).
Proof.
  intros Hc H. destruct (FLMREncoder_init_fields _ _ _ _ H) as (Hh & Hhs & Hpd & Hep).
  split; [done|]. unfold FLMREncoder.embeddings_size. rewrite Hpd, Hep, Hhs.
  case_bool_decide as Hp; [|done].
  destruct (Hc (Z.to_nat (EncoderConfig.hidden_size config))
              (Z.to_nat (EncoderConfig.projection_dim config)) true) as (_ & -> & _).
  by rewrite Z2Nat.id by lia.
Qed.

Lemma FLMREncoder_embeddings_size_witness :
  (0 < EncoderConfig.hidden_size (toy_encoder_config 0))%Z ∧
  FLMREncoder.embeddings_size toy_FLMREncoder = Ok 2%Z.
Proof.
  apply (FLMREncoder_embeddings_size (λ _, Ok toy_bert) toy_new_Linear (toy_encoder_config 0)
           toy_FLMREncoder);
    [apply toy_new_Linear_constructor|reflexivity].
Defined.

Lemma FLMREncoder_forward_item0 (enc : FLMREncoder.t)
    (ids am tt emb : option (tensor Z)) (oa ohs rd : bool) outputs x :
  FLMREncoder.forward enc ids am tt emb oa ohs rd = Ok outputs →
  getitem outputs 0 = Ok x →
  ∃ args outputs0, FLMREncoder.bert_model enc args = Ok outputs0 ∧
                   getitem outputs0 0 = Ok x.
Proof.
  unfold FLMREncoder.forward, mbind, result_bind. intros H Hx.
  match type of H with
  | match ?m ?a with Ok _ => _ | Raise _ => _ end = Ok _ =>
      destruct (m a) as [outputs0|] eqn:Eb; cbn beta iota zeta in H; [|discriminate H];
      exists a, outputs0
  end.
  split; [done|].
  destruct (getitem outputs0 0) as [so|] eqn:Eso; cbn beta iota zeta in H; [|done].
  destruct (as_tensor so) as [t|] eqn:Et; cbn beta iota zeta in H; [|done].
  destruct so; try done. injection Et as ->.
  do 2 ok_step H. destruct rd; cbn [negb] in H.
  - do 2 ok_step H. injection H as <-. cbn in Hx. done.
  - injection H as <-. cbn in Hx. done.
Qed.

(** A span predictor built with a positive [projection_dim] other than the
    hidden size never returns from [forward]: [qa_outputs] expects
    [projection_dim] features, but is applied to the sequence output of BERT,
    which has [hidden_size] features. *)
Theorem FLMRSpanPredictor_projection_mismatch
    (new_BertModel : EncoderConfig.t → result (BertModel.args → result model_outputs))
    (new_Linear : nat → nat → bool → Linear.t) (config : EncoderConfig.t)
    (self : FLMRSpanPredictor.t)
    (input_ids attention_mask inputs_embeds : option (tensor Z))
    (output_attentions output_hidden_states return_dict : bool) :
  linear_constructor new_Linear →
  FLMRSpanPredictor.__init__ new_BertModel new_Linear config = Ok self →
  (0 < EncoderConfig.projection_dim config)%Z →
  EncoderConfig.projection_dim config ≠ EncoderConfig.hidden_size config →
  (∀ args outputs x,
     FLMREncoder.bert_model (FLMRSpanPredictor.encoder self) args = Ok outputs →
     getitem outputs 0 = Ok (PyTensor x) →
     ∃ lead, shape x = lead ++ [Z.to_nat (EncoderConfig.hidden_size config)]) →
  is_raise (FLMRSpanPredictor.forward self input_ids attention_mask inputs_embeds
              output_attentions output_hidden_states return_dict).
Proof.
  intros Hc Hinit Hp Hne Hbert.
  unfold FLMRSpanPredictor.__init__, mbind, result_bind in Hinit.
  destruct (FLMREncoder.__init__ _ _ _) as [enc|] eqn:Eenc; [|done].
  destruct (FLMREncoder_init_fields _ _ _ _ Eenc) as (Hh & Hhs & Hpd & Hep).
  unfold FLMREncoder.embeddings_size in Hinit.
  rewrite Hpd, Hep, !bool_decide_true in Hinit by done.
  destruct (Hc (Z.to_nat (EncoderConfig.hidden_size config))
              (Z.to_nat (EncoderConfig.projection_dim config)) true) as (_ & Hout & _).
  rewrite Hout, Z2Nat.id in Hinit by lia. injection Hinit as <-.
  cbn [FLMRSpanPredictor.encoder] in Hbert.
  unfold FLMRSpanPredictor.forward, mbind, result_bind.
  cbn [FLMRSpanPredictor.encoder FLMRSpanPredictor.qa_outputs].
  do 2 raise_step.
  destruct (FLMREncoder.forward enc _ _ _ _ _ _ _) as [outputs|] eqn:Ef; [|done].
  destruct (getitem outputs 0) as [so|] eqn:Eso; [|done].
  destruct (as_tensor so) as [x|] eqn:Ex; [|done].
  destruct so; try done. injection Ex as ->.
  destruct (FLMREncoder_forward_item0 _ _ _ _ _ _ _ _ _ _ Ef Eso) as (args & o0 & Hb & Hi).
  destruct (Hbert _ _ _ Hb Hi) as [lead Hs].
  unfold Linear.forward. rewrite Hs, split_last_app.
  destruct (Hc (Z.to_nat (EncoderConfig.projection_dim config)) 2 true) as (-> & _).
  rewrite decide_False; [done|]. intros Heq. apply Z2Nat.inj in Heq; lia.
Qed.

Lemma FLMRSpanPredictor_projection_mismatch_witness :
  is_raise (FLMRSpanPredictor.forward toy_projected_span_predictor
              (Some (Tensor [1; 2] [3; 4]%Z)) None None false false false).
Proof.
  apply (FLMRSpanPredictor_projection_mismatch (λ _, Ok toy_bert) toy_new_Linear
           (toy_encoder_config 3) toy_projected_span_predictor
           (Some (Tensor [1; 2] [3; 4]%Z)) None None false false false).
  - apply toy_new_Linear_constructor.
  - reflexivity.
  - simpl. lia.
  - simpl. lia.
  - intros args outputs x. cbn. unfold toy_bert.
    destruct (BertModel.input_ids args) as [ids|]; [|discriminate].
    destruct (BertModel.return_dict args); intros [= <-] [= <-]; by exists (shape ids).
Defined.
